(** * ff4d: a FUSE filesystem over a remote object store

    A shallow embedding of the class [Dropbox] of [ff4d.py]: the metadata
    cache ([self.cache]), the table of open file handles ([self.openfh],
    [self.runfh]) and the filesystem operations built on them.

    Conventions of the embedding.
    - The Dropbox client [dbx] is an interface ([Remote]): each call takes
      the remote's state and returns its reply with the next state, so the
      statements hold for every behaviour of the remote store.
    - An operation is a function of the program state returning an outcome
      and the state it leaves behind; a raised exception keeps the
      mutations made before it, as in Python.
    - The program runs under Python 3: [str] and [bytes] are different
      types.  Paths are [str], the data of a write and of a read are
      [bytes], and [path.encode('utf-8')] is a [bytes] object.  Adding a
      [str] and a [bytes] object raises [TypeError], and the two never
      compare equal.
    - The dictionaries that describe remote objects are records of the keys
      the program reads; an absent key is [None].
    - [debug] and [debug_raw] are off: logging is not modelled.
    - [int(time())] is read once per operation and passed as [now]. *)

From Stdlib Require Import ZArith String Ascii List Bool Lia.
From stdpp Require Import base option list gmap strings numbers list_numbers pretty.

#[local] Set Warnings "-register-all".

Open Scope string_scope.
Open Scope Z_scope.
Open Scope list_scope.

(** ** Python values the program handles *)

Definition bytes := list Byte.byte.

(** [len(x)] as a Python integer. *)
Definition len {A} (l : list A) : Z := Z.of_nat (length l).

Inductive errno := EIO | ENOENT | EOPNOTSUPP | EREMOTEIO.

Inductive exn :=
| FuseOSError (e : errno)
| KeyError (key : string)
| AttributeError (attr : string)
| TypeError
| ValueError
| PyException (msg : string).

(** [str(e)] for the exceptions above. *)
Definition exn_str (e : exn) : string :=
  match e with
  | FuseOSError EIO => "[Errno 5] Input/output error"
  | FuseOSError ENOENT => "[Errno 2] No such file or directory"
  | FuseOSError EOPNOTSUPP => "[Errno 95] Operation not supported"
  | FuseOSError EREMOTEIO => "[Errno 121] Remote I/O error"
  | KeyError k => ("'" ++ k ++ "'")%string
  | AttributeError a => a
  | TypeError => "TypeError"
  | ValueError => "ValueError"
  | PyException msg => msg
  end.

(** The outcome of a call: a value, an exception, or the busy wait of
    [read] that never ends. *)
Inductive result (A : Type) :=
| Return (a : A)
| Raise (e : exn)
| Spin.
Arguments Return {A} a.
Arguments Raise {A} e.
Arguments Spin {A}.

(** The reply of the remote store to one call. *)
Inductive reply (A : Type) :=
| Ok (a : A)
| Failed (e : exn).
Arguments Ok {A} a.
Arguments Failed {A} e.

(** ** Metadata dictionaries

    One record for the dictionaries built by [dbxStruct] and stored in the
    cache.  [i_is_deleted] is [item.get('is_deleted', False)]. *)
Inductive metadata := Metadata {
  i_path : option string;            (* 'path' *)
  i_path_display : option string;    (* 'path_display' *)
  i_tag : option string;             (* '.tag' *)
  i_size : option Z;                 (* 'size' *)
  i_client_modified : option string; (* 'client_modified' *)
  i_id : option string;              (* 'id' *)
  i_is_deleted : bool;
  i_error : option string;           (* 'error' *)
  i_cachets : option Z;              (* 'cachets' *)
  i_entries : option (list metadata);    (* 'entries' *)
  i_contents : option (list metadata)    (* 'contents' *)
}.

Definition set_path (p : string) (it : metadata) : metadata :=
  Metadata (Some p) (i_path_display it) (i_tag it) (i_size it)
    (i_client_modified it) (i_id it) (i_is_deleted it) (i_error it)
    (i_cachets it) (i_entries it) (i_contents it).

Definition set_cachets (c : Z) (it : metadata) : metadata :=
  Metadata (i_path it) (i_path_display it) (i_tag it) (i_size it)
    (i_client_modified it) (i_id it) (i_is_deleted it) (i_error it)
    (Some c) (i_entries it) (i_contents it).

Definition set_entries (es : list metadata) (it : metadata) : metadata :=
  Metadata (i_path it) (i_path_display it) (i_tag it) (i_size it)
    (i_client_modified it) (i_id it) (i_is_deleted it) (i_error it)
    (i_cachets it) (Some es) (i_contents it).

(** The reply of an upload-session call after [dbxStruct]: the program
    reads its key 'session_id'. *)
Record session_result := { session_id : option string }.

(** ** Paths: [os.path.dirname] *)

Definition is_sep (c : ascii) : bool := Ascii.eqb c "/"%char.

Fixpoint dropwhile {A} (p : A → bool) (l : list A) : list A :=
  match l with
  | [] => []
  | x :: l' => if p x then dropwhile p l' else l
  end.

(** [head = p[:p.rfind('/')+1]], stripped of its trailing slashes unless it
    is made of slashes only.  Computed on the reversed path. *)
Definition dirname (p : string) : string :=
  let head := dropwhile (λ c, negb (is_sep c)) (rev (list_ascii_of_string p)) in
  let head' := if forallb is_sep head then head else dropwhile is_sep head in
  string_of_list_ascii (rev head').

(** ** File handles *)

Inductive fh_mode := mode_r | mode_w.

(** The value under 'buf' of an upload: the [str] [''] that [write]
    stores after an upload, or the [bytes] it keeps back. *)
Inductive buf_value := Buf_str | Buf_bytes (b : bytes).

(** A path handed to the client: a [str], or the [bytes] of
    [path.encode('utf-8')]. *)
Inductive pypath := Path_str (s : string) | Path_bytes (b : bytes).

(** [s.encode('utf-8')]: the bytes of the string. *)
Definition encode (s : string) : bytes := list_byte_of_string s.

(** [len(x)] *)
Definition buf_len (x : buf_value) : Z :=
  match x with
  | Buf_str => 0
  | Buf_bytes b => len b
  end.

(** The dictionary [{'upload_id':..., 'offset':..., 'buf':...}]. *)
Record upload := {
  upload_id : string;
  up_offset : Z;
  up_buf : buf_value
}.

(** [openfh[fh]['f']]: [False], the raw stream of a download, or the
    dictionary of an upload. *)
Inductive fh_f (Stream : Type) :=
| F_False
| F_raw (s : Stream)
| F_dict (u : upload).
Arguments F_False {Stream}.
Arguments F_raw {Stream} s.
Arguments F_dict {Stream} u.

Record fh_entry (Stream : Type) := {
  fh_mode_of : fh_mode;       (* 'mode' *)
  fh_f_of : fh_f Stream;      (* 'f' *)
  fh_lock : bool;             (* 'lock' *)
  fh_eoffset : Z              (* 'eoffset' *)
}.
Arguments fh_mode_of {Stream} _.
Arguments fh_f_of {Stream} _.
Arguments fh_lock {Stream} _.
Arguments fh_eoffset {Stream} _.
Arguments Build_fh_entry {Stream} _ _ _ _.

(** ** The remote store client

    The calls of [dbx] the program makes.  The replies are the
    dictionaries [dbxStruct] would build from them.  The call
    [files_upload_session_append_v2] has no result: the client returns
    [None]. *)
Class Remote (R Stream : Type) := {
  files_list_folder : string → R → reply metadata * R;
  files_get_metadata : string → R → reply metadata * R;
  files_move : string → string → R → reply unit * R;
  files_delete : string → R → reply unit * R;
  files_create_folder : string → R → reply unit * R;
  files_upload_session_start : bytes → R → reply session_result * R;
  files_upload_session_append_v2 :
    bytes → string → Z → R → reply unit * R;
  files_upload_session_finish :
    bytes → string → Z → string → R → reply metadata * R;
  files_download : string → R → reply Stream * R;
  raw_read : Stream → Z → reply bytes * Stream
}.

(** The calls made to the remote store, in order: a ghost log. *)
Inductive api_call :=
| Call_list_folder (path : string)
| Call_get_metadata (path : string)
| Call_move (old new : string)
| Call_delete (path : string)
| Call_create_folder (path : string)
| Call_session_start (data : bytes)
| Call_session_append (data : bytes) (upload_id : string) (offset : Z)
| Call_session_finish (path : string) (upload_id : string) (offset : Z)
| Call_download (path : string).

(** The global settings [cache_time] and [write_cache]. *)
Record config := {
  cache_time : Z;
  write_cache : Z
}.

(** ** The operating system as [getattr] sees it *)

Record passwd := { pw_uid : Z; pw_gid : Z }.

(** [datetime.strptime(s, fmt).timetuple()] *)
Record struct_time := {
  tm_year : Z; tm_mon : Z; tm_mday : Z;
  tm_hour : Z; tm_min : Z; tm_sec : Z
}.

(** The credentials of the process, the password database and the time
    functions of the library.  [pwd_getpwuid] is [None] where
    [pwd.getpwuid] raises [KeyError], [strptime] where the text does not
    match the format ([ValueError]). *)
Record os_env := {
  os_getuid : Z;
  os_geteuid : Z;
  os_getgid : Z;
  os_getegid : Z;
  pwd_getpwuid : Z → option passwd;
  strptime : string → string → option struct_time;
  mktime : struct_time → Z
}.

(** The dictionary [getattr] returns. *)
Record stat := {
  st_mode : Z;
  st_size : Z;
  st_ctime : Z;
  st_mtime : Z;
  st_atime : Z;
  st_uid : Z;
  st_gid : Z;
  st_nlink : Z
}.

Definition S_IFDIR : Z := 0x4000.
Definition S_IFREG : Z := 0x8000.
Definition S_IFMT : Z := 0xF000.
Definition O_APPEND : Z := 0x400.

(** The permission bits [0o755] and [0o644]. *)
Definition perm_755 : Z := 7 * 64 + 5 * 8 + 5.
Definition perm_644 : Z := 6 * 64 + 4 * 8 + 4.

(** [s.endswith(suffix)] *)
Definition endswith (s suffix : string) : bool :=
  let n := String.length s in
  let k := String.length suffix in
  (k <=? n)%nat && String.eqb (String.substring (n - k) k s) suffix.

(** ** Program state and the monad of operations *)

Record dbx_state (R Stream : Type) := {
  dbx : R;                               (* the remote store *)
  cache : gmap string metadata;              (* self.cache *)
  openfh : gmap Z (fh_entry Stream);     (* self.openfh *)
  runfh : gmap Z bool;                   (* self.runfh *)
  trace : list api_call                  (* ghost: remote calls so far *)
}.
Arguments dbx {R Stream} _.
Arguments cache {R Stream} _.
Arguments openfh {R Stream} _.
Arguments runfh {R Stream} _.
Arguments trace {R Stream} _.
Arguments Build_dbx_state {R Stream} _ _ _ _ _.

(** [Dropbox.__init__]. *)
Definition init {R Stream} (d : R) : dbx_state R Stream :=
  Build_dbx_state d ∅ ∅ ∅ [].

Definition M (S A : Type) : Type := S → result A * S.

Definition ret {S A} (a : A) : M S A := λ s, (Return a, s).

Definition bind {S A B} (m : M S A) (k : A → M S B) : M S B :=
  λ s, match m s with
       | (Return a, s') => k a s'
       | (Raise e, s') => (Raise e, s')
       | (Spin, s') => (Spin, s')
       end.

Definition raise {S A} (e : exn) : M S A := λ s, (Raise e, s).

Definition spin {S A} : M S A := λ s, (Spin, s).

(** [try: m except Exception as e: h e]. *)
Definition try_except {S A} (m : M S A) (h : exn → M S A) : M S A :=
  λ s, match m s with
       | (Raise e, s') => h e s'
       | r => r
       end.

(** A computation that does not touch the state. *)
Definition lift {S A} (r : result A) : M S A := λ s, (r, s).

Definition gets {S A} (p : S → A) : M S A := λ s, (Return (p s), s).

Definition modify {S} (u : S → S) : M S unit := λ s, (Return tt, u s).

Notation "'let*' x ':=' m 'in' k" := (bind m (λ x, k))
  (at level 20, x name, m at level 100, k at level 200, only parsing).
Notation "m ;;; k" := (bind m (λ _, k))
  (at level 100, k at level 200, right associativity, only parsing).

Section Dropbox.

Context {R Stream : Type} `{Remote R Stream}.
Variable cfg : config.

Abbreviation state := (dbx_state R Stream).
Abbreviation op := (M (dbx_state R Stream)).

Definition set_cache (c : gmap string metadata) (s : state) : state :=
  Build_dbx_state (dbx s) c (openfh s) (runfh s) (trace s).

Definition set_openfh (o : gmap Z (fh_entry Stream)) (s : state) : state :=
  Build_dbx_state (dbx s) (cache s) o (runfh s) (trace s).

Definition set_runfh (r : gmap Z bool) (s : state) : state :=
  Build_dbx_state (dbx s) (cache s) (openfh s) r (trace s).

Definition modify_cache (u : gmap string metadata → gmap string metadata) : op unit :=
  modify (λ s, set_cache (u (cache s)) s).

Definition modify_openfh
  (u : gmap Z (fh_entry Stream) → gmap Z (fh_entry Stream)) : op unit :=
  modify (λ s, set_openfh (u (openfh s)) s).

Definition modify_runfh (u : gmap Z bool → gmap Z bool) : op unit :=
  modify (λ s, set_runfh (u (runfh s)) s).

(** One call of the client [dbx]: the call is logged, the remote moves to
    its next state, and a failure is raised as an exception. *)
Definition call {A} (c : api_call) (rpc : R → reply A * R) : op A :=
  λ s, let '(r, d) := rpc (dbx s) in
       let s' := Build_dbx_state d (cache s) (openfh s) (runfh s)
                   (trace s ++ [c]) in
       match r with
       | Ok a => (Return a, s')
       | Failed e => (Raise e, s')
       end.

(** *** Adding [str] and [bytes] *)

(** [x + buf] for the value [x] under 'buf' and the [bytes] of a write. *)
Definition buf_add (x : buf_value) (buf : bytes) : op bytes :=
  match x with
  | Buf_str => raise TypeError
  | Buf_bytes b => ret (b ++ buf)
  end.

(** [s + p] for a [str] and a path. *)
Definition str_add (s : string) (p : pypath) : op string :=
  match p with
  | Path_str x => ret (s ++ x)%string
  | Path_bytes _ => raise TypeError
  end.

(** *** Wrapper functions around API calls *)

(** [for tmp in result['entries']: tmp['path'] = tmp['path_display']] *)
Fixpoint set_entry_paths (es : list metadata) : op (list metadata) :=
  match es with
  | [] => ret []
  | tmp :: es' =>
      match i_path_display tmp with
      | None => raise (KeyError "path_display")
      | Some d =>
          let* r := set_entry_paths es' in
          ret (set_path d tmp :: r)
      end
  end.

(** [dbxMetadata]: [None] is the [False] it returns when the query fails.
    The argument [mhash] only reaches the unused dictionary [args]. *)
Definition dbxMetadata (path : string) (mhash : option string)
  : op (option metadata) :=
  let query_path := if decide (path = "/") then "" else path in
  let* r :=
    try_except
      (let* result :=
         call (Call_list_folder query_path) (files_list_folder query_path) in
       match i_error result with
       | Some err =>
           if decide (err = "not_found") then
             raise (PyException "apiRequest failed. HTTPError: 404")
           else if decide (err = "not_folder") then
             let* result :=
               call (Call_get_metadata query_path)
                    (files_get_metadata query_path) in
             ret (Some result)
           else raise (PyException "API Query failed")
       | None => ret (Some result)
       end)
      (λ _, ret None) in
  match r with
  | None => ret None
  | Some result =>
      let result := set_path path result in
      match i_entries result with
      | Some es =>
          let* es' := set_entry_paths es in
          ret (Some (set_entries es' result))
      | None => ret (Some result)
      end
  end.

(** [dbxFileMove]: the client checks its arguments before it sends a
    request; a path that is not a [str] fails the check and no call is
    made. *)
Definition dbxFileMove (old new : pypath) : op unit :=
  match old, new with
  | Path_str o, Path_str n => call (Call_move o n) (files_move o n)
  | _, _ => raise (PyException "ValidationError")
  end.

Definition dbxFileDelete (path : string) : op unit :=
  call (Call_delete path) (files_delete path).

Definition dbxFileCreateFolder (path : string) : op unit :=
  call (Call_create_folder path) (files_create_folder path).

(** [dbxChunkedUpload]: returns the keys 'upload_id' and 'offset' of its
    result.  After an append [result] is [dbxStruct(None)], the empty
    dictionary, and [result['session_id']] is a [KeyError]. *)
Definition dbxChunkedUpload (data : bytes) (upload_id : string) (offset : Z)
  : op (string * Z) :=
  if decide (upload_id = "") then
    let* result :=
      call (Call_session_start data) (files_upload_session_start data) in
    match session_id result with
    | None => raise (KeyError "session_id")
    | Some sid => ret (sid, offset + len data)
    end
  else
    call (Call_session_append data upload_id offset)
         (files_upload_session_append_v2 data upload_id offset) ;;;
    raise (KeyError "session_id").

Definition dbxCommitChunkedUpload (path upload_id : string) (offset : Z)
  : op metadata :=
  call (Call_session_finish path upload_id offset)
       (files_upload_session_finish [] upload_id offset path).

(** [dbxFilehandle]: the argument [seek] is not used. *)
Definition dbxFilehandle (path : string) (seek : Z) : op Stream :=
  call (Call_download path) (files_download path).

(** *** Helper functions *)

Definition new_fh (mode : fh_mode) : fh_entry Stream :=
  Build_fh_entry mode F_False false 0.

(** [getFH]: [None] is the [False] returned when the range is used up. *)
Definition getFH (mode : fh_mode) : op (option Z) :=
  let* o := gets openfh in
  match list_find (λ i, o !! i = None) (seqZ 1 8192) with
  | Some (_, i) =>
      modify_openfh (insert i (new_fh mode)) ;;;
      modify_runfh (insert i false) ;;;
      ret (Some i)
  | None => ret None
  end.

(** [releaseFH]: returns Python's [None] (here [None]) after removing the
    handle and [False] (here [Some false]) when there is none. *)
Definition releaseFH (fh : Z) : op (option bool) :=
  let* o := gets openfh in
  if decide (is_Some (o !! fh)) then
    modify_openfh (delete fh) ;;;
    let* r := gets runfh in
    if decide (is_Some (r !! fh)) then
      modify_runfh (delete fh) ;;; ret None
    else raise (KeyError (pretty fh))
  else ret (Some false).

(** The loop of [removeFromCache] over [item['contents']]. *)
Fixpoint pop_contents (l : list metadata) : op unit :=
  match l with
  | [] => ret tt
  | tmp :: l' =>
      match i_path tmp with
      | None => raise (KeyError "path")
      | Some p =>
          let* c := gets cache in
          (if decide (is_Some (c !! p)) then modify_cache (delete p)
           else ret tt) ;;;
          pop_contents l'
      end
  end.

Definition removeFromCache (path : string) : op bool :=
  let* c := gets cache in
  match c !! path with
  | Some item =>
      (match i_entries item, i_contents item with
       | Some _, Some contents => pop_contents contents
       | _, _ =>
           let cur_path := dirname path in
           let* c := gets cache in
           match c !! cur_path with
           | Some parent =>
               if decide (is_Some (i_entries parent)) then
                 modify_cache (delete (dirname path))
               else ret tt
           | None => ret tt
           end
       end) ;;;
      let* c := gets cache in
      (if decide (is_Some (c !! path)) then modify_cache (delete path)
       else ret tt) ;;;
      ret true
  | None => ret false
  end.

(** The loop of the refresh over [item['entries']]: a child that is not
    itself a listing and is not deleted gets the time stamp and is cached
    under its path.  The loop updates the dictionaries of the list in
    place, so the listing cached under the folder's path holds the stamped
    children: [stamp_entries] is the list after the loop, [cache_entries]
    the cache after it.  A child without 'path' ends the loop (the
    [KeyError] is caught by the caller's [except]). *)
Fixpoint stamp_entries (cachets : Z) (es : list metadata) : list metadata :=
  match es with
  | [] => []
  | tmp :: es' =>
      if decide (is_Some (i_entries tmp)) then tmp :: stamp_entries cachets es'
      else if i_is_deleted tmp then tmp :: stamp_entries cachets es'
      else
        let tmp' := set_cachets cachets tmp in
        match i_path tmp' with
        | None => tmp' :: es'
        | Some _ => tmp' :: stamp_entries cachets es'
        end
  end.

Fixpoint cache_entries (cachets : Z) (es : list metadata) (c : gmap string metadata)
  : gmap string metadata :=
  match es with
  | [] => c
  | tmp :: es' =>
      if decide (is_Some (i_entries tmp)) then cache_entries cachets es' c
      else if i_is_deleted tmp then cache_entries cachets es' c
      else
        let tmp' := set_cachets cachets tmp in
        match i_path tmp' with
        | None => c
        | Some p => cache_entries cachets es' (<[p := tmp']> c)
        end
  end.

(** The loop of the first fetch: [self.cache[tmp['path']] = tmp]. *)
Fixpoint cache_listing (es : list metadata) : op unit :=
  match es with
  | [] => ret tt
  | tmp :: es' =>
      match i_path tmp with
      | None => raise (KeyError "path")
      | Some p => modify_cache (insert p tmp) ;;; cache_listing es'
      end
  end.

(** The branch of [getDropboxMetadata] that asks the remote store again.
    The local variable [item] is what the function returns after the
    [try]: the cached entry if [dbxMetadata] raised, [False] if it
    returned [False] (the [AttributeError] of [False.get] is caught), the
    new dictionary otherwise. *)
Definition refresh (now : Z) (path : string) (item : metadata)
  : op (option metadata) :=
  let hash := i_id item in
  let* fetched :=
    try_except
      (let* r := dbxMetadata path hash in ret (Some r))
      (λ _, ret None) in
  match fetched with
  | None => ret (Some item)
  | Some None => ret None
  | Some (Some item) =>
      if i_is_deleted item then ret None
      else
        try_except
          (removeFromCache path ;;;
           let cachets := now + cache_time cfg in
           let item := set_cachets cachets item in
           match i_entries item with
           | None =>
               modify_cache (insert path item) ;;;
               ret (Some item)
           | Some es =>
               let item := set_entries (stamp_entries cachets es) item in
               modify_cache (λ c, cache_entries cachets es (<[path := item]> c)) ;;;
               ret (Some item)
           end)
          (λ _, ret (Some item))
  end.

(** [getDropboxMetadata]: [None] is the [False] it returns for a path
    that does not exist. *)
Definition getDropboxMetadata (now : Z) (path : string) (deep : bool)
  : op (option metadata) :=
  let* c := gets cache in
  match c !! path with
  | Some item =>
      let* expired :=
        match i_entries item with
        | Some _ =>
            match i_cachets item with
            | Some cachets => ret (cachets <? now)
            | None => raise (KeyError "cachets")
            end
        | None => ret false
        end in
      if expired || (deep && negb (bool_decide (is_Some (i_contents item))))
      then refresh now path item
      else ret (Some item)
  | None =>
      let* fetched :=
        try_except
          (let* c := gets cache in
           match c !! dirname path with
           | Some parent =>
               if decide (is_Some (i_contents parent)) then ret None
               else dbxMetadata path None
           | None => dbxMetadata path None
           end)
          (λ e,
             if decide (exn_str e = "apiRequest failed. HTTPError: 404")
             then ret None
             else raise (FuseOSError EREMOTEIO)) in
      match fetched with
      | None => ret None
      | Some item =>
          if i_is_deleted item then ret None
          else
            let cachets := now + cache_time cfg in
            let item := set_cachets cachets item in
            modify_cache (insert path item) ;;;
            match i_path item with
            | None => raise (KeyError "path")
            | Some _ =>
                match i_entries item with
                | Some es => cache_listing es ;;; ret (Some item)
                | None => ret (Some item)
                end
            end
      end
  end.

(** *** Filesystem functions *)

Definition mkdir (path : string) (mode : Z) : op Z :=
  try_except (dbxFileCreateFolder path) (λ _, raise (FuseOSError EIO)) ;;;
  removeFromCache (dirname path) ;;;
  ret 0.

Definition rmdir (path : string) : op Z :=
  try_except (dbxFileDelete path) (λ _, raise (FuseOSError EIO)) ;;;
  removeFromCache path ;;;
  removeFromCache (dirname path) ;;;
  ret 0.

Definition unlink (path : string) : op Z :=
  removeFromCache path ;;;
  try_except (dbxFileDelete path) (λ _, raise (FuseOSError EIO)) ;;;
  ret 0.

(** [rename] rebinds [old] and [new] to their encodings.  The handler
    builds its message with ['...' + old] before it raises; the keys of
    the cache are [str], so [removeFromCache(old)] finds no entry. *)
Definition rename (old new : string) : op Z :=
  let old := Path_bytes (encode old) in
  let new := Path_bytes (encode new) in
  try_except (dbxFileMove old new)
    (λ _, str_add "Could not rename object: " old ;;;
          raise (FuseOSError EIO)) ;;;
  (match old with
   | Path_str o => removeFromCache o
   | Path_bytes _ => ret false
   end) ;;;
  ret 0.

Definition set_f (v : fh_f Stream) (e : fh_entry Stream) : fh_entry Stream :=
  Build_fh_entry (fh_mode_of e) v (fh_lock e) (fh_eoffset e).

Definition set_lock (b : bool) (e : fh_entry Stream) : fh_entry Stream :=
  Build_fh_entry (fh_mode_of e) (fh_f_of e) b (fh_eoffset e).

Definition set_eoffset (z : Z) (e : fh_entry Stream) : fh_entry Stream :=
  Build_fh_entry (fh_mode_of e) (fh_f_of e) (fh_lock e) z.

(** [self.openfh[fh]] *)
Definition the_fh (fh : Z) : op (fh_entry Stream) :=
  let* o := gets openfh in
  match o !! fh with
  | Some e => ret e
  | None => raise (KeyError (pretty fh))
  end.

(** [self.openfh[fh]['f'].read(length)]: the stream object moves on. *)
Definition f_read (fh length : Z) : op bytes :=
  let* e := the_fh fh in
  match fh_f_of e with
  | F_raw s =>
      let '(r, s') := raw_read s length in
      modify_openfh (alter (set_f (F_raw s')) fh) ;;;
      match r with
      | Ok rbytes => ret rbytes
      | Failed x => raise x
      end
  | F_dict _ => raise (AttributeError "read")
  | F_False => raise (AttributeError "read")
  end.

Definition read (path : string) (length offset fh : Z) : op bytes :=
  let* e := the_fh fh in
  if fh_lock e then spin
  else
    modify_runfh (insert fh true) ;;;
    (match fh_f_of e with
     | F_False =>
         try_except
           (let* s := dbxFilehandle path offset in
            modify_openfh (alter (set_f (F_raw s)) fh))
           (λ _, raise (FuseOSError EIO))
     | _ =>
         if decide (fh_eoffset e ≠ offset) then
           let* s := dbxFilehandle path offset in
           modify_openfh (alter (set_f (F_raw s)) fh)
         else ret tt
     end) ;;;
    let* rbytes :=
      try_except (f_read fh length) (λ _, raise (FuseOSError EIO)) in
    modify_openfh (alter (set_lock false) fh) ;;;
    modify_runfh (insert fh false) ;;;
    modify_openfh (alter (set_eoffset (offset + len rbytes)) fh) ;;;
    ret rbytes.

Definition write (path : string) (buf : bytes) (offset fh : Z) : op Z :=
  try_except
    (let* o := gets openfh in
     match o !! fh with
     | Some e =>
         match fh_f_of e with
         | F_False =>
             (if decide (len buf >= write_cache cfg ∨ len buf < 4096) then
                let* result := dbxChunkedUpload buf "" 0 in
                modify_openfh
                  (alter (set_f (F_dict
                     {| upload_id := fst result; up_offset := snd result;
                        up_buf := Buf_str |})) fh)
              else
                modify_openfh
                  (alter (set_f (F_dict
                     {| upload_id := ""; up_offset := 0;
                        up_buf := Buf_bytes buf |})) fh)) ;;;
             ret (len buf)
         | F_dict f =>
             (if decide (len buf + buf_len (up_buf f) >= write_cache cfg
                         ∨ len buf < 4096) then
                let* data := buf_add (up_buf f) buf in
                let* result :=
                  dbxChunkedUpload data (upload_id f) (up_offset f) in
                modify_openfh
                  (alter (set_f (F_dict
                     {| upload_id := fst result; up_offset := snd result;
                        up_buf := Buf_str |})) fh)
              else
                let* data := buf_add (up_buf f) buf in
                modify_openfh
                  (alter (set_f (F_dict
                     {| upload_id := upload_id f; up_offset := up_offset f;
                        up_buf := Buf_bytes data |})) fh)) ;;;
             ret (len buf)
         | F_raw _ => raise TypeError
         end
     | None => raise (FuseOSError EIO)
     end)
    (λ _, raise (FuseOSError EIO)).

Definition open (path : string) (flags : Z) : op (option Z) :=
  if decide (Z.land flags O_APPEND ≠ 0) then raise (FuseOSError EOPNOTSUPP)
  else getFH mode_r.

(** [create]: [now_str] is [datetime.now().strftime('%Y-%m-%dT%H:%M:%SZ')]. *)
Definition create (now_str : string) (path : string) (mode : Z)
  : op (option Z) :=
  let* fh := getFH mode_w in
  let cachedfh :=
    Metadata (Some path) None (Some "file") (Some 0) (Some now_str) None
      false None None None None in
  modify_cache (insert path cachedfh) ;;;
  ret fh.

Definition release (path : string) (fh : Z) : op Z :=
  let* e := the_fh fh in
  (match fh_f_of e with
   | F_dict f =>
       if decide (upload_id f ≠ "") then
         (match up_buf f with
          | Buf_bytes b =>
              dbxChunkedUpload b (upload_id f) (up_offset f) ;;; ret tt
          | Buf_str => ret tt
          end) ;;;
         dbxCommitChunkedUpload path (upload_id f) (up_offset f) ;;;
         ret tt
       else ret tt
   | _ => ret tt
   end) ;;;
  (match fh_mode_of e with
   | mode_w => removeFromCache (dirname path) ;;; ret tt
   | mode_r => ret tt
   end) ;;;
  releaseFH fh ;;;
  ret 0.

(** The time of last modification [getattr] computes. *)
Definition modified_time (env : os_env) (now : Z) (item : metadata)
  : result Z :=
  match i_client_modified item with
  | Some modified =>
      let fmt := if endswith modified "Z" then "%Y-%m-%dT%H:%M:%SZ"
                 else "%Y-%m-%d %H:%M:%S" in
      match strptime env modified fmt with
      | Some tm => Return (mktime env tm)
      | None => Raise ValueError
      end
  | None => Return now
  end.

(** [getattr]: [Return None] is the function ending without [return]. *)
Definition getattr (env : os_env) (now : Z) (path : string)
  : op (option stat) :=
  match pwd_getpwuid env (os_getuid env) with
  | None => raise (KeyError "getpwuid(): uid not found")
  | Some pw =>
      let uid := pw_uid pw in
      let gid := pw_gid pw in
      let* found := getDropboxMetadata now path false in
      match found with
      | None => raise (FuseOSError ENOENT)
      | Some item =>
          let* modified := lift (modified_time env now item) in
          let* is_folder :=
            match i_entries item with
            | Some _ => ret true
            | None =>
                match i_tag item with
                | Some tag => ret (bool_decide (tag = "folder"))
                | None => raise (KeyError ".tag")
                end
            end in
          if is_folder then
            ret (Some {| st_mode := Z.lor S_IFDIR perm_755; st_size := 0;
                         st_ctime := modified; st_mtime := modified;
                         st_atime := now; st_uid := uid; st_gid := gid;
                         st_nlink := 2 |})
          else
            match i_tag item with
            | Some tag =>
                if decide (tag = "file") then
                  match i_size item with
                  | Some size =>
                      ret (Some {| st_mode := Z.lor S_IFREG perm_644;
                                   st_size := size;
                                   st_ctime := modified; st_mtime := modified;
                                   st_atime := now; st_uid := uid;
                                   st_gid := gid; st_nlink := 1 |})
                  | None => raise (KeyError "size")
                  end
                else ret None
            | None => raise (KeyError ".tag")
            end
      end
  end.

End Dropbox.

(** ** A remote store to run the program against

    An in-memory store: objects by path in listing order, upload
    sessions, and a switch that makes every call fail (no network).  Its
    calls answer as those of the client: a listing of a path that is not
    a folder fails, an append has no result, and a download is a stream
    over the whole object, from its first byte. *)
Module Sim.

Inductive node := File (data : bytes) | Folder.

Record stream := { content : bytes; pos : nat }.

Record remote := {
  objects : list (string * node);
  sessions : list (string * bytes);
  online : bool
}.

Definition lookup_path {A} (p : string) (l : list (string * A)) : option A :=
  snd <$> List.find (λ x, String.eqb (fst x) p) l.

Definition remove_path {A} (p : string) (l : list (string * A))
  : list (string * A) :=
  List.filter (λ x, negb (String.eqb (fst x) p)) l.

Definition meta_of (x : string * node) : metadata :=
  match snd x with
  | File data =>
      Metadata None (Some (fst x)) (Some "file") (Some (len data))
        (Some "2024-05-01 10:00:00") (Some ("id:" ++ fst x)%string) false
        None None None None
  | Folder =>
      Metadata None (Some (fst x)) (Some "folder") None None
        (Some ("id:" ++ fst x)%string) false None None None None
  end.

Definition listing (dir : string) (r : remote) : metadata :=
  Metadata None None None None None None false None None
    (Some (meta_of <$>
             List.filter (λ x, String.eqb (dirname (fst x)) dir) (objects r)))
    None.

Definition offline {A} (r : remote) : reply A * remote :=
  (Failed (PyException "ConnectionError"), r).

Definition api_error {A} (r : remote) : reply A * remote :=
  (Failed (PyException "ApiError"), r).

Definition list_folder (q : string) (r : remote) : reply metadata * remote :=
  if negb (online r) then offline r
  else if String.eqb q "" then (Ok (listing "/" r), r)
  else match lookup_path q (objects r) with
       | Some Folder => (Ok (listing q r), r)
       | _ => api_error r
       end.

Definition get_metadata (q : string) (r : remote) : reply metadata * remote :=
  if negb (online r) then offline r
  else match lookup_path q (objects r) with
       | Some n => (Ok (meta_of (q, n)), r)
       | None => api_error r
       end.

Definition put (p : string) (n : node) (r : remote) : remote :=
  {| objects := remove_path p (objects r) ++ [(p, n)];
     sessions := sessions r; online := online r |}.

Definition remove (p : string) (r : remote) : remote :=
  {| objects := remove_path p (objects r);
     sessions := sessions r; online := online r |}.

Definition move (old new : string) (r : remote) : reply unit * remote :=
  if negb (online r) then offline r
  else match lookup_path old (objects r) with
       | Some n => (Ok tt, put new n (remove old r))
       | None => api_error r
       end.

Definition delete (p : string) (r : remote) : reply unit * remote :=
  if negb (online r) then offline r
  else match lookup_path p (objects r) with
       | Some _ => (Ok tt, remove p r)
       | None => api_error r
       end.

Definition create_folder (p : string) (r : remote) : reply unit * remote :=
  if negb (online r) then offline r
  else match lookup_path p (objects r) with
       | Some _ => api_error r
       | None => (Ok tt, put p Folder r)
       end.

Definition set_session (sid : string) (data : bytes) (r : remote) : remote :=
  {| objects := objects r;
     sessions := remove_path sid (sessions r) ++ [(sid, data)];
     online := online r |}.

Definition session_start (data : bytes) (r : remote)
  : reply session_result * remote :=
  if negb (online r) then offline r
  else (Ok {| session_id := Some "session-1" |}, set_session "session-1" data r).

Definition session_append (data : bytes) (sid : string) (offset : Z)
  (r : remote) : reply unit * remote :=
  if negb (online r) then offline r
  else match lookup_path sid (sessions r) with
       | Some sofar =>
           if len sofar =? offset then
             (Ok tt, set_session sid (sofar ++ data)%list r)
           else api_error r
       | None => api_error r
       end.

Definition session_finish (data : bytes) (sid : string) (offset : Z)
  (path : string) (r : remote) : reply metadata * remote :=
  if negb (online r) then offline r
  else match lookup_path sid (sessions r) with
       | Some sofar =>
           if len sofar =? offset then
             (Ok (meta_of (path, File (sofar ++ data)%list)),
              put path (File (sofar ++ data)%list) r)
           else api_error r
       | None => api_error r
       end.

Definition download (p : string) (r : remote) : reply stream * remote :=
  if negb (online r) then offline r
  else match lookup_path p (objects r) with
       | Some (File data) => (Ok {| content := data; pos := 0 |}, r)
       | _ => api_error r
       end.

(** [raw.read(length)]: the next [length] bytes, fewer at the end. *)
Definition stream_read (s : stream) (length : Z) : reply bytes * stream :=
  let rbytes := take (Z.to_nat length) (drop (pos s) (content s)) in
  (Ok rbytes, {| content := content s; pos := pos s + List.length rbytes |}).

#[global] Instance sim_remote : Remote remote stream := {
  files_list_folder := list_folder;
  files_get_metadata := get_metadata;
  files_move := move;
  files_delete := delete;
  files_create_folder := create_folder;
  files_upload_session_start := session_start;
  files_upload_session_append_v2 := session_append;
  files_upload_session_finish := session_finish;
  files_download := download;
  raw_read := stream_read
}.

(** The defaults of the program, and the smallest write cache it accepts. *)
Definition cfg_default : config :=
  {| cache_time := 120; write_cache := 4194304 |}.
Definition cfg_4096 : config := {| cache_time := 120; write_cache := 4096 |}.

Definition digits : bytes :=
  [Byte.x30; Byte.x31; Byte.x32; Byte.x33; Byte.x34;
   Byte.x35; Byte.x36; Byte.x37; Byte.x38; Byte.x39].

(** A store with a folder [/a] holding a file [/a/x], and a file [/f]. *)
Definition store : remote :=
  {| objects := [("/a", Folder); ("/a/x", File (take 3 digits));
                 ("/f", File digits)];
     sessions := []; online := true |}.

Definition empty_store : remote :=
  {| objects := []; sessions := []; online := true |}.

Definition unplug (r : remote) : remote :=
  {| objects := objects r; sessions := sessions r; online := false |}.

(** A process running as user 1000 with effective user 0, as under a
    set-user-id launcher; the clock functions know one time stamp. *)
Definition env : os_env :=
  {| os_getuid := 1000; os_geteuid := 0; os_getgid := 1000; os_getegid := 0;
     pwd_getpwuid := λ u, if u =? 1000 then Some {| pw_uid := 1000; pw_gid := 100 |}
                          else if u =? 0 then Some {| pw_uid := 0; pw_gid := 0 |}
                          else None;
     strptime := λ s fmt,
       if String.eqb fmt "%Y-%m-%d %H:%M:%S" && String.eqb s "2024-05-01 10:00:00"
       then Some {| tm_year := 2024; tm_mon := 5; tm_mday := 1;
                    tm_hour := 10; tm_min := 0; tm_sec := 0 |}
       else if String.eqb fmt "%Y-%m-%dT%H:%M:%SZ"
               && String.eqb s "2024-05-01T10:00:00Z"
       then Some {| tm_year := 2024; tm_mon := 5; tm_mday := 1;
                    tm_hour := 10; tm_min := 0; tm_sec := 0 |}
       else None;
     mktime := λ tm, if tm_year tm =? 2024 then 1714557600 else 0 |}.

End Sim.


(** ** Runs of several operations *)

Section Runs.

Context {R Stream : Type} `{Remote R Stream}.

(** [K] calls of [getFH], one after the other. *)
Fixpoint allocate (K : nat) (mode : fh_mode)
  : M (dbx_state R Stream) (list (option Z)) :=
  match K with
  | O => ret []
  | S K' =>
      let* i := getFH mode in
      let* l := allocate K' mode in
      ret (i :: l)
  end.

(** The path [dbxMetadata] queries: the root is the empty path. *)
Definition query_path (path : string) : string :=
  if decide (path = "/") then "" else path.

(** The dictionary has the key 'path'. *)
Definition has_path (tmp : metadata) : Prop := is_Some (i_path tmp).

(** [c'] is [c] with some entries removed. *)
Definition shrinks (c c' : gmap string metadata) : Prop :=
  ∀ q it, c' !! q = Some it → c !! q = Some it.

(** A cached dictionary is fresh for a lookup at time [now] when it is
    not a listing, or its time stamp has not passed. *)
Definition fresh (now : Z) (item : metadata) : Prop :=
  i_entries item = None ∨ ∃ ts, i_cachets item = Some ts ∧ now ≤ ts.

End Runs.

(** The program freshly started over the in-memory store [r]. *)
Definition mount (r : Sim.remote) : dbx_state Sim.remote Sim.stream := init r.

(** A table in which every id of the range is in use. *)
Definition full_table : dbx_state Sim.remote Sim.stream :=
  Build_dbx_state Sim.empty_store ∅
    (list_to_map ((λ i, (i, new_fh mode_r)) <$> seqZ 1 8192))
    (list_to_map ((λ i, (i, false)) <$> seqZ 1 8192))
    [].

(** *** A file written in two small pieces

    The file [/f] is created on an empty store; ten bytes are written
    at offset 0 and a write of five bytes at offset 10 is tried, under a
    write cache of 4096 bytes; then the handle is released. *)

Definition ten : bytes := Sim.digits.
Definition five : bytes := take 5 Sim.digits.

(** A buffer of 4096 bytes. *)
Definition block : bytes := replicate (Z.to_nat 4096) Byte.x00.

Definition created : dbx_state Sim.remote Sim.stream :=
  snd (create "2024-05-01T10:00:00Z" "/f" 33188 (mount Sim.empty_store)).

Definition written_10 : dbx_state Sim.remote Sim.stream :=
  snd (write Sim.cfg_4096 "/f" ten 0 1 created).

Definition written_15 : dbx_state Sim.remote Sim.stream :=
  snd (write Sim.cfg_4096 "/f" five 10 1 written_10).

Definition released : dbx_state Sim.remote Sim.stream :=
  snd (release "/f" 1 written_15).

(** *** Reading the ten bytes of [/f]

    The file is opened on the store [Sim.store]; the handle is 1. *)

Definition opened : dbx_state Sim.remote Sim.stream :=
  snd (open "/f" 0 (mount Sim.store)).

(** *** Listings

    The folder [/a] looked up on a fresh mount at time 1000; the root
    looked up at time 1000 and again, after its listing has expired, at
    time 2000; and the latter state with the network gone. *)

Definition listed_a : dbx_state Sim.remote Sim.stream :=
  snd (getDropboxMetadata Sim.cfg_default 1000 "/a" false (mount Sim.store)).

Definition listed_root : dbx_state Sim.remote Sim.stream :=
  snd (getDropboxMetadata Sim.cfg_default 1000 "/" false (mount Sim.store)).

Definition refreshed_root : dbx_state Sim.remote Sim.stream :=
  snd (getDropboxMetadata Sim.cfg_default 2000 "/" false listed_root).

Definition unplugged : dbx_state Sim.remote Sim.stream :=
  Build_dbx_state (Sim.unplug (dbx refreshed_root)) (cache refreshed_root)
    (openfh refreshed_root) (runfh refreshed_root) (trace refreshed_root).

(** The dictionaries of [/a/x] and [/f] as the listings above cache
    them. *)
Definition child_x : metadata :=
  Metadata (Some "/a/x") (Some "/a/x") (Some "file") (Some 3)
    (Some "2024-05-01 10:00:00") (Some "id:/a/x") false None None None None.

Definition child_f : metadata :=
  Metadata (Some "/f") (Some "/f") (Some "file") (Some 10)
    (Some "2024-05-01 10:00:00") (Some "id:/f") false None (Some 2120)
    None None.

(** The listing of the root as the first lookup caches it. *)
Definition root_listing : metadata :=
  Eval vm_compute in default child_f (cache listed_root !! "/").

(** A cache whose listing of the root has the key 'contents'. *)
Definition with_contents : dbx_state Sim.remote Sim.stream :=
  Build_dbx_state Sim.store
    {[ "/" := Metadata (Some "/") None (Some "folder") None None None false
                None (Some 1120) (Some []) (Some []) ]}
    ∅ ∅ [].

(** ** Proof tools *)

(** Unfold the monad of operations. *)
Ltac munfold :=
  unfold bind, ret, raise, spin, gets, lift, modify_openfh, modify_cache,
    modify_runfh, modify, try_except in *.

(** Case analysis on the first scrutinee in the goal. *)
Ltac break_match :=
  match goal with
  | |- context [match ?x with _ => _ end] => destruct x eqn:?
  end.

Ltac break_match_in H :=
  match type of H with
  | context [match ?x with _ => _ end] => destruct x eqn:?
  end.

(** ** The remaining filesystem functions *)

Fixpoint takewhile {A} (p : A → bool) (l : list A) : list A :=
  match l with
  | [] => []
  | x :: l' => if p x then x :: takewhile p l' else []
  end.

(** [os.path.basename]: [p[p.rfind('/')+1:]], computed on the reversed
    path. *)
Definition basename (p : string) : string :=
  string_of_list_ascii
    (rev (takewhile (λ c, negb (is_sep c)) (rev (list_ascii_of_string p)))).

Section Directory.

Context {R Stream : Type} `{Remote R Stream}.
Variable cfg : config.

(** The loop of [readdir] over [metadata['entries']], appending the base
    name of each entry to [fusefolder]. *)
Fixpoint folder_items (fusefolder : list string) (es : list metadata)
  : M (dbx_state R Stream) (list string) :=
  match es with
  | [] => ret fusefolder
  | item :: es' =>
      match i_path item with
      | None => raise (KeyError "path")
      | Some p => folder_items (fusefolder ++ [basename p]) es'
      end
  end.

(** [readdir]: the names the generator yields, in order.  The lookup is
    deep; a lookup that answers [False] makes [metadata['entries']] a
    [TypeError]. *)
Definition readdir (now : Z) (path : string) (fh : Z)
  : M (dbx_state R Stream) (list string) :=
  let fusefolder := ["."; ".."] in
  let* metadata := getDropboxMetadata cfg now path true in
  match metadata with
  | None => raise TypeError
  | Some metadata =>
      match i_entries metadata with
      | None => raise (KeyError "entries")
      | Some es => folder_items fusefolder es
      end
  end.

Definition truncate (path : string) (length : Z) (fh : option Z)
  : M (dbx_state R Stream) Z :=
  ret 0.

(** [fsync] ends without [return]. *)
Definition fsync (path : string) (fdatasync fh : Z)
  : M (dbx_state R Stream) unit :=
  ret tt.

Definition chmod (now : Z) (path : string) (mode : Z)
  : M (dbx_state R Stream) Z :=
  let* found := getDropboxMetadata cfg now path false in
  match found with
  | None => raise (FuseOSError ENOENT)
  | Some _ => ret 0
  end.

Definition chattr (now : Z) (path : string) (uid gid : Z)
  : M (dbx_state R Stream) Z :=
  let* found := getDropboxMetadata cfg now path false in
  match found with
  | None => raise (FuseOSError ENOENT)
  | Some _ => ret 0
  end.

(** *** Predicates on states used below *)

Implicit Types (s : dbx_state R Stream).

(** The two tables of handles have the same keys, the keys lie in the
    range of [getFH], and no handle is locked. *)
Definition wf_handles s : Prop :=
  (∀ fh, is_Some (openfh s !! fh) ↔ is_Some (runfh s !! fh))
  ∧ ∀ fh e, openfh s !! fh = Some e → 1 ≤ fh ≤ 8192 ∧ fh_lock e = false.

(** A handle that keeps bytes has no upload session: its upload id is
    empty and its offset 0. *)
Definition kept_without_session s : Prop :=
  ∀ fh e f b,
    openfh s !! fh = Some e → fh_f_of e = F_dict f →
    up_buf f = Buf_bytes b → upload_id f = "" ∧ up_offset f = 0.

(** The tables of handles are the same in both states. *)
Definition same_handles s s' : Prop :=
  openfh s' = openfh s ∧ runfh s' = runfh s.

(** The bytes a handle has taken and not sent, and the number of bytes it
    has sent. *)
Definition pending (f : fh_f Stream) : bytes :=
  match f with
  | F_dict u =>
      match up_buf u with
      | Buf_bytes b => b
      | Buf_str => []
      end
  | _ => []
  end.

Definition committed (f : fh_f Stream) : Z :=
  match f with
  | F_dict u => up_offset u
  | _ => 0
  end.

(** [f] of the handle [fh], [False] when the handle is not open. *)
Definition f_of s (fh : Z) : fh_f Stream :=
  match openfh s !! fh with
  | Some e => fh_f_of e
  | None => F_False
  end.

(** The writes of [bufs] through the handle [fh], one after the other,
    each at the offset the bytes before it end at. *)
Fixpoint write_all (path : string) (bufs : list bytes) (offset fh : Z)
  : M (dbx_state R Stream) (list Z) :=
  match bufs with
  | [] => ret []
  | buf :: bufs' =>
      let* n := write cfg path buf offset fh in
      let* ns := write_all path bufs' (offset + len buf) fh in
      ret (n :: ns)
  end.

(** An invariant that does not read the remote store, the log or the
    cache. *)
Definition handles_only (I : dbx_state R Stream → Prop) : Prop :=
  ∀ s s', openfh s' = openfh s → runfh s' = runfh s → I s → I s'.

(** The invariant of the handle tables, with the handle [fh] open. *)
Definition open_here (fh : Z) s : Prop :=
  wf_handles s ∧ is_Some (openfh s !! fh).

(** *** The calls of the kernel, and the states they lead to *)

Inductive request :=
| Mkdir (path : string) (mode : Z)
| Rmdir (path : string)
| Unlink (path : string)
| Rename (old new : string)
| Read (path : string) (length offset fh : Z)
| Write (path : string) (buf : bytes) (offset fh : Z)
| Open (path : string) (flags : Z)
| Create (now_str path : string) (mode : Z)
| Release (path : string) (fh : Z)
| Truncate (path : string) (length : Z) (fh : option Z)
| Readdir (now : Z) (path : string) (fh : Z)
| Getattr (env : os_env) (now : Z) (path : string)
| Fsync (path : string) (fdatasync fh : Z)
| Chmod (now : Z) (path : string) (mode : Z)
| Chattr (now : Z) (path : string) (uid gid : Z).

(** The state after a call, whatever its outcome. *)
Definition serve (q : request) (s : dbx_state R Stream)
  : dbx_state R Stream :=
  match q with
  | Mkdir path mode => snd (mkdir path mode s)
  | Rmdir path => snd (rmdir path s)
  | Unlink path => snd (unlink path s)
  | Rename old new => snd (rename old new s)
  | Read path length offset fh => snd (read path length offset fh s)
  | Write path buf offset fh => snd (write cfg path buf offset fh s)
  | Open path flags => snd (open path flags s)
  | Create now_str path mode => snd (create now_str path mode s)
  | Release path fh => snd (release path fh s)
  | Truncate path length fh => snd (truncate path length fh s)
  | Readdir now path fh => snd (readdir now path fh s)
  | Getattr env now path => snd (getattr cfg env now path s)
  | Fsync path fdatasync fh => snd (fsync path fdatasync fh s)
  | Chmod now path mode => snd (chmod now path mode s)
  | Chattr now path uid gid => snd (chattr now path uid gid s)
  end.

(** The states of a mount over the remote store [d]. *)
Inductive reachable (d : R) : dbx_state R Stream → Prop :=
| reach_init : reachable d (init d)
| reach_serve q s : reachable d s → reachable d (serve q s).

End Directory.

(** The payload of the upload calls of a log, in order. *)
Fixpoint sent_data (calls : list api_call) : bytes :=
  match calls with
  | [] => []
  | Call_session_start data :: calls' => data ++ sent_data calls'
  | Call_session_append data _ _ :: calls' => data ++ sent_data calls'
  | _ :: calls' => sent_data calls'
  end.

(** An operation keeps the property [I] of states, whatever its outcome. *)
Definition keeps {S A} (I : S → Prop) (m : M S A) : Prop :=
  ∀ s, I s → I (snd (m s)).

(** An operation that never ends in the busy wait. *)
Definition never_spins {S A} (m : M S A) : Prop :=
  ∀ s, fst (m s) ≠ Spin.

(** *** Handles with bytes kept locally

    On the handle of [/f]: 4096 bytes written first, under the default
    write cache, are kept with no session; ten bytes written after them
    send the 4106 bytes. *)

Definition buffered : dbx_state Sim.remote Sim.stream :=
  snd (write Sim.cfg_default "/f" block 0 1 created).

Definition flushed : dbx_state Sim.remote Sim.stream :=
  snd (write Sim.cfg_default "/f" ten 4096 1 buffered).

(** A name without a slash. *)
Definition no_sep (name : string) : Prop :=
  forallb (λ c, negb (is_sep c)) (list_ascii_of_string name) = true.

(** The name [readdir] yields for an entry. *)
Definition entry_name (tmp : metadata) : string :=
  basename (default "" (i_path tmp)).

(** A cache whose listing of [/a] has the key 'contents' with the child
    [/a/x]; the child and the file [/f] are cached as well. *)
Definition with_children : dbx_state Sim.remote Sim.stream :=
  Build_dbx_state Sim.store
    (<["/a" := Metadata (Some "/a") None (Some "folder") None None None false
                 None (Some 1120) (Some [child_x]) (Some [child_x])]>
       (<["/a/x" := child_x]> {[ "/f" := child_f ]}))
    ∅ ∅ [].

(** The dictionary of [/f] as the first listing of the root holds it:
    without a time stamp. *)
Definition root_entry_f : metadata :=
  Metadata (Some "/f") (Some "/f") (Some "file") (Some 10)
    (Some "2024-05-01 10:00:00") (Some "id:/f") false None None None None.

(** A file [/g] created on the store [Sim.store] and released without a
    write. *)
Definition abandoned : dbx_state Sim.remote Sim.stream :=
  snd (release "/g" 1
         (snd (create "2024-05-01T10:00:00Z" "/g" 33188 (mount Sim.store)))).

(** * Properties *)

(** The range of handle ids is never unfolded by simplification. *)
#[local] Arguments seqZ : simpl never.

(** ** The table of file handles *)

Section HandleTable.

Context {R Stream : Type} `{Remote R Stream}.

Implicit Types (s : dbx_state R Stream) (mode : fh_mode).

Lemma getFH_unfold mode s :
  getFH mode s =
  match list_find (λ i, openfh s !! i = None) (seqZ 1 8192) with
  | Some (_, i) =>
      (Return (Some i),
       Build_dbx_state (dbx s) (cache s) (<[i := new_fh mode]> (openfh s))
         (<[i := false]> (runfh s)) (trace s))
  | None => (Return None, s)
  end.
Proof.
  unfold getFH, bind, gets.
  destruct (list_find _ _) as [[k i]|]; reflexivity.
Qed.

(** The search of [getFH] stops at the smallest unused id of 1..8192. *)
Lemma smallest_unused (o : gmap Z (fh_entry Stream)) k i :
  list_find (λ i, o !! i = None) (seqZ 1 8192) = Some (k, i) ↔
  k = Z.to_nat (i - 1) ∧ 1 ≤ i ≤ 8192 ∧ o !! i = None ∧
  ∀ j, 1 ≤ j < i → is_Some (o !! j).
Proof.
  rewrite list_find_Some, lookup_seqZ. split.
  - intros [[-> Hk] [Hi Hlt]]. repeat split; try lia; [done|].
    intros j Hj. destruct (o !! j) eqn:Ej; [eauto|].
    exfalso. apply (Hlt (Z.to_nat (j - 1)) j); [|lia|done].
    apply lookup_seqZ. lia.
  - intros (-> & Hi & Hnone & Hlt). repeat split; try lia; [done|].
    intros j y [-> Hj]%lookup_seqZ Hji Hy.
    destruct (Hlt (1 + Z.of_nat j)) as [e He]; [lia|congruence].
Qed.

Lemma no_unused (o : gmap Z (fh_entry Stream)) :
  list_find (λ i, o !! i = None) (seqZ 1 8192) = None ↔
  ∀ i, 1 ≤ i ≤ 8192 → is_Some (o !! i).
Proof.
  rewrite list_find_None, Forall_forall. split.
  - intros Hall i Hi. destruct (o !! i) eqn:Ei; [eauto|].
    exfalso. apply (Hall i); [|done].
    apply list_elem_of_lookup. exists (Z.to_nat (i - 1)).
    apply lookup_seqZ. lia.
  - intros Hall i Hin Hi.
    apply list_elem_of_lookup in Hin as [k [-> Hk]%lookup_seqZ].
    destruct (Hall (1 + Z.of_nat k)) as [e He]; [lia|congruence].
Qed.

Lemma getFH_smallest mode s i :
  1 ≤ i ≤ 8192 → openfh s !! i = None →
  (∀ j, 1 ≤ j < i → is_Some (openfh s !! j)) →
  getFH mode s =
  (Return (Some i),
   Build_dbx_state (dbx s) (cache s) (<[i := new_fh mode]> (openfh s))
     (<[i := false]> (runfh s)) (trace s)).
Proof.
  intros Hi Hnone Hlt. rewrite getFH_unfold.
  assert (list_find (λ i, openfh s !! i = None) (seqZ 1 8192)
          = Some (Z.to_nat (i - 1), i)) as ->; [|done].
  apply smallest_unused; auto.
Qed.

Lemma getFH_Some_inv mode s i s' :
  getFH mode s = (Return (Some i), s') →
  1 ≤ i ≤ 8192 ∧ openfh s !! i = None ∧
  (∀ j, 1 ≤ j < i → is_Some (openfh s !! j)) ∧
  openfh s' = <[i := new_fh mode]> (openfh s).
Proof.
  rewrite getFH_unfold.
  destruct (list_find _ _) as [[k i']|] eqn:E; [|discriminate].
  intros [= -> <-]. apply smallest_unused in E as (_ & ? & ? & ?). auto.
Qed.

Lemma getFH_exhausted mode s :
  (∀ i, 1 ≤ i ≤ 8192 → is_Some (openfh s !! i)) →
  getFH mode s = (Return None, s).
Proof.
  intros Hall. rewrite getFH_unfold.
  by apply no_unused in Hall as ->.
Qed.

Lemma getFH_returns mode s :
  ∃ r s', getFH mode s = (Return r, s') ∧
          (∀ i, is_Some (openfh s !! i) → is_Some (openfh s' !! i)).
Proof.
  rewrite getFH_unfold.
  destruct (list_find _ _) as [[k i]|]; eexists _, _; (split; [done|]);
    simpl; [|done].
  intros j [e He]. destruct (decide (i = j)) as [->|Hne].
  - rewrite lookup_insert_eq. eauto.
  - rewrite lookup_insert_ne; eauto.
Qed.

Lemma releaseFH_open s i e b :
  openfh s !! i = Some e → runfh s !! i = Some b →
  releaseFH i s =
  (Return None,
   Build_dbx_state (dbx s) (cache s) (delete i (openfh s))
     (delete i (runfh s)) (trace s)).
Proof.
  intros He Hb. unfold releaseFH, bind, gets. simpl.
  destruct (decide (is_Some (openfh s !! i))) as [_|[]]; [|eauto].
  simpl. destruct (decide (is_Some (runfh s !! i))) as [_|[]]; [done|eauto].
Qed.

Lemma releaseFH_absent s i :
  openfh s !! i = None → releaseFH i s = (Return (Some false), s).
Proof.
  intros He. unfold releaseFH, bind, gets. simpl.
  destruct (decide (is_Some (openfh s !! i))) as [[e He']|_]; [congruence|done].
Qed.

(** After a release the freed id is found again, unless a smaller id is
    unused. *)
Lemma getFH_after_release mode s i e b :
  1 ≤ i ≤ 8192 → openfh s !! i = Some e → runfh s !! i = Some b →
  ∃ s1 j s2,
    releaseFH i s = (Return None, s1) ∧
    getFH mode s1 = (Return (Some j), s2) ∧
    j ≤ i ∧
    ((∀ k, 1 ≤ k < i → is_Some (openfh s !! k)) → j = i).
Proof.
  intros Hi He Hb. rewrite (releaseFH_open s i e b He Hb).
  set (s1 := Build_dbx_state _ _ _ _ _).
  destruct (getFH_returns mode s1) as (r & s2 & E & _).
  destruct r as [j|].
  - exists s1, j, s2. split; [done|]. split; [done|].
    apply getFH_Some_inv in E as (Hj & Hnone & Hlt & _). cbn [openfh s1] in *.
    assert (j ≤ i) as Hji.
    { destruct (decide (j ≤ i)); [done|].
      destruct (Hlt i) as [x Hx]; [lia|]. by rewrite lookup_delete_eq in Hx. }
    split; [done|]. intros Hfull.
    destruct (decide (j = i)) as [|Hne]; [done|].
    destruct (Hfull j) as [x Hx]; [lia|].
    rewrite lookup_delete_ne in Hnone by done. congruence.
  - exfalso. rewrite getFH_unfold in E.
    destruct (list_find _ _) as [[k j]|] eqn:E'; [discriminate|].
    rewrite no_unused in E'. destruct (E' i Hi) as [x Hx].
    cbn [openfh s1] in Hx. by rewrite lookup_delete_eq in Hx.
Qed.

Lemma allocate_returns K mode s :
  ∃ ids s', allocate K mode s = (Return ids, s') ∧ length ids = K.
Proof.
  revert s. induction K as [|K IH]; intros s; simpl.
  - by eexists _, _.
  - unfold bind at 1. destruct (getFH_returns mode s) as (r & s1 & -> & _).
    unfold bind at 1. destruct (IH s1) as (l & s' & -> & Hlen).
    eexists _, _. split; [reflexivity|]. simpl. by rewrite Hlen.
Qed.

(** The ids handed out by successive calls are unused before the calls
    and pairwise distinct. *)
Lemma allocate_distinct K mode s ids s' :
  allocate K mode s = (Return ids, s') →
  NoDup (omap id ids) ∧
  ∀ i, i ∈ omap id ids → openfh s !! i = None ∧ 1 ≤ i ≤ 8192.
Proof.
  revert s ids s'. induction K as [|K IH]; intros s ids s'; simpl.
  - intros [= <- <-]. split; [constructor|]. intros i Hi. inversion Hi.
  - unfold bind at 1. destruct (getFH mode s) as [[r| |] s1] eqn:E1;
      [|discriminate..].
    unfold bind at 1. destruct (allocate K mode s1) as [[l| |] s2] eqn:E2;
      [|discriminate..].
    intros [= <- <-]. destruct (IH _ _ _ E2) as [Hnd Hun].
    destruct r as [i0|]; simpl.
    + apply getFH_Some_inv in E1 as (Hi0 & Hnone & _ & Ho).
      split.
      * constructor; [|done]. intros [Hin _]%Hun.
        by rewrite Ho, lookup_insert_eq in Hin.
      * intros i [->|Hin]%elem_of_cons; [done|].
        destruct (Hun i Hin) as [Hi ?]. split; [|done].
        rewrite Ho in Hi. apply lookup_insert_None in Hi. tauto.
    + rewrite getFH_unfold in E1.
      destruct (list_find _ _) as [[k j]|]; [discriminate|].
      injection E1 as <-. by split.
Qed.

(** From a table holding exactly the ids [1..k], [K] calls hand out
    [k+1..k+K]. *)
Lemma allocate_from K mode s k :
  0 ≤ k → k + Z.of_nat K ≤ 8192 →
  (∀ i, is_Some (openfh s !! i) ↔ 1 ≤ i ≤ k) →
  fst (allocate K mode s) = Return (Some <$> seqZ (k + 1) (Z.of_nat K)).
Proof.
  revert s k. induction K as [|K IH]; intros s k Hk HK Hdom; [done|].
  simpl allocate. unfold bind at 1.
  rewrite (getFH_smallest mode s (k + 1)); [|lia| |].
  - unfold bind at 1.
    specialize (IH (Build_dbx_state (dbx s) (cache s)
                      (<[k + 1 := new_fh mode]> (openfh s))
                      (<[k + 1 := false]> (runfh s)) (trace s)) (k + 1)).
    destruct (allocate K mode _) as [r s2]. simpl in IH.
    rewrite IH; [|lia|lia|].
    + cbn [fst]. rewrite (seqZ_cons (k + 1)) by lia.
      replace (Z.succ (k + 1)) with (k + 1 + 1) by lia.
      replace (Z.pred (Z.of_nat (S K))) with (Z.of_nat K) by lia.
      by rewrite fmap_cons.
    + simpl. intros i. destruct (decide (k + 1 = i)) as [<-|Hne].
      * rewrite lookup_insert_eq. split; [lia|eauto].
      * rewrite lookup_insert_ne by done. rewrite Hdom. lia.
  - destruct (openfh s !! (k + 1)) eqn:E; [|done].
    assert (1 ≤ k + 1 ≤ k); [apply Hdom; eauto|lia].
  - intros j Hj. apply Hdom. lia.
Qed.

(** C8: [getFH] returns the smallest unused id of 1..8192; the ids handed
    out by successive calls are pairwise distinct, and [K ≤ 8192] calls on
    an empty table hand out [1..K]; an id given back with [releaseFH] is
    handed out again before any larger unused id; and when every id is in
    use [getFH] returns [False] ([None]) and leaves the table as it is. *)
Theorem getFH_allocation mode s :
  (∀ i, 1 ≤ i ≤ 8192 → openfh s !! i = None →
        (∀ j, 1 ≤ j < i → is_Some (openfh s !! j)) →
        getFH mode s =
        (Return (Some i),
         Build_dbx_state (dbx s) (cache s) (<[i := new_fh mode]> (openfh s))
           (<[i := false]> (runfh s)) (trace s)))
  ∧ (∀ K, ∃ ids s',
        allocate K mode s = (Return ids, s') ∧ length ids = K ∧
        NoDup (omap id ids) ∧
        ∀ i, i ∈ omap id ids → openfh s !! i = None ∧ 1 ≤ i ≤ 8192)
  ∧ (∀ K, Z.of_nat K ≤ 8192 → openfh s = ∅ →
        fst (allocate K mode s) = Return (Some <$> seqZ 1 (Z.of_nat K))
        ∧ NoDup (seqZ 1 (Z.of_nat K)))
  ∧ (∀ i e b, 1 ≤ i ≤ 8192 →
        openfh s !! i = Some e → runfh s !! i = Some b →
        ∃ s1 j s2,
          releaseFH i s = (Return None, s1) ∧
          getFH mode s1 = (Return (Some j), s2) ∧
          j ≤ i ∧
          ((∀ k, 1 ≤ k < i → is_Some (openfh s !! k)) → j = i))
  ∧ ((∀ i, 1 ≤ i ≤ 8192 → is_Some (openfh s !! i)) →
        getFH mode s = (Return None, s)).
Proof.
  split; [|split; [|split; [|split]]].
  - apply getFH_smallest.
  - intros K. destruct (allocate_returns K mode s) as (ids & s' & E & Hlen).
    exists ids, s'. destruct (allocate_distinct _ _ _ _ _ E). auto.
  - intros K HK Hempty. split; [|apply NoDup_seqZ].
    apply (allocate_from K mode s 0); [lia|lia|].
    intros i. rewrite Hempty, lookup_empty. split; [by intros []|lia].
  - intros i e b. apply getFH_after_release.
  - apply getFH_exhausted.
Qed.

End HandleTable.
(** ** The metadata cache *)

Section Cache.

Context {R Stream : Type} `{Remote R Stream}.

Implicit Types (s : dbx_state R Stream) (c : gmap string metadata).

Lemma shrinks_refl c : shrinks c c.
Proof. by intros q it. Qed.

Lemma shrinks_delete c c' q : shrinks c c' → shrinks c (delete q c').
Proof.
  intros Hs q' it. destruct (decide (q = q')) as [->|Hne].
  - by rewrite lookup_delete_eq.
  - rewrite lookup_delete_ne by done. apply Hs.
Qed.

Lemma set_cache_id s : set_cache (cache s) s = s.
Proof. by destruct s. Qed.

(** The loop over 'contents' touches the cache only, and only removes. *)
Lemma pop_contents_inv l s r s' :
  pop_contents l s = (r, s') →
  s' = set_cache (cache s') s ∧ shrinks (cache s) (cache s').
Proof.
  revert s. induction l as [|tmp l IH]; intros s; simpl.
  - intros [= <- <-]. split; [by rewrite set_cache_id|apply shrinks_refl].
  - destruct (i_path tmp) as [p|].
    + munfold. simpl. destruct (decide _); simpl.
      * intros [-> Hs]%IH. simpl in *. split; [done|].
        intros q it Hq. apply Hs in Hq.
        by apply (shrinks_delete _ _ p (shrinks_refl _)) in Hq.
      * apply IH.
    + intros [= <- <-]. split; [by rewrite set_cache_id|apply shrinks_refl].
Qed.

(** [removeFromCache] touches the cache only, and only removes; when it
    returns, the path is not cached any more, and it returns [False]
    exactly when the path was not cached, leaving the cache as it was. *)
Lemma removeFromCache_inv path s r s' :
  removeFromCache path s = (r, s') →
  s' = set_cache (cache s') s ∧ shrinks (cache s) (cache s') ∧
  match r with
  | Return b =>
      cache s' !! path = None ∧
      (b = bool_decide (is_Some (cache s !! path))) ∧
      (b = false → s' = s)
  | Raise _ => True
  | Spin => False
  end.
Proof.
  unfold removeFromCache. munfold. simpl.
  destruct (cache s !! path) as [item|] eqn:E; simpl.
  2:{ intros [= <- <-]. rewrite set_cache_id.
      split_and!; [done|apply shrinks_refl|done|done|done]. }
  set (body := match i_entries item with
               | Some _ => _
               | None => _
               end).
  assert (∀ r1 s1, body s = (r1, s1) →
            s1 = set_cache (cache s1) s ∧ shrinks (cache s) (cache s1) ∧
            r1 ≠ Spin) as Hbody.
  { intros r1 s1. subst body.
    destruct (i_entries item), (i_contents item);
      try (intros E1; destruct (pop_contents_inv _ _ _ _ E1) as [? ?];
           repeat split; [done..|];
           intros ->; clear -E1; revert s E1;
           induction l0 as [|t l0 IH]; intros s; simpl; [done|];
           destruct (i_path t); [|done]; munfold; simpl;
           destruct (decide _); simpl; apply IH).
    all: munfold; simpl; destruct (cache s !! dirname path) as [parent|];
      [destruct (decide _)|]; intros [= <- <-]; simpl;
      rewrite ?set_cache_id;
      repeat split; try done;
      auto using shrinks_refl, shrinks_delete. }
  destruct (body s) as [r1 s1] eqn:E1.
  destruct (Hbody _ _ eq_refl) as (Hs1 & Hsh & Hns). destruct r1 as [[]|x|]; [| |done].
  - destruct (decide _); simpl; intros [= <- <-]; simpl.
    + split_and!; [by rewrite Hs1|by apply shrinks_delete| |done|done].
      apply lookup_delete_eq.
    + split_and!; [by rewrite Hs1 at 1|done| |done|done].
      by apply eq_None_not_Some.
  - intros [= <- <-]. by split_and!.
Qed.

End Cache.

(** ** Writing through a handle *)

Section Write.

Context {R Stream : Type} `{Remote R Stream}.
Variable cfg : config.

Implicit Types (s : dbx_state R Stream) (buf : bytes) (fh offset : Z).

(** [dbxChunkedUpload] without an upload id: a session start, and the
    id of the reply. *)
Lemma dbxChunkedUpload_start data off s :
  dbxChunkedUpload data "" off s =
  let '(r, d) := files_upload_session_start data (dbx s) in
  let s' := Build_dbx_state d (cache s) (openfh s) (runfh s)
              (trace s ++ [Call_session_start data]) in
  match r with
  | Ok res =>
      match session_id res with
      | Some sid => (Return (sid, off + len data), s')
      | None => (Raise (KeyError "session_id"), s')
      end
  | Failed x => (Raise x, s')
  end.
Proof.
  unfold dbxChunkedUpload, call. munfold. simpl.
  destruct (files_upload_session_start data (dbx s)) as [[res|x] d];
    simpl; [destruct (session_id res)|]; done.
Qed.

(** [dbxChunkedUpload] with an upload id: an append, after which it
    raises, whatever the remote store answers. *)
Lemma dbxChunkedUpload_append data uid off s :
  uid ≠ "" →
  ∃ x d, dbxChunkedUpload data uid off s =
         (Raise x,
          Build_dbx_state d (cache s) (openfh s) (runfh s)
            (trace s ++ [Call_session_append data uid off])).
Proof.
  intros Hid. unfold dbxChunkedUpload, call. munfold.
  destruct (decide (uid = "")) as [|_]; [done|].
  destruct (files_upload_session_append_v2 data uid off (dbx s))
    as [[[]|x] d]; simpl; eauto.
Qed.

(** [write] in one piece: what it returns and the state it leaves. *)
Lemma write_unfold path buf offset fh s :
  write cfg path buf offset fh s =
  match openfh s !! fh with
  | None => (Raise (FuseOSError EIO), s)
  | Some e =>
      match fh_f_of e with
      | F_raw _ => (Raise (FuseOSError EIO), s)
      | F_False =>
          if decide (len buf >= write_cache cfg ∨ len buf < 4096) then
            match dbxChunkedUpload buf "" 0 s with
            | (Return result, s') =>
                (Return (len buf),
                 set_openfh
                   (alter (set_f (F_dict
                      {| upload_id := fst result; up_offset := snd result;
                         up_buf := Buf_str |})) fh (openfh s')) s')
            | (_, s') => (Raise (FuseOSError EIO), s')
            end
          else
            (Return (len buf),
             set_openfh
               (alter (set_f (F_dict
                  {| upload_id := ""; up_offset := 0;
                     up_buf := Buf_bytes buf |})) fh (openfh s)) s)
      | F_dict f =>
          match up_buf f with
          | Buf_str => (Raise (FuseOSError EIO), s)
          | Buf_bytes b =>
              if decide (len buf + len b >= write_cache cfg
                         ∨ len buf < 4096) then
                match dbxChunkedUpload (b ++ buf) (upload_id f)
                        (up_offset f) s with
                | (Return result, s') =>
                    (Return (len buf),
                     set_openfh
                       (alter (set_f (F_dict
                          {| upload_id := fst result;
                             up_offset := snd result;
                             up_buf := Buf_str |})) fh (openfh s')) s')
                | (_, s') => (Raise (FuseOSError EIO), s')
                end
              else
                (Return (len buf),
                 set_openfh
                   (alter (set_f (F_dict
                      {| upload_id := upload_id f; up_offset := up_offset f;
                         up_buf := Buf_bytes (b ++ buf) |})) fh (openfh s))
                   s)
          end
      end
  end.
Proof.
  unfold write, buf_add. munfold. simpl.
  destruct (openfh s !! fh) as [e|]; [|done].
  destruct (fh_f_of e) as [|st|f]; [|done|].
  - destruct (decide _); [|done].
    rewrite dbxChunkedUpload_start.
    destruct (files_upload_session_start buf (dbx s)) as [[res|x] d];
      simpl; [destruct (session_id res)|]; done.
  - destruct (up_buf f) as [|b]; simpl.
    + by destruct (decide _).
    + destruct (decide _); [|done].
      destruct (decide (upload_id f = "")) as [Hid|Hid].
      * rewrite Hid, dbxChunkedUpload_start.
        destruct (files_upload_session_start (b ++ buf) (dbx s))
          as [[res|x] d]; simpl; [destruct (session_id res)|]; done.
      * by destruct (dbxChunkedUpload_append (b ++ buf) _ (up_offset f) s
                       Hid) as (x & d & ->).
Qed.

(** A first write that starts a session, when the remote store answers
    with a session id. *)
Lemma write_starts path buf offset fh s e sid d :
  openfh s !! fh = Some e → fh_f_of e = F_False →
  len buf >= write_cache cfg ∨ len buf < 4096 →
  files_upload_session_start buf (dbx s)
  = (Ok {| session_id := Some sid |}, d) →
  write cfg path buf offset fh s =
  (Return (len buf),
   Build_dbx_state d (cache s)
     (<[fh := set_f (F_dict {| upload_id := sid; up_offset := len buf;
                               up_buf := Buf_str |}) e]> (openfh s))
     (runfh s) (trace s ++ [Call_session_start buf])).
Proof.
  intros He Hf Hc Hreply. rewrite write_unfold, He, Hf.
  destruct (decide _) as [_|[]]; [|done].
  rewrite dbxChunkedUpload_start, Hreply. simpl.
  unfold set_openfh. simpl. by rewrite (alter_alt_Some _ _ _ _ He).
Qed.

(** After an upload the handle holds the [str] [''] under 'buf': every
    further write raises the I/O error, makes no remote call and leaves
    the state as it is. *)
Lemma write_after_upload path buf offset fh s e f :
  openfh s !! fh = Some e → fh_f_of e = F_dict f → up_buf f = Buf_str →
  write cfg path buf offset fh s = (Raise (FuseOSError EIO), s).
Proof. intros He Hf Hb. by rewrite write_unfold, He, Hf, Hb. Qed.

(** C10: a call of [write] that returns gives back the length of the
    buffer it was handed, whether the bytes were kept in the local buffer
    or sent to the remote store; a call that does not return raises the
    I/O error. *)
Theorem write_returns_len path buf offset fh s r s' :
  write cfg path buf offset fh s = (r, s') →
  match r with
  | Return n => n = len buf
  | Raise x => x = FuseOSError EIO
  | Spin => False
  end.
Proof.
  rewrite write_unfold. intros E.
  repeat break_match_in E; injection E as <- <-; done.
Qed.

(** C7, as the program has it: [write] has no check of [offset].  A call
    gives the same outcome and the same state for every offset; on a
    handle that has not been written to, or that only keeps bytes, the
    bytes are accepted at every offset when the remote store answers a
    session start with a session id; and [write] never raises "operation
    not supported": the only exception it raises is the I/O error. *)
Theorem write_ignores_offset path buf offset offset' fh s :
  write cfg path buf offset fh s = write cfg path buf offset' fh s
  ∧ fst (write cfg path buf offset fh s) ≠ Raise (FuseOSError EOPNOTSUPP)
  ∧ (∀ x, fst (write cfg path buf offset fh s) = Raise x →
       x = FuseOSError EIO)
  ∧ (∀ e,
       openfh s !! fh = Some e →
       fh_f_of e = F_False
       ∨ (∃ f b, fh_f_of e = F_dict f ∧ up_buf f = Buf_bytes b
                 ∧ upload_id f = "") →
       (∀ data, ∃ sid d,
          files_upload_session_start data (dbx s)
          = (Ok {| session_id := Some sid |}, d)) →
       fst (write cfg path buf offset fh s) = Return (len buf)).
Proof.
  split_and!; [reflexivity| | |].
  - rewrite write_unfold. repeat break_match; simpl; discriminate.
  - intros x. rewrite write_unfold. repeat break_match; simpl; congruence.
  - intros e He Hcase Hremote. rewrite write_unfold, He.
    destruct Hcase as [->|(f & b & -> & -> & Hid)].
    + destruct (decide _); [|done].
      rewrite dbxChunkedUpload_start.
      by destruct (Hremote buf) as (sid & d & ->).
    + destruct (decide _); [|done].
      rewrite Hid, dbxChunkedUpload_start.
      by destruct (Hremote (b ++ buf)) as (sid & d & ->).
Qed.

End Write.

(** A first write of ten bytes returns 10. *)
Lemma write_returns_len_witness :
  write Sim.cfg_4096 "/f" ten 0 1 created = (Return 10, written_10)
  ∧ 10 = len ten.
Proof.
  assert (write Sim.cfg_4096 "/f" ten 0 1 created = (Return 10, written_10))
    as E by (vm_compute; reflexivity).
  split; [exact E|].
  exact (write_returns_len Sim.cfg_4096 "/f" ten 0 1 created _ _ E).
Defined.

(** C5 on the program: the first write of ten bytes starts a session
    and leaves the [str] [''] under 'buf'; the next write, of five bytes,
    raises the I/O error without a remote call and without a change of
    state, and so does every later one.  The flush the code attempts,
    [dbxChunkedUpload(f['buf'] + buf, ...)], adds [bytes] to that
    [str]. *)
Theorem write_after_upload_raises :
  write Sim.cfg_4096 "/f" ten 0 1 created = (Return 10, written_10)
  ∧ openfh written_10 !! 1
    = Some (Build_fh_entry mode_w
              (F_dict {| upload_id := "session-1"; up_offset := 10;
                         up_buf := Buf_str |}) false 0)
  ∧ trace written_10 = [Call_session_start ten]
  ∧ write Sim.cfg_4096 "/f" five 10 1 written_10
    = (Raise (FuseOSError EIO), written_10)
  ∧ write Sim.cfg_default "/f" block 10 1 written_10
    = (Raise (FuseOSError EIO), written_10).
Proof. split_and!; vm_compute; reflexivity. Qed.

(** On the fresh handle of [/f], ten bytes are accepted at offset 1000 as
    at offset 0. *)
Lemma write_ignores_offset_witness :
  write Sim.cfg_4096 "/f" ten 1000 1 created
  = write Sim.cfg_4096 "/f" ten 0 1 created
  ∧ fst (write Sim.cfg_4096 "/f" ten 1000 1 created) = Return 10.
Proof.
  destruct (write_ignores_offset Sim.cfg_4096 "/f" ten 1000 0 1 created)
    as (Hsame & _ & _ & Haccept).
  split; [exact Hsame|].
  apply (Haccept (new_fh mode_w)).
  - reflexivity.
  - by left.
  - intros data. by eexists _, _.
Defined.

(** C7 fails on the program: on the fresh handle of [/f], where no byte
    has been accepted, ten bytes at offset 1000 are accepted and sent;
    and after 4096 bytes were accepted and kept, 4096 bytes at offset 5
    are accepted and kept behind them. *)
Lemma write_noncontiguous_accepted :
  openfh created !! 1 = Some (new_fh mode_w)
  ∧ fst (write Sim.cfg_4096 "/f" ten 1000 1 created) = Return 10
  ∧ trace (snd (write Sim.cfg_4096 "/f" ten 1000 1 created))
    = [Call_session_start ten]
  ∧ write Sim.cfg_default "/f" block 0 1 created = (Return 4096, buffered)
  ∧ fst (write Sim.cfg_default "/f" block 5 1 buffered) = Return 4096
  ∧ f_of (snd (write Sim.cfg_default "/f" block 5 1 buffered)) 1
    = F_dict {| upload_id := ""; up_offset := 0;
                up_buf := Buf_bytes (block ++ block) |}.
Proof. split_and!; vm_compute; reflexivity. Qed.

(** ** A file written in small pieces *)

Section Upload.

Context {R Stream : Type} `{Remote R Stream}.
Variable cfg : config.

Implicit Types (s : dbx_state R Stream) (buf : bytes) (fh offset : Z).

(** The placeholder [create] puts in the cache. *)
Lemma create_inv now_str path mode s h s0 :
  create now_str path mode s = (Return (Some h), s0) →
  1 ≤ h ≤ 8192 ∧ openfh s !! h = None ∧
  s0 = Build_dbx_state (dbx s)
         (<[path := Metadata (Some path) None (Some "file") (Some 0)
                      (Some now_str) None false None None None None]>
            (cache s))
         (<[h := new_fh mode_w]> (openfh s))
         (<[h := false]> (runfh s)) (trace s).
Proof.
  unfold create. munfold. rewrite getFH_unfold.
  destruct (list_find _ _) as [[k i]|] eqn:E; simpl; [|discriminate].
  intros [= -> <-]. apply smallest_unused in E as (_ & ? & ? & _). done.
Qed.

(** [removeFromCache] returns when the cached dictionary of the path has
    no 'contents'. *)
Lemma removeFromCache_returns path s :
  (∀ it, cache s !! path = Some it → i_contents it = None) →
  ∃ b c, removeFromCache path s = (Return b, set_cache c s)
         ∧ shrinks (cache s) c.
Proof.
  intros Hc. destruct (removeFromCache path s) as [r s'] eqn:E.
  pose proof (removeFromCache_inv _ _ _ _ E) as (Hs & Hsh & Hr).
  assert (∃ b, r = Return b) as [b ->].
  { revert E. unfold removeFromCache. munfold. simpl.
    destruct (cache s !! path) as [item|] eqn:Ei; simpl;
      [|intros [= <- _]; by eexists].
    rewrite (Hc item eq_refl).
    destruct (i_entries item); simpl;
      (destruct (cache s !! dirname path) as [parent|];
       [destruct (decide _)|]; simpl;
       (destruct (decide _); simpl; intros [= <- _]; by eexists)). }
  exists b, (cache s'). by rewrite <- Hs.
Qed.

(** [release] of a write handle with an open session and the [str]
    [''] under 'buf': one commit at the offset of the session, then the
    handle is given back. *)
Lemma release_commits path fh s e f b it d :
  openfh s !! fh = Some e → runfh s !! fh = Some b →
  fh_f_of e = F_dict f → upload_id f ≠ "" → up_buf f = Buf_str →
  fh_mode_of e = mode_w →
  (∀ root, cache s !! dirname path = Some root → i_contents root = None) →
  files_upload_session_finish [] (upload_id f) (up_offset f) path (dbx s)
  = (Ok it, d) →
  ∃ c, release path fh s =
       (Return 0,
        Build_dbx_state d c (delete fh (openfh s)) (delete fh (runfh s))
          (trace s ++ [Call_session_finish path (upload_id f) (up_offset f)]))
       ∧ shrinks (cache s) c.
Proof.
  intros He Hb Hf Hid Hbuf Hmode Hroot Hfin.
  unfold release, the_fh, dbxCommitChunkedUpload, call. munfold. simpl.
  rewrite He. simpl. rewrite Hf, Hmode, Hbuf.
  destruct (decide (upload_id f ≠ "")) as [_|[]]; [|done].
  simpl. rewrite Hfin. simpl.
  set (s1 := Build_dbx_state d _ _ _ _).
  destruct (removeFromCache_returns (dirname path) s1 Hroot)
    as (b' & c & -> & Hsh).
  simpl. exists c. split; [|done].
  by rewrite (releaseFH_open _ fh e b).
Qed.

(** C1, as the program has it: after [create], a write of ten bytes
    does not leave the handle keeping bytes: ten is less than 4096, so the
    write starts the upload session at once with the ten bytes, and the
    handle holds the session with offset 10 and nothing kept.  [release]
    of the handle in that state makes one call, the commit at offset 10,
    and gives the handle back.  The remote calls are a session start and
    a commit, for every write cache. *)
Theorem small_writes_upload now_str mode s h s0 b1 sid d1 d2 it :
  create now_str "/f" mode s = (Return (Some h), s0) →
  len b1 = 10 →
  (∀ root, cache s !! "/" = Some root → i_contents root = None) →
  files_upload_session_start b1 (dbx s)
  = (Ok {| session_id := Some sid |}, d1) → sid ≠ "" →
  files_upload_session_finish [] sid 10 "/f" d1 = (Ok it, d2) →
  ∃ s1 s2,
    write cfg "/f" b1 0 h s0 = (Return 10, s1)
    ∧ fh_f_of <$> openfh s1 !! h
      = Some (F_dict {| upload_id := sid; up_offset := 10;
                        up_buf := Buf_str |})
    ∧ trace s1 = trace s ++ [Call_session_start b1]
    ∧ release "/f" h s1 = (Return 0, s2)
    ∧ trace s2
      = trace s ++ [Call_session_start b1; Call_session_finish "/f" sid 10]
    ∧ dbx s2 = d2
    ∧ openfh s2 !! h = None.
Proof.
  intros (Hh & Hfree & ->)%create_inv Hl1 Hroot Hstart Hsid Hfin.
  set (s0 := Build_dbx_state _ _ _ _ _).
  assert (len b1 < 4096) as Hsmall1 by lia.
  (* the write *)
  pose proof (write_starts cfg "/f" b1 0 h s0 (new_fh mode_w) sid d1
                (lookup_insert_eq _ _ _) eq_refl (or_intror Hsmall1) Hstart)
    as E1.
  rewrite Hl1 in E1. cbn in E1. rewrite insert_insert_eq in E1.
  match type of E1 with _ = (_, ?x) => set (s1 := x) in * end.
  (* the release *)
  destruct (release_commits "/f" h s1 _ _ false it d2
              (lookup_insert_eq _ _ _) (lookup_insert_eq _ _ _) eq_refl
              Hsid eq_refl eq_refl) as (c & E3 & Hsh); [|exact Hfin|].
  { cbn. intros root Hr. apply Hroot.
    rewrite lookup_insert_ne in Hr by done. exact Hr. }
  exists s1. eexists. split_and!; [exact E1| | |exact E3| | |].
  - subst s1. cbn. by rewrite lookup_insert_eq.
  - reflexivity.
  - cbn. by rewrite <- !app_assoc.
  - reflexivity.
  - cbn. apply lookup_delete_eq.
Qed.

End Upload.

(** The run on the in-memory store. *)
Lemma small_writes_upload_witness :
  write Sim.cfg_4096 "/f" ten 0 1 created = (Return 10, written_10)
  ∧ fst (release "/f" 1 written_10) = Return 0
  ∧ trace (snd (release "/f" 1 written_10))
    = [Call_session_start ten; Call_session_finish "/f" "session-1" 10].
Proof.
  destruct (small_writes_upload Sim.cfg_4096 "2024-05-01T10:00:00Z" 33188
              (mount Sim.empty_store) 1 created ten
              "session-1" _ _ _
              eq_refl eq_refl ltac:(intros root; discriminate)
              eq_refl ltac:(discriminate) eq_refl)
    as (s1 & s2 & E1 & _ & _ & E3 & Htr & _).
  assert (s1 = written_10) as -> by (unfold written_10; by rewrite E1).
  rewrite E3. split_and!; [exact E1|reflexivity|exact Htr].
Defined.

(** C1 fails on the program.  After the write of ten bytes the handle
    holds an open session and keeps nothing; the write of five bytes
    raises the I/O error and changes nothing; [release] commits at offset
    10, so the store has the ten bytes; and [getattr] after the release
    still reports the size 0 of the placeholder that [create] cached. *)
Lemma small_writes_not_buffered :
  openfh written_10 !! 1
  = Some (Build_fh_entry mode_w
            (F_dict {| upload_id := "session-1"; up_offset := 10;
                       up_buf := Buf_str |}) false 0)
  ∧ write Sim.cfg_4096 "/f" five 10 1 written_10
    = (Raise (FuseOSError EIO), written_15)
  ∧ written_15 = written_10
  ∧ trace released
    = [Call_session_start ten; Call_session_finish "/f" "session-1" 10]
  ∧ Sim.objects (dbx released) = [("/f", Sim.File ten)]
  ∧ st_size <$> (match fst (getattr Sim.cfg_4096 Sim.env 1714557700 "/f"
                              released) with
                 | Return st => st
                 | _ => None
                 end) = Some 0.
Proof. split_and!; vm_compute; reflexivity. Qed.

(** ** Reading through a handle *)

Section Read.

Context {R Stream : Type} `{Remote R Stream}.

Implicit Types (s : dbx_state R Stream) (fh offset length : Z).

(** The stream [dbxFilehandle] opens does not depend on the offset it is
    handed. *)
Lemma dbxFilehandle_ignores_seek path (seek seek' : Z) s :
  dbxFilehandle path seek s = dbxFilehandle path seek' s.
Proof. reflexivity. Qed.

(** The first read on a handle returns the same bytes whatever the offset
    asked for. *)
Lemma read_first_ignores_offset path length offset offset' fh s e :
  openfh s !! fh = Some e → fh_f_of e = F_False →
  fst (read path length offset fh s) = fst (read path length offset' fh s).
Proof.
  intros He Hf. unfold read, the_fh, f_read, the_fh, dbxFilehandle, call.
  munfold. simpl. rewrite He. simpl. destruct (fh_lock e); [done|].
  rewrite Hf. simpl.
  destruct (files_download path (dbx s)) as [[st|x] d]; simpl; [|done].
  rewrite lookup_alter_eq, He. simpl.
  destruct (raw_read st length) as [[rbytes|x] st']; done.
Qed.

(** A read at the expected offset on an open stream makes no download
    call and leaves the expected offset at [offset + len rbytes]. *)
Lemma read_continues path length offset fh s e st rbytes st' :
  openfh s !! fh = Some e → fh_lock e = false →
  fh_f_of e = F_raw st → fh_eoffset e = offset →
  raw_read st length = (Ok rbytes, st') →
  read path length offset fh s =
  (Return rbytes,
   Build_dbx_state (dbx s) (cache s)
     (<[fh := Build_fh_entry (fh_mode_of e) (F_raw st') false
                (offset + len rbytes)]> (openfh s))
     (<[fh := false]> (runfh s)) (trace s)).
Proof.
  intros He Hl Hf Ho Hr. unfold read, the_fh, f_read, the_fh. munfold. simpl.
  rewrite He. simpl. rewrite Hl, Hf. simpl.
  destruct (decide (fh_eoffset e ≠ offset)) as [|_]; [done|]. simpl.
  rewrite He. simpl. rewrite Hf, Hr. simpl.
  unfold set_openfh, set_runfh. simpl. f_equal. f_equal.
  - rewrite !alter_alter_eq, (alter_alt_Some _ _ _ _ He).
    unfold set_eoffset, set_lock, set_f. simpl. done.
  - by rewrite insert_insert_eq.
Qed.

End Read.

(** C2 on the program: the ten bytes of [/f] are the digits 0 to 9.  A
    first read of four bytes at offset 5 returns the digits 0123, read
    from the start of the file, and records 9 as the expected offset; and
    after a read of four bytes at offset 0, a read of two bytes at offset
    8 opens a new stream and returns the digits 01. *)
Theorem read_opens_at_start :
  fst (read "/f" 4 5 1 opened) = Return (take 4 Sim.digits)
  ∧ fh_eoffset <$> openfh (snd (read "/f" 4 5 1 opened)) !! 1 = Some 9
  ∧ trace (snd (read "/f" 4 5 1 opened)) = [Call_download "/f"]
  ∧ fst (read "/f" 2 8 1 (snd (read "/f" 4 0 1 opened)))
    = Return (take 2 Sim.digits)
  ∧ trace (snd (read "/f" 2 8 1 (snd (read "/f" 4 0 1 opened))))
    = [Call_download "/f"; Call_download "/f"].
Proof. split_and!; vm_compute; reflexivity. Qed.

(** ** Invalidation of the cache *)

(** C3 on the program: the folder [/a] is cached with its listing and its
    child [/a/x]; [removeFromCache] of the folder returns [True] and
    removes the folder, but the child stays in the cache, and the next
    lookup of the child is answered from the cache without a remote
    call.  The children are removed only for a dictionary with the key
    'contents', which no listing of the remote store has. *)
Theorem removeFromCache_keeps_children :
  i_entries <$> cache listed_a !! "/a" = Some (Some [child_x])
  ∧ i_contents <$> cache listed_a !! "/a" = Some None
  ∧ cache listed_a !! "/a/x" = Some child_x
  ∧ fst (removeFromCache "/a" listed_a) = Return true
  ∧ cache (snd (removeFromCache "/a" listed_a)) !! "/a" = None
  ∧ cache (snd (removeFromCache "/a" listed_a)) !! "/a/x" = Some child_x
  ∧ getDropboxMetadata Sim.cfg_default 1001 "/a/x" false
      (snd (removeFromCache "/a" listed_a))
    = (Return (Some child_x), snd (removeFromCache "/a" listed_a)).
Proof. split_and!; vm_compute; reflexivity. Qed.

(** ** Operations that change the remote store *)

Section Mutations.

Context {R Stream : Type} `{Remote R Stream}.

Implicit Types (s : dbx_state R Stream).

(** [mkdir] and [rmdir] call the remote store first: when the call fails
    they raise the I/O error and the cache is as it was. *)
Lemma mkdir_failure path mode s x d :
  files_create_folder path (dbx s) = (Failed x, d) →
  mkdir path mode s =
  (Raise (FuseOSError EIO),
   Build_dbx_state d (cache s) (openfh s) (runfh s)
     (trace s ++ [Call_create_folder path])).
Proof.
  intros E. unfold mkdir, dbxFileCreateFolder, call. munfold. by rewrite E.
Qed.

Lemma rmdir_failure path s x d :
  files_delete path (dbx s) = (Failed x, d) →
  rmdir path s =
  (Raise (FuseOSError EIO),
   Build_dbx_state d (cache s) (openfh s) (runfh s)
     (trace s ++ [Call_delete path])).
Proof.
  intros E. unfold rmdir, dbxFileDelete, call. munfold. by rewrite E.
Qed.

(** [rename] hands the encoded paths to the client, which refuses
    them; the handler then adds a [str] and a [bytes] object.  So [rename]
    raises [TypeError], whatever the paths, with no remote call and no
    change of state. *)
Lemma rename_raises old new s : rename old new s = (Raise TypeError, s).
Proof. reflexivity. Qed.

(** [unlink] invalidates first: when the remote call fails, the cache is
    the one [removeFromCache] left. *)
Lemma unlink_failure path s b s1 x d :
  removeFromCache path s = (Return b, s1) →
  files_delete path (dbx s1) = (Failed x, d) →
  unlink path s =
  (Raise (FuseOSError EIO),
   Build_dbx_state d (cache s1) (openfh s1) (runfh s1)
     (trace s1 ++ [Call_delete path])).
Proof.
  intros E1 E2. unfold unlink, dbxFileDelete, call. munfold.
  by rewrite E1, E2.
Qed.

(** After [unlink] has returned the path is not cached. *)
Lemma unlink_uncached path s s' :
  unlink path s = (Return 0, s') → cache s' !! path = None.
Proof.
  unfold unlink, dbxFileDelete, call. munfold.
  destruct (removeFromCache path s) as [[b| |] s1] eqn:E1; [|done..].
  apply removeFromCache_inv in E1 as (_ & _ & Hgone & _).
  destruct (files_delete path (dbx s1)) as [[[]|x] d]; [|done].
  by intros [= <-].
Qed.

End Mutations.

(** C4 on the program: with [/f] and the listing of the root in the cache
    and the network gone, [unlink] of [/f] raises the I/O error, and both
    [/f] and the listing of the root have left the cache. *)
Theorem unlink_failure_evicts :
  cache unplugged !! "/f" = Some child_f
  ∧ is_Some (cache unplugged !! "/")
  ∧ fst (unlink "/f" unplugged) = Raise (FuseOSError EIO)
  ∧ cache (snd (unlink "/f" unplugged)) !! "/f" = None
  ∧ cache (snd (unlink "/f" unplugged)) !! "/" = None.
Proof.
  split_and!; try (vm_compute; reflexivity).
  vm_compute. eexists. reflexivity.
Qed.

(** ** Looking up metadata *)

Section Lookup.

Context {R Stream : Type} `{Remote R Stream}.
Variable cfg : config.

Implicit Types (s : dbx_state R Stream) (item : metadata).

Lemma set_entry_paths_inv es s r s1 :
  set_entry_paths es s = (r, s1) →
  s1 = s ∧ r ≠ Spin ∧ ∀ es', r = Return es' → Forall has_path es'.
Proof.
  revert r s1. induction es as [|tmp es IH]; intros r s1; simpl.
  - intros [= <- <-]. split_and!; [done..|]. by intros es' [= <-].
  - destruct (i_path_display tmp) as [d|].
    + munfold. destruct (set_entry_paths es s) as [[l| |] s2] eqn:E;
        destruct (IH _ _ eq_refl) as (-> & Hns & Hall);
        intros [= <- <-]; split_and!; try done.
      intros es' [= <-]. constructor; [by eexists|by apply Hall].
    + intros [= <- <-]. by split_and!.
Qed.

(** [dbxMetadata] asks the remote store for the listing of the path; it
    leaves the cache and the handles alone; the dictionary it returns
    carries the path, and so do the entries of its listing. *)
Lemma dbxMetadata_inv path mhash s r s1 :
  dbxMetadata path mhash s = (r, s1) →
  cache s1 = cache s ∧ openfh s1 = openfh s ∧ runfh s1 = runfh s
  ∧ (∃ t, trace s1 = trace s ++ Call_list_folder (query_path path) :: t)
  ∧ r ≠ Spin
  ∧ ∀ item, r = Return (Some item) →
      i_path item = Some path
      ∧ ∀ es, i_entries item = Some es → Forall has_path es.
Proof.
  unfold dbxMetadata, call. fold (query_path path). munfold.
  destruct (files_list_folder (query_path path) (dbx s)) as [[result|x] d];
    simpl.
  2:{ intros [= <- <-]. split_and!; try done. by exists []. }
  assert (∀ result' s2 t,
    cache s2 = cache s → openfh s2 = openfh s → runfh s2 = runfh s →
    trace s2 = trace s ++ Call_list_folder (query_path path) :: t →
    match i_entries (set_path path result') with
    | Some es =>
        λ s0, match set_entry_paths es s0 with
              | (Return a, s') =>
                  (Return (Some (set_entries a (set_path path result'))), s')
              | (Raise e, s') => (Raise e, s')
              | (Spin, s') => (Spin, s')
              end
    | None => λ s0, (Return (Some (set_path path result')), s0)
    end s2 = (r, s1) →
    cache s1 = cache s ∧ openfh s1 = openfh s ∧ runfh s1 = runfh s
    ∧ (∃ t, trace s1 = trace s ++ Call_list_folder (query_path path) :: t)
    ∧ r ≠ Spin
    ∧ ∀ item, r = Return (Some item) →
        i_path item = Some path
        ∧ ∀ es, i_entries item = Some es → Forall has_path es) as Htail.
  { intros result' s2 t Hc Ho Hr Ht.
    destruct (i_entries (set_path path result')) as [es|] eqn:Ees.
    - destruct (set_entry_paths es s2) as [[a| |] s3] eqn:E;
        destruct (set_entry_paths_inv _ _ _ _ E) as (-> & Hns & Hall);
        [| |done]; intros [= <- <-]; (split_and!; [eauto..|]).
      + intros item [= <-]. split; [done|]. intros es' [= <-].
        by apply Hall.
      + by intros item [=].
    - intros [= <- <-]. split_and!; [eauto..|].
      intros item [= <-]. split; [done|]. intros es'. by rewrite Ees. }
  destruct (i_error result) as [err|].
  - destruct (decide (err = "not_found")); simpl.
    { intros [= <- <-]. split_and!; try done. by exists []. }
    destruct (decide (err = "not_folder")); simpl.
    + destruct (files_get_metadata (query_path path) d) as [[result'|x] d'];
        simpl.
      * apply (Htail _ _ [Call_get_metadata (query_path path)]); try done.
        simpl. by rewrite <- app_assoc.
      * intros [= <- <-]. split_and!; try done.
        exists [Call_get_metadata (query_path path)]. simpl.
        by rewrite <- app_assoc.
    + intros [= <- <-]. split_and!; try done. by exists [].
  - simpl. by apply (Htail _ _ []).
Qed.

Lemma cache_listing_returns es s :
  Forall has_path es →
  ∃ c, cache_listing es s = (Return tt, set_cache c s).
Proof.
  intros Hall. revert s. induction Hall as [|tmp es [p Hp] _ IH]; intros s.
  - exists (cache s). simpl. unfold ret. by rewrite set_cache_id.
  - simpl. rewrite Hp. munfold.
    destruct (IH (set_cache (<[p:=tmp]> (cache s)) s)) as [c ->].
    by exists c.
Qed.

(** A refresh asks the remote store for the listing of the path. *)
Lemma refresh_trace now path item s :
  ∃ t, trace (snd (refresh cfg now path item s))
       = trace s ++ Call_list_folder (query_path path) :: t.
Proof.
  unfold refresh. munfold.
  destruct (dbxMetadata path (i_id item) s) as [r s1] eqn:E.
  apply dbxMetadata_inv in E as (_ & _ & _ & [t Ht] & Hns & _).
  exists t. rewrite <- Ht. clear Ht.
  destruct r as [[new|]| |]; [|done..].
  destruct (i_is_deleted new); [done|].
  destruct (removeFromCache path s1) as [r2 s2] eqn:E2.
  apply removeFromCache_inv in E2 as (-> & _ & Hr2).
  destruct r2 as [b| |]; [|done..].
  simpl. by destruct (i_entries new).
Qed.

(** A path that is not cached and that the remote store does not list is
    answered [False]. *)
Lemma lookup_miss_none now path s s1 :
  cache s !! path = None →
  dbxMetadata path None s = (Return None, s1) →
  ∃ s', getDropboxMetadata cfg now path false s = (Return None, s').
Proof.
  intros Hc E. unfold getDropboxMetadata. munfold. simpl. rewrite Hc. simpl.
  destruct (cache s !! dirname path) as [parent|].
  - destruct (decide (is_Some (i_contents parent))).
    + by eexists.
    + rewrite E. by eexists.
  - rewrite E. by eexists.
Qed.

(** C6, as the program has it.  A lookup of a cached path returns the
    cached dictionary, with no remote call and no change of state, as long
    as the dictionary is not a listing whose time stamp has passed: the
    dictionary of a file is never refreshed.  A lookup of a listing whose
    time stamp has passed asks the remote store before it returns.
    Once [removeFromCache] has returned, the path is not cached.  A
    lookup of a path that is not cached answers [False] at once when the
    cached parent has 'contents'; otherwise it asks the remote store, and
    answers [False] when the query fails, and the dictionary fetched,
    stamped with [now + cache_time], when the query succeeds. *)
Theorem getDropboxMetadata_lookup now path s :
  (∀ item, cache s !! path = Some item → fresh now item →
     getDropboxMetadata cfg now path false s = (Return (Some item), s))
  ∧ (∀ item es ts,
       cache s !! path = Some item →
       i_entries item = Some es → i_cachets item = Some ts → ts < now →
       ∃ t, trace (snd (getDropboxMetadata cfg now path false s))
            = trace s ++ Call_list_folder (query_path path) :: t)
  ∧ (∀ b s', removeFromCache path s = (Return b, s') →
       cache s' !! path = None)
  ∧ (cache s !! path = None →
       (∀ parent, cache s !! dirname path = Some parent →
          is_Some (i_contents parent) →
          getDropboxMetadata cfg now path false s = (Return None, s))
       ∧ ((∀ parent, cache s !! dirname path = Some parent →
             i_contents parent = None) →
          (∃ t, trace (snd (getDropboxMetadata cfg now path false s))
                = trace s ++ Call_list_folder (query_path path) :: t)
          ∧ (∀ s1, dbxMetadata path None s = (Return None, s1) →
               getDropboxMetadata cfg now path false s = (Return None, s1))
          ∧ (∀ item s1,
               dbxMetadata path None s = (Return (Some item), s1) →
               i_is_deleted item = false →
               fst (getDropboxMetadata cfg now path false s)
               = Return (Some (set_cachets (now + cache_time cfg) item))))).
Proof.
  split_and!.
  - intros item Hc Hfresh. unfold getDropboxMetadata. munfold. simpl.
    rewrite Hc. destruct Hfresh as [->|(ts & Hts & Hle)]; [done|].
    destruct (i_entries item); [|done]. rewrite Hts. simpl.
    by destruct (Z.ltb_spec ts now); [lia|].
  - intros item es ts Hc Hes Hts Hlt. unfold getDropboxMetadata. munfold.
    simpl. rewrite Hc, Hes, Hts. simpl.
    destruct (Z.ltb_spec ts now); [|lia]. simpl. apply refresh_trace.
  - intros b s' E. by apply removeFromCache_inv in E as (_ & _ & ? & _).
  - intros Hc.
    split.
    + intros parent Hp Hcont. unfold getDropboxMetadata. munfold. simpl.
      rewrite Hc. simpl. rewrite Hp.
      by destruct (decide (is_Some (i_contents parent))).
    + intros Hnc.
      assert (∀ r s1, dbxMetadata path None s = (r, s1) →
        getDropboxMetadata cfg now path false s =
        bind (try_except (λ s0, (r, s1))
                (λ e, if decide (exn_str e
                                 = "apiRequest failed. HTTPError: 404")
                      then ret None else raise (FuseOSError EREMOTEIO)))
          (λ fetched,
             match fetched with
             | None => ret None
             | Some item =>
                 if i_is_deleted item then ret None
                 else
                   let cachets := now + cache_time cfg in
                   let item := set_cachets cachets item in
                   modify_cache (insert path item) ;;;
                   match i_path item with
                   | None => raise (KeyError "path")
                   | Some _ =>
                       match i_entries item with
                       | Some es => cache_listing es ;;; ret (Some item)
                       | None => ret (Some item)
                       end
                   end
             end) s) as Hstep.
      { intros r s1 E. unfold getDropboxMetadata. munfold. simpl.
        rewrite Hc. simpl.
        destruct (cache s !! dirname path) as [parent|] eqn:Hp.
        - destruct (decide (is_Some (i_contents parent))) as [[x Hx]|_].
          + by rewrite (Hnc parent eq_refl) in Hx.
          + by rewrite E.
        - by rewrite E. }
      destruct (dbxMetadata path None s) as [r s1] eqn:E.
      rewrite (Hstep _ _ eq_refl). clear Hstep.
      apply dbxMetadata_inv in E as (_ & _ & _ & [t Ht] & Hns & Hitem).
      split_and!.
      * exists t. rewrite <- Ht. munfold.
        destruct r as [[item|]|x|]; simpl; [| |by destruct (decide _)|done];
          [|done].
        destruct (i_is_deleted item); [done|]. simpl.
        destruct (Hitem item eq_refl) as [Hpath Hes]. rewrite Hpath.
        destruct (i_entries item) as [es|]; [|done].
        destruct (cache_listing_returns es
                    (set_cache (<[path:=set_cachets (now + cache_time cfg)
                                          item]> (cache s1)) s1) (Hes _ eq_refl))
          as [c ->]. done.
      * intros s1' [= -> <-]. by munfold.
      * intros item s1' [= -> <-] Hdel. munfold. simpl. rewrite Hdel. simpl.
        destruct (Hitem item eq_refl) as [Hpath Hes]. rewrite Hpath.
        destruct (i_entries item) as [es|]; [|done].
        destruct (cache_listing_returns es
                    (set_cache (<[path:=set_cachets (now + cache_time cfg)
                                          item]> (cache s1)) s1) (Hes _ eq_refl))
          as [c ->]. done.
Qed.

End Lookup.

(** On the in-memory store: the dictionary of [/f], stamped 2120, is
    returned as it is at time 5000; the listing of the root, stamped 1120,
    is asked for again at time 2000; [/f] is gone after
    [removeFromCache]; [/g] is answered [False] at once under a root with
    'contents'; and [/a], not cached on a fresh mount, is fetched. *)
Lemma getDropboxMetadata_lookup_witness :
  getDropboxMetadata Sim.cfg_default 5000 "/f" false refreshed_root
  = (Return (Some child_f), refreshed_root)
  ∧ (∃ t, trace (snd (getDropboxMetadata Sim.cfg_default 2000 "/" false
                        listed_root))
          = trace listed_root ++ Call_list_folder "" :: t)
  ∧ cache (snd (removeFromCache "/f" refreshed_root)) !! "/f" = None
  ∧ getDropboxMetadata Sim.cfg_default 1000 "/g" false with_contents
    = (Return None, with_contents)
  ∧ (∃ t, trace (snd (getDropboxMetadata Sim.cfg_default 1000 "/a" false
                        (mount Sim.store)))
          = Call_list_folder "/a" :: t)
  ∧ getDropboxMetadata Sim.cfg_default 1000 "/q" false (mount Sim.store)
    = (Return None, snd (dbxMetadata "/q" None (mount Sim.store)))
  ∧ ∃ item, fst (getDropboxMetadata Sim.cfg_default 1000 "/a" false
                   (mount Sim.store))
            = Return (Some (set_cachets 1120 item)).
Proof.
  split_and!.
  - destruct (getDropboxMetadata_lookup Sim.cfg_default 5000 "/f"
                refreshed_root) as (Ha & _).
    apply Ha; [vm_compute; reflexivity|by left].
  - destruct (getDropboxMetadata_lookup Sim.cfg_default 2000 "/"
                listed_root) as (_ & Hb & _).
    eapply (Hb root_listing); [vm_compute; reflexivity|reflexivity
                              |reflexivity|lia].
  - destruct (getDropboxMetadata_lookup Sim.cfg_default 0 "/f"
                refreshed_root) as (_ & _ & Hc & _).
    apply (Hc true). vm_compute. reflexivity.
  - destruct (getDropboxMetadata_lookup Sim.cfg_default 1000 "/g"
                with_contents) as (_ & _ & _ & Hd).
    destruct (Hd eq_refl) as [Hd1 _]. eapply Hd1; [reflexivity|by eexists].
  - destruct (getDropboxMetadata_lookup Sim.cfg_default 1000 "/a"
                (mount Sim.store)) as (_ & _ & _ & Hd).
    destruct (Hd eq_refl) as [_ Hd2].
    destruct Hd2 as ([t Ht] & _); [intros parent; discriminate|].
    by exists t.
  - destruct (getDropboxMetadata_lookup Sim.cfg_default 1000 "/q"
                (mount Sim.store)) as (_ & _ & _ & Hd).
    destruct (Hd eq_refl) as [_ Hd2].
    destruct Hd2 as (_ & Hnone & _); [intros parent; discriminate|].
    apply Hnone. vm_compute. reflexivity.
  - destruct (getDropboxMetadata_lookup Sim.cfg_default 1000 "/a"
                (mount Sim.store)) as (_ & _ & _ & Hd).
    destruct (Hd eq_refl) as [_ Hd2].
    destruct Hd2 as (_ & _ & Hsome); [intros parent; discriminate|].
    eexists. apply (Hsome _ (snd (dbxMetadata "/a" None (mount Sim.store))));
      vm_compute; reflexivity.
Defined.

(** C6 fails on the program: the dictionary of the file [/f], stamped
    2120, is returned from the cache at time 5000 with no remote call, the
    state being as before; and the lookup of [/a], which is not cached on
    a fresh mount, returns the listing fetched from the remote store. *)
Lemma stale_file_not_refreshed :
  cache refreshed_root !! "/f" = Some child_f
  ∧ i_cachets child_f = Some 2120
  ∧ getDropboxMetadata Sim.cfg_default 5000 "/f" false refreshed_root
    = (Return (Some child_f), refreshed_root)
  ∧ cache (mount Sim.store) !! "/a" = None
  ∧ i_entries <$> (match fst (getDropboxMetadata Sim.cfg_default 1000 "/a"
                                false (mount Sim.store)) with
                   | Return found => found
                   | _ => None
                   end)
    = Some (Some [child_x]).
Proof. split_and!; vm_compute; reflexivity. Qed.

(** ** Attributes *)

Section Getattr.

Context {R Stream : Type} `{Remote R Stream}.
Variable cfg : config.

Implicit Types (s : dbx_state R Stream) (item : metadata) (env : os_env).

(** C9, as the program has it.  With the entry [pw] of the process's
    real user id in the password database: a path the lookup answers
    [False] for raises "no such entry"; a dictionary that is a listing or
    has the tag "folder" gets the mode [S_IFDIR | 0o755], size 0 and two
    links; a dictionary with the tag "file" gets [S_IFREG | 0o644], its
    'size' and one link; owner and group are [pw_uid] and [pw_gid] of
    [pw]; the access time is [now]; the modification time is [now] without
    'client_modified', and otherwise the text parsed with the format
    ending in Z when it ends with Z and with the format with a space when
    not.  A path that [unlink] has removed, and that the remote store no
    longer lists, raises "no such entry". *)
Theorem getattr_attributes env now path s pw :
  pwd_getpwuid env (os_getuid env) = Some pw →
  (∀ s', getDropboxMetadata cfg now path false s = (Return None, s') →
     getattr cfg env now path s = (Raise (FuseOSError ENOENT), s'))
  ∧ (∀ item s' modified,
       getDropboxMetadata cfg now path false s = (Return (Some item), s') →
       modified_time env now item = Return modified →
       ((is_Some (i_entries item) ∨ i_tag item = Some "folder") →
          getattr cfg env now path s =
          (Return (Some {| st_mode := Z.lor S_IFDIR perm_755; st_size := 0;
                           st_ctime := modified; st_mtime := modified;
                           st_atime := now; st_uid := pw_uid pw;
                           st_gid := pw_gid pw; st_nlink := 2 |}), s'))
       ∧ (∀ size, i_entries item = None → i_tag item = Some "file" →
            i_size item = Some size →
            getattr cfg env now path s =
            (Return (Some {| st_mode := Z.lor S_IFREG perm_644;
                             st_size := size;
                             st_ctime := modified; st_mtime := modified;
                             st_atime := now; st_uid := pw_uid pw;
                             st_gid := pw_gid pw; st_nlink := 1 |}), s')))
  ∧ (∀ item,
       (i_client_modified item = None →
          modified_time env now item = Return now)
       ∧ (∀ txt tm, i_client_modified item = Some txt →
            strptime env txt (if endswith txt "Z" then "%Y-%m-%dT%H:%M:%SZ"
                              else "%Y-%m-%d %H:%M:%S") = Some tm →
            modified_time env now item = Return (mktime env tm)))
  ∧ (Z.land (Z.lor S_IFDIR perm_755) 511 = 493
     ∧ Z.land (Z.lor S_IFDIR perm_755) S_IFMT = S_IFDIR
     ∧ Z.land (Z.lor S_IFREG perm_644) 511 = 420
     ∧ Z.land (Z.lor S_IFREG perm_644) S_IFMT = S_IFREG)
  ∧ (∀ s1 s2, unlink path s = (Return 0, s1) →
       dbxMetadata path None s1 = (Return None, s2) →
       fst (getattr cfg env now path s1) = Raise (FuseOSError ENOENT)).
Proof.
  intros Hpw.
  assert (∀ s0 s', getDropboxMetadata cfg now path false s0
                   = (Return None, s') →
          getattr cfg env now path s0 = (Raise (FuseOSError ENOENT), s'))
    as Habsent.
  { intros s0 s' E. unfold getattr. rewrite Hpw. munfold. by rewrite E. }
  split_and!; try reflexivity.
  - apply Habsent.
  - intros item s' modified E Hm. split.
    + intros Hfolder. unfold getattr. rewrite Hpw. munfold.
      rewrite E, Hm. simpl.
      destruct Hfolder as [[es ->]| ->]; [done|].
      by destruct (i_entries item).
    + intros size Hes Htag Hsize. unfold getattr. rewrite Hpw. munfold.
      rewrite E, Hm. simpl. by rewrite Hes, Htag, Hsize.
  - intros item. split.
    + intros Hcm. unfold modified_time. by rewrite Hcm.
    + intros txt tm Hcm Htm. unfold modified_time. by rewrite Hcm, Htm.
  - intros s1 s2 Hun Hgone. apply unlink_uncached in Hun.
    destruct (lookup_miss_none cfg now path s1 s2 Hun Hgone) as [s' E].
    by rewrite (Habsent _ _ E).
Qed.

End Getattr.

(** On the in-memory store, for a process of user 1000 whose entry in the
    password database has the group 100: the root is a folder, [/f] is a
    file of ten bytes, [/q] does not exist, and [/f] does not exist once
    it has been unlinked. *)
Lemma getattr_attributes_witness :
  fst (getattr Sim.cfg_default Sim.env 1500 "/q" (mount Sim.store))
  = Raise (FuseOSError ENOENT)
  ∧ fst (getattr Sim.cfg_default Sim.env 1500 "/" refreshed_root)
    = Return (Some {| st_mode := Z.lor S_IFDIR perm_755; st_size := 0;
                      st_ctime := 1500; st_mtime := 1500; st_atime := 1500;
                      st_uid := 1000; st_gid := 100; st_nlink := 2 |})
  ∧ fst (getattr Sim.cfg_default Sim.env 1500 "/f" refreshed_root)
    = Return (Some {| st_mode := Z.lor S_IFREG perm_644; st_size := 10;
                      st_ctime := 1714557600; st_mtime := 1714557600;
                      st_atime := 1500; st_uid := 1000; st_gid := 100;
                      st_nlink := 1 |})
  ∧ modified_time Sim.env 1500 child_f = Return 1714557600
  ∧ fst (getattr Sim.cfg_default Sim.env 1500 "/f"
           (snd (unlink "/f" refreshed_root)))
    = Raise (FuseOSError ENOENT).
Proof.
  pose (pw := {| pw_uid := 1000; pw_gid := 100 |}).
  split_and!.
  - destruct (getattr_attributes Sim.cfg_default Sim.env 1500 "/q"
                (mount Sim.store) pw eq_refl) as (Ha & _).
    rewrite (Ha (snd (dbxMetadata "/q" None (mount Sim.store))));
      [reflexivity|vm_compute; reflexivity].
  - destruct (getattr_attributes Sim.cfg_default Sim.env 1500 "/"
                refreshed_root pw eq_refl) as (_ & Hb & _).
    destruct (Hb _ refreshed_root 1500
                ltac:(vm_compute; reflexivity) eq_refl) as [Hfolder _].
    rewrite Hfolder; [reflexivity|]. left. vm_compute. by eexists.
  - destruct (getattr_attributes Sim.cfg_default Sim.env 1500 "/f"
                refreshed_root pw eq_refl) as (_ & Hb & _).
    destruct (Hb child_f refreshed_root 1714557600
                ltac:(vm_compute; reflexivity) eq_refl) as [_ Hfile].
    rewrite (Hfile 10); reflexivity.
  - destruct (getattr_attributes Sim.cfg_default Sim.env 1500 "/f"
                refreshed_root pw eq_refl) as (_ & _ & Hc & _).
    destruct (Hc child_f) as [_ Hparse].
    rewrite (Hparse "2024-05-01 10:00:00"
               {| tm_year := 2024; tm_mon := 5; tm_mday := 1;
                  tm_hour := 10; tm_min := 0; tm_sec := 0 |}
               eq_refl eq_refl).
    reflexivity.
  - destruct (getattr_attributes Sim.cfg_default Sim.env 1500 "/f"
                refreshed_root pw eq_refl) as (_ & _ & _ & _ & Hd).
    eapply Hd; vm_compute; reflexivity.
Defined.

(** C9 fails on the program.  For a process whose real user is 1000 and
    whose effective user and group are 0, [getattr] reports the owner
    1000 and the group 100 of the password entry of user 1000.  The file
    [/f] of the store, looked up on a fresh mount, is not found: the
    listing asked for it fails.  After the upload of ten bytes the store
    has the ten bytes of [/f] and [getattr] reports the size 0 of the
    cached dictionary.  And [/g], created and released without a write,
    is not in the store, yet [getattr] answers with the attributes of a
    file. *)
Lemma getattr_not_as_claimed :
  os_geteuid Sim.env = 0 ∧ os_getegid Sim.env = 0
  ∧ st_uid <$> (match fst (getattr Sim.cfg_default Sim.env 1500 "/f"
                             refreshed_root) with
                | Return st => st
                | _ => None
                end) = Some 1000
  ∧ st_gid <$> (match fst (getattr Sim.cfg_default Sim.env 1500 "/f"
                             refreshed_root) with
                | Return st => st
                | _ => None
                end) = Some 100
  ∧ Sim.lookup_path "/f" (Sim.objects Sim.store) = Some (Sim.File ten)
  ∧ fst (getattr Sim.cfg_default Sim.env 1500 "/f" (mount Sim.store))
    = Raise (FuseOSError ENOENT)
  ∧ Sim.lookup_path "/f" (Sim.objects (dbx released)) = Some (Sim.File ten)
  ∧ st_size <$> (match fst (getattr Sim.cfg_4096 Sim.env 1714557700 "/f"
                              released) with
                 | Return st => st
                 | _ => None
                 end) = Some 0
  ∧ Sim.lookup_path "/g" (Sim.objects (dbx abandoned)) = None
  ∧ fst (getattr Sim.cfg_default Sim.env 1714557700 "/g" abandoned)
    = Return (Some {| st_mode := Z.lor S_IFREG perm_644; st_size := 0;
                      st_ctime := 1714557600; st_mtime := 1714557600;
                      st_atime := 1714557700; st_uid := 1000;
                      st_gid := 100; st_nlink := 1 |}).
Proof. split_and!; vm_compute; reflexivity. Qed.

(** ** What an operation leaves alone *)

Section Keeps.

Context {S : Type} (I : S → Prop).

Lemma keeps_ret {A} (a : A) : keeps I (ret a).
Proof. by intros s. Qed.

Lemma keeps_raise {A} (e : exn) : keeps I (raise (A := A) e).
Proof. by intros s. Qed.

Lemma keeps_spin {A} : keeps I (spin (A := A)).
Proof. by intros s. Qed.

Lemma keeps_lift {A} (r : result A) : keeps I (lift r).
Proof. by intros s. Qed.

Lemma keeps_gets {A} (p : S → A) : keeps I (gets p).
Proof. by intros s. Qed.

Lemma keeps_modify (u : S → S) : (∀ s, I s → I (u s)) → keeps I (modify u).
Proof. intros Hu s. apply Hu. Qed.

Lemma keeps_bind {A B} (m : M S A) (k : A → M S B) :
  keeps I m → (∀ a, keeps I (k a)) → keeps I (bind m k).
Proof.
  intros Hm Hk s Hs. unfold bind. specialize (Hm s Hs).
  destruct (m s) as [[a|e|] s1]; simpl in *; [by apply Hk|done..].
Qed.

Lemma keeps_try {A} (m : M S A) (h : exn → M S A) :
  keeps I m → (∀ e, keeps I (h e)) → keeps I (try_except m h).
Proof.
  intros Hm Hh s Hs. unfold try_except. specialize (Hm s Hs).
  destruct (m s) as [[a|e|] s1]; simpl in *; [done|by apply Hh|done].
Qed.

End Keeps.

Section NeverSpins.

Context {S : Type}.

Lemma never_spins_ret {A} (a : A) : never_spins (ret (S := S) a).
Proof. by intros s. Qed.

Lemma never_spins_raise {A} (e : exn) : never_spins (raise (S := S) (A := A) e).
Proof. by intros s. Qed.

Lemma never_spins_gets {A} (p : S → A) : never_spins (gets p).
Proof. by intros s. Qed.

Lemma never_spins_modify (u : S → S) : never_spins (modify u).
Proof. by intros s. Qed.

Lemma never_spins_bind {A B} (m : M S A) (k : A → M S B) :
  never_spins m → (∀ a, never_spins (k a)) → never_spins (bind m k).
Proof.
  intros Hm Hk s. unfold bind. specialize (Hm s).
  destruct (m s) as [[a|e|] s1]; simpl in *; [apply Hk|done..].
Qed.

Lemma never_spins_try {A} (m : M S A) (h : exn → M S A) :
  never_spins m → (∀ e, never_spins (h e)) → never_spins (try_except m h).
Proof.
  intros Hm Hh s. unfold try_except. specialize (Hm s).
  destruct (m s) as [[a|e|] s1]; simpl in *; [done|apply Hh|done].
Qed.

End NeverSpins.

Create HintDb spins discriminated.

#[local] Hint Resolve never_spins_ret never_spins_raise never_spins_gets
  never_spins_modify : spins.
#[local] Hint Extern 1 (never_spins (bind _ _)) =>
  apply never_spins_bind; [|intros ?] : spins.
#[local] Hint Extern 1 (never_spins (try_except _ _)) =>
  apply never_spins_try; [|intros ?] : spins.
#[local] Hint Extern 2 (never_spins (match ?x with _ => _ end)) =>
  destruct x : spins.
#[local] Hint Extern 2 (never_spins (let (_, _) := ?x in _)) =>
  destruct x : spins.
#[local] Hint Extern 1 (never_spins (modify_openfh _)) =>
  unfold modify_openfh : spins.
#[local] Hint Extern 1 (never_spins (modify_runfh _)) =>
  unfold modify_runfh : spins.
#[local] Hint Extern 1 (never_spins (modify_cache _)) =>
  unfold modify_cache : spins.

Create HintDb keeps discriminated.

#[local] Hint Resolve keeps_ret keeps_raise keeps_spin keeps_lift keeps_gets
  : keeps.
#[local] Hint Extern 1 (keeps _ (bind _ _)) =>
  apply keeps_bind; [|intros ?] : keeps.
#[local] Hint Extern 1 (keeps _ (try_except _ _)) =>
  apply keeps_try; [|intros ?] : keeps.
#[local] Hint Extern 2 (keeps _ (match ?x with _ => _ end)) =>
  destruct x : keeps.
#[local] Hint Extern 2 (keeps _ (let (_, _) := ?x in _)) =>
  destruct x : keeps.

Section Frames.

Context {R Stream : Type} `{Remote R Stream}.
Variable cfg : config.

Implicit Types (s : dbx_state R Stream) (I : dbx_state R Stream → Prop).

Lemma keeps_call I {A} (c : api_call) (rpc : R → reply A * R) :
  handles_only I → keeps I (call c rpc).
Proof.
  intros HI s Hs. unfold call. destruct (rpc (dbx s)) as [[a|e] d];
    simpl; by apply (HI s).
Qed.

Lemma never_spins_call {A} (c : api_call) (rpc : R → reply A * R) :
  never_spins (call (Stream := Stream) c rpc).
Proof.
  intros s. unfold call. by destruct (rpc (dbx s)) as [[a|e] d].
Qed.

Lemma keeps_modify_cache I u : handles_only I → keeps I (modify_cache u).
Proof. intros HI. apply keeps_modify. intros s. by apply (HI s). Qed.

Lemma keeps_removeFromCache I path :
  handles_only I → keeps I (removeFromCache path).
Proof.
  intros HI s Hs. destruct (removeFromCache path s) as [r s'] eqn:E.
  apply removeFromCache_inv in E as (-> & _). simpl. by apply (HI s).
Qed.

Lemma keeps_dbxMetadata I path mhash :
  handles_only I → keeps I (dbxMetadata path mhash).
Proof.
  intros HI s Hs. destruct (dbxMetadata path mhash s) as [r s'] eqn:E.
  apply dbxMetadata_inv in E as (_ & Ho & Hr & _). simpl. by apply (HI s).
Qed.

Lemma keeps_cache_listing I es : handles_only I → keeps I (cache_listing es).
Proof.
  intros HI. induction es as [|tmp es IH]; simpl; [auto with keeps|].
  destruct (i_path tmp); [|auto with keeps].
  apply keeps_bind; [by apply keeps_modify_cache|done].
Qed.

Hint Resolve keeps_call keeps_modify_cache keeps_removeFromCache
  keeps_dbxMetadata keeps_cache_listing : keeps.

Lemma keeps_getDropboxMetadata I now path deep :
  handles_only I → keeps I (getDropboxMetadata cfg now path deep).
Proof.
  intros HI. unfold getDropboxMetadata, refresh. auto 20 with keeps.
Qed.

Lemma keeps_folder_items I fusefolder es : keeps I (folder_items fusefolder es).
Proof.
  revert fusefolder. induction es as [|item es IH]; intros fusefolder; simpl;
    [auto with keeps|].
  destruct (i_path item); auto with keeps.
Qed.

Hint Resolve keeps_getDropboxMetadata keeps_folder_items : keeps.

(** The operations on metadata keep every property of the handle
    tables. *)
Lemma keeps_metadata_ops I :
  handles_only I →
  (∀ path mode, keeps I (mkdir path mode))
  ∧ (∀ path, keeps I (rmdir path))
  ∧ (∀ path, keeps I (unlink path))
  ∧ (∀ old new, keeps I (rename old new))
  ∧ (∀ env now path, keeps I (getattr cfg env now path))
  ∧ (∀ now path fh, keeps I (readdir cfg now path fh))
  ∧ (∀ now path mode, keeps I (chmod cfg now path mode))
  ∧ (∀ now path uid gid, keeps I (chattr cfg now path uid gid)).
Proof.
  intros HI. split_and!; intros;
    try (unfold mkdir, rmdir, unlink, getattr, readdir, chmod, chattr,
           dbxFileCreateFolder, dbxFileDelete;
         by auto 20 with keeps).
  (* [rename] raises before it touches anything *)
  by intros s Hs.
Qed.

(** The operations on metadata never touch the tables of handles:
    [openfh] and [runfh] are the same after [getDropboxMetadata],
    [removeFromCache], [mkdir], [rmdir], [unlink], [rename], [getattr],
    [readdir], [chmod] and [chattr], whatever the outcome. *)
Theorem metadata_ops_leave_handles s :
  (∀ now path deep,
     same_handles s (snd (getDropboxMetadata cfg now path deep s)))
  ∧ (∀ path, same_handles s (snd (removeFromCache path s)))
  ∧ (∀ path mode, same_handles s (snd (mkdir path mode s)))
  ∧ (∀ path, same_handles s (snd (rmdir path s)))
  ∧ (∀ path, same_handles s (snd (unlink path s)))
  ∧ (∀ old new, same_handles s (snd (rename old new s)))
  ∧ (∀ env now path, same_handles s (snd (getattr cfg env now path s)))
  ∧ (∀ now path fh, same_handles s (snd (readdir cfg now path fh s)))
  ∧ (∀ now path mode, same_handles s (snd (chmod cfg now path mode s)))
  ∧ (∀ now path uid gid,
       same_handles s (snd (chattr cfg now path uid gid s))).
Proof.
  assert (handles_only (same_handles s)) as HI.
  { intros s1 s2 Ho Hr [Ho1 Hr1]. split; congruence. }
  assert (same_handles s s) as Hs by done.
  destruct (keeps_metadata_ops _ HI)
    as (H1 & H2 & H3 & H4 & H5 & H6 & H7 & H8).
  split_and!; intros.
  - by apply keeps_getDropboxMetadata.
  - by apply keeps_removeFromCache.
  - by apply H1.
  - by apply H2.
  - by apply H3.
  - by apply H4.
  - by apply H5.
  - by apply H6.
  - by apply H7.
  - by apply H8.
Qed.

End Frames.

(** ** The invariant of the handle tables *)

#[local] Hint Resolve keeps_call keeps_modify_cache keeps_removeFromCache
  keeps_dbxMetadata keeps_cache_listing keeps_getDropboxMetadata
  keeps_folder_items : keeps.

Section Invariant.

Context {R Stream : Type} `{Remote R Stream}.
Variable cfg : config.

Implicit Types (s : dbx_state R Stream) (fh : Z).

Abbreviation WF := (@wf_handles R Stream).
Abbreviation HERE := (@open_here R Stream).

Lemma wf_handles_only : handles_only WF.
Proof. intros s s' Ho Hr [H1 H2]. split; intros *; rewrite ?Ho, ?Hr; auto. Qed.

Lemma open_here_only fh :
  handles_only (HERE fh).
Proof.
  intros s s' Ho Hr [H1 H2]. split; [by eapply wf_handles_only|].
  by rewrite Ho.
Qed.

Lemma wf_init (d : R) : wf_handles (init d : dbx_state R Stream).
Proof.
  split; intros fh; simpl; rewrite ?lookup_empty; [|done].
  split; by intros [].
Qed.

(** An update of the dictionary of a handle that does not lock it. *)
Lemma wf_alter (g : fh_entry Stream → fh_entry Stream) fh s :
  (∀ e, fh_lock e = false → fh_lock (g e) = false) →
  wf_handles s → wf_handles (set_openfh (alter g fh (openfh s)) s).
Proof.
  intros Hg [H1 H2]. split; simpl.
  - intros fh'. rewrite <- H1. destruct (decide (fh = fh')) as [->|Hne].
    + rewrite lookup_alter_eq. by rewrite fmap_is_Some.
    + by rewrite lookup_alter_ne.
  - intros fh' e'. destruct (decide (fh = fh')) as [->|Hne].
    + rewrite lookup_alter_eq. destruct (openfh s !! fh') as [e|] eqn:E;
        [|done]. intros [= <-]. destruct (H2 _ _ E). auto.
    + rewrite lookup_alter_ne by done. apply H2.
Qed.

Lemma keeps_alter (g : fh_entry Stream → fh_entry Stream) fh :
  (∀ e, fh_lock e = false → fh_lock (g e) = false) →
  keeps WF (modify_openfh (alter g fh)).
Proof. intros Hg. apply keeps_modify. intros s. by apply wf_alter. Qed.

Lemma keeps_alter_here (g : fh_entry Stream → fh_entry Stream) fh fh' :
  (∀ e, fh_lock e = false → fh_lock (g e) = false) →
  keeps (HERE fh') (modify_openfh (alter g fh)).
Proof.
  intros Hg. apply keeps_modify. intros s [Hwf Hop].
  split; [by apply wf_alter|]. simpl.
  destruct (decide (fh = fh')) as [->|Hne].
  - rewrite lookup_alter_eq. by rewrite fmap_is_Some.
  - by rewrite lookup_alter_ne.
Qed.

Lemma keeps_runfh_here fh b :
  keeps (HERE fh) (modify_runfh (insert fh b)).
Proof.
  apply keeps_modify. intros s [[H1 H2] Hop]. split; [|done].
  split; [|done]. simpl. intros fh'. rewrite H1.
  destruct (decide (fh = fh')) as [->|Hne].
  - rewrite lookup_insert_eq. apply H1 in Hop. split; eauto.
  - by rewrite lookup_insert_ne.
Qed.

Lemma keeps_getFH mode : keeps WF (getFH mode).
Proof.
  intros s [H1 H2]. rewrite getFH_unfold.
  destruct (list_find _ _) as [[k i]|] eqn:E; [|done].
  apply smallest_unused in E as (_ & Hi & Hnone & _). cbn [snd]. split; simpl.
  - intros fh. destruct (decide (i = fh)) as [->|Hne].
    + rewrite !lookup_insert_eq. split; eauto.
    + by rewrite !lookup_insert_ne.
  - intros fh e. destruct (decide (i = fh)) as [->|Hne].
    + rewrite lookup_insert_eq. by intros [= <-].
    + rewrite lookup_insert_ne by done. apply H2.
Qed.

Lemma keeps_releaseFH fh : keeps WF (releaseFH fh).
Proof.
  intros s [H1 H2]. unfold releaseFH. munfold. simpl.
  destruct (decide (is_Some (openfh s !! fh))) as [Hop|]; [|done]. simpl.
  destruct (decide (is_Some (runfh s !! fh))) as [_|[]]; [|by apply H1].
  simpl. split; simpl.
  - intros fh'. destruct (decide (fh = fh')) as [->|Hne].
    + rewrite !lookup_delete_eq. split; by intros [].
    + by rewrite !lookup_delete_ne.
  - intros fh' e. destruct (decide (fh = fh')) as [->|Hne].
    + by rewrite lookup_delete_eq.
    + rewrite lookup_delete_ne by done. apply H2.
Qed.

(** With the handle read from the table, the rest runs with the handle
    open. *)
Lemma keeps_the_fh_bind {A} fh (k : fh_entry Stream → M _ A) :
  (∀ e, keeps (HERE fh) (k e)) → keeps WF (bind (the_fh fh) k).
Proof.
  intros Hk s Hs. unfold the_fh. munfold. simpl.
  destruct (openfh s !! fh) as [e|] eqn:E; [|done].
  by apply (Hk e s).
Qed.

Lemma keeps_the_fh (I : dbx_state R Stream → Prop) fh : keeps I (the_fh fh).
Proof.
  intros s Hs. unfold the_fh. munfold. simpl. by destruct (openfh s !! fh).
Qed.

Hint Resolve keeps_the_fh keeps_getFH keeps_releaseFH keeps_runfh_here
  wf_handles_only open_here_only : keeps.
Hint Extern 1 (keeps _ (modify_openfh (alter _ _))) =>
  first [apply keeps_alter | apply keeps_alter_here]; by intros [] : keeps.
Hint Extern 1 (keeps _ (dbxFilehandle _ _)) => unfold dbxFilehandle : keeps.
Hint Extern 1 (keeps _ (dbxChunkedUpload _ _ _)) =>
  unfold dbxChunkedUpload : keeps.
Hint Extern 1 (keeps _ (dbxCommitChunkedUpload _ _ _)) =>
  unfold dbxCommitChunkedUpload : keeps.
Hint Extern 1 (keeps _ (f_read _ _)) => unfold f_read : keeps.
Hint Extern 1 (keeps _ (buf_add _ _)) => unfold buf_add : keeps.

Lemma keeps_read path length offset fh :
  keeps WF (read path length offset fh).
Proof.
  unfold read. apply keeps_the_fh_bind. intros e. auto 30 with keeps.
Qed.

Lemma keeps_write path buf offset fh :
  keeps WF (write cfg path buf offset fh).
Proof. unfold write. auto 30 with keeps. Qed.

Lemma keeps_open path flags : keeps WF (open path flags).
Proof. unfold open. auto with keeps. Qed.

Lemma keeps_create now_str path mode :
  keeps WF (create now_str path mode).
Proof. unfold create. auto with keeps. Qed.

Lemma keeps_release path fh : keeps WF (release path fh).
Proof. unfold release. auto 30 with keeps. Qed.

#[local] Hint Resolve never_spins_call : spins.
#[local] Hint Extern 1 (never_spins (the_fh _)) => unfold the_fh : spins.
#[local] Hint Extern 1 (never_spins (f_read _ _)) => unfold f_read : spins.
#[local] Hint Extern 1 (never_spins (dbxFilehandle _ _)) =>
  unfold dbxFilehandle : spins.

(** [read] on a handle that is not locked does not wait. *)
Lemma read_unlocked path length offset fh s e :
  openfh s !! fh = Some e → fh_lock e = false →
  fst (read path length offset fh s) ≠ Spin.
Proof.
  intros He Hl. unfold read.
  match goal with
  | |- context [bind (the_fh fh) ?k] =>
      assert (never_spins (k e)) as Hk
  end.
  { rewrite Hl. auto 30 with spins. }
  unfold bind at 1. unfold the_fh at 1. munfold. simpl. rewrite He.
  apply Hk.
Qed.

(** At most 8192 handles are open under the invariant. *)
Lemma wf_handles_size s : wf_handles s → Z.of_nat (size (openfh s)) ≤ 8192.
Proof.
  intros [_ H2]. rewrite <- size_dom.
  assert (dom (openfh s) ⊆ (list_to_set (seqZ 1 8192) : gset Z)) as Hsub.
  { intros fh [e He]%elem_of_dom. apply elem_of_list_to_set, elem_of_seqZ.
    destruct (H2 _ _ He). lia. }
  apply subseteq_size in Hsub.
  rewrite size_list_to_set in Hsub by apply NoDup_seqZ.
  rewrite length_seqZ in Hsub. lia.
Qed.

(** Every state of a mount satisfies the invariant of the handle tables:
    [openfh] and [runfh] have the same keys, every key lies in 1..8192 (so
    at most 8192 handles are open), and no handle is locked.  So [read]
    never waits on the lock, and [releaseFH] never misses the key in
    [runfh]. *)
Theorem reachable_handles d s :
  reachable cfg d s →
  wf_handles s
  ∧ Z.of_nat (size (openfh s)) ≤ 8192
  ∧ (∀ path length offset fh, fst (read path length offset fh s) ≠ Spin)
  ∧ (∀ fh r s', releaseFH fh s = (r, s') → r = Return None ∨ r = Return (Some false)).
Proof.
  intros Hreach.
  assert (wf_handles s) as Hwf.
  { induction Hreach as [|q s _ IH]; [apply wf_init|].
    destruct (keeps_metadata_ops cfg _ wf_handles_only)
      as (H1 & H2 & H3 & H4 & H5 & H6 & H7 & H8).
    destruct q; simpl.
    - by apply H1.
    - by apply H2.
    - by apply H3.
    - exact IH.
    - by apply keeps_read.
    - by apply keeps_write.
    - by apply keeps_open.
    - by apply keeps_create.
    - by apply keeps_release.
    - done.
    - by apply H6.
    - by apply H5.
    - done.
    - by apply H7.
    - by apply H8. }
  split_and!; [done|by apply wf_handles_size| |].
  - intros path length offset fh.
    destruct (openfh s !! fh) as [e|] eqn:E.
    + destruct Hwf as [_ H2]. destruct (H2 _ _ E) as [_ Hl].
      by eapply read_unlocked.
    + unfold read, the_fh. munfold. simpl. by rewrite E.
  - intros fh r s'. destruct Hwf as [H1 _]. unfold releaseFH. munfold. simpl.
    destruct (decide (is_Some (openfh s !! fh))) as [Hop|];
      [|intros [= <- _]; by right]. simpl.
    destruct (decide (is_Some (runfh s !! fh))) as [_|[]]; [|by apply H1].
    intros [= <- _]. by left.
Qed.

End Invariant.

(** The state after [create] and a write is a state of the mount. *)
Lemma reachable_handles_witness :
  wf_handles
    (serve Sim.cfg_4096 (Write "/f" ten 0 1)
       (serve Sim.cfg_4096 (Create "2024-05-01T10:00:00Z" "/f" 33188)
          (init Sim.empty_store)))
  ∧ fst (read "/f" 4 0 1
           (serve Sim.cfg_4096 (Write "/f" ten 0 1)
              (serve Sim.cfg_4096 (Create "2024-05-01T10:00:00Z" "/f" 33188)
                 (init Sim.empty_store)))) ≠ Spin.
Proof.
  destruct (reachable_handles Sim.cfg_4096 Sim.empty_store
              (serve Sim.cfg_4096 (Write "/f" ten 0 1)
                 (serve Sim.cfg_4096
                    (Create "2024-05-01T10:00:00Z" "/f" 33188)
                    (init Sim.empty_store))))
    as (Hwf & _ & Hread & _).
  - apply reach_serve, reach_serve, reach_init.
  - split; [exact Hwf|apply Hread].
Defined.

(** ** The bytes of an upload *)

Section Session.

Context {R Stream : Type} `{Remote R Stream}.
Variable cfg : config.

Implicit Types (s : dbx_state R Stream) (buf : bytes) (fh offset : Z).

Lemma sent_data_app l1 l2 : sent_data (l1 ++ l2) = sent_data l1 ++ sent_data l2.
Proof.
  induction l1 as [|c l1 IH]; [done|].
  destruct c; simpl; rewrite ?IH, ?app_assoc; done.
Qed.

Lemma sent_session_start data : sent_data [Call_session_start data] = data.
Proof. simpl. by rewrite app_nil_r. Qed.

Lemma len_app {A} (l1 l2 : list A) : len (l1 ++ l2) = len l1 + len l2.
Proof. unfold len. rewrite length_app. lia. Qed.

Lemma f_of_alter s fh g e :
  openfh s !! fh = Some e →
  f_of (set_openfh (alter g fh (openfh s)) s) fh = fh_f_of (g e).
Proof. intros He. unfold f_of. simpl. by rewrite lookup_alter_eq, He. Qed.

Lemma write_step path buf offset fh s n s' :
  write cfg path buf offset fh s = (Return n, s') →
  n = len buf ∧
  sent_data (trace s') ++ pending (f_of s' fh)
  = sent_data (trace s) ++ pending (f_of s fh) ++ buf
  ∧ committed (f_of s' fh) + len (pending (f_of s' fh))
    = committed (f_of s fh) + len (pending (f_of s fh)) + len buf
  ∧ (pending (f_of s' fh) = []
     ∨ (4096 ≤ len buf ∧ len (pending (f_of s' fh)) < write_cache cfg))
  ∧ (∀ fh', fh' ≠ fh → openfh s' !! fh' = openfh s !! fh')
  ∧ cache s' = cache s.
Proof.
  rewrite write_unfold.
  destruct (openfh s !! fh) as [e|] eqn:He; [|done].
  assert (f_of s fh = fh_f_of e) as Hf by (unfold f_of; by rewrite He).
  rewrite Hf. clear Hf.
  destruct (fh_f_of e) as [|st|f] eqn:Hfe; [|done|].
  - destruct (decide _) as [Hc|Hc].
    + rewrite dbxChunkedUpload_start.
      destruct (files_upload_session_start _ _) as [[res|x] d]; [|done].
      destruct (session_id res) as [sid|]; [|done].
      intros [= <- <-]. simpl. unfold f_of. simpl.
      rewrite lookup_alter_eq, He. simpl.
      rewrite sent_data_app, sent_session_start, !app_nil_r.
      split_and!; [done|done|unfold len in *; simpl; lia|by left| |done].
      intros fh' Hne. by rewrite lookup_alter_ne.
    + intros [= <- <-]. rewrite (f_of_alter _ _ _ e) by done. simpl.
      split_and!; [done|done|unfold len in *; simpl; lia
                  |right; unfold len in *; simpl; lia| |done].
      intros fh' Hne. by rewrite lookup_alter_ne.
  - simpl. destruct (up_buf f) as [|b] eqn:Hb; [done|].
    destruct (decide _) as [Hc|Hc].
    + destruct (decide (upload_id f = "")) as [Hid|Hid].
      2:{ by destruct (dbxChunkedUpload_append (b ++ buf) _ (up_offset f) s
                         Hid) as (x & d & ->). }
      rewrite Hid, dbxChunkedUpload_start.
      destruct (files_upload_session_start _ _) as [[res|x] d]; [|done].
      destruct (session_id res) as [sid|]; [|done].
      intros [= <- <-]. simpl. unfold f_of. simpl.
      rewrite lookup_alter_eq, He. simpl.
      rewrite sent_data_app, sent_session_start, !app_nil_r, len_app.
      split_and!; [done|done|unfold len in *; simpl; lia|by left| |done].
      intros fh' Hne. by rewrite lookup_alter_ne.
    + intros [= <- <-]. rewrite (f_of_alter _ _ _ e) by done. simpl.
      rewrite len_app.
      split_and!; [done|done|unfold len in *; simpl; lia
                  |right; unfold len in *; simpl; lia| |done].
      intros fh' Hne. by rewrite lookup_alter_ne.
Qed.


(** One write: nothing is lost and nothing is added.  The bytes sent so
    far followed by the bytes kept are, after the write, what they were
    before followed by the buffer; the session offset plus the bytes kept
    grows by the length of the buffer; what is kept afterwards is nothing,
    or fewer than [write_cache] bytes ending with a buffer of at least
    4096; the other handles and the cache are as before. *)
Theorem write_accounting path buf offset fh s n s' :
  write cfg path buf offset fh s = (Return n, s') →
  sent_data (trace s') ++ pending (f_of s' fh)
  = sent_data (trace s) ++ pending (f_of s fh) ++ buf
  ∧ committed (f_of s' fh) + len (pending (f_of s' fh))
    = committed (f_of s fh) + len (pending (f_of s fh)) + len buf
  ∧ (pending (f_of s' fh) = []
     ∨ (4096 ≤ len buf ∧ len (pending (f_of s' fh)) < write_cache cfg))
  ∧ (∀ fh', fh' ≠ fh → openfh s' !! fh' = openfh s !! fh')
  ∧ cache s' = cache s.
Proof. intros E. by apply write_step in E as (_ & ?). Qed.

(** A run of writes through one handle: each returns the length of its
    buffer, and the bytes sent followed by the bytes kept are the bytes
    before followed by the buffers in the order written. *)
Theorem write_all_accounting path bufs offset fh s ns s' :
  write_all cfg path bufs offset fh s = (Return ns, s') →
  ns = len <$> bufs
  ∧ sent_data (trace s') ++ pending (f_of s' fh)
    = sent_data (trace s) ++ pending (f_of s fh) ++ concat bufs
  ∧ committed (f_of s' fh) + len (pending (f_of s' fh))
    = committed (f_of s fh) + len (pending (f_of s fh)) + len (concat bufs).
Proof.
  revert offset s ns. induction bufs as [|buf bufs IH]; intros offset s ns.
  - intros [= <- <-]. simpl. rewrite app_nil_r. split_and!; [done..|].
    unfold len. simpl. lia.
  - simpl. unfold bind at 1.
    destruct (write cfg path buf offset fh s) as [[n| |] s1] eqn:E1;
      [|done..].
    unfold bind at 1.
    destruct (write_all cfg path bufs (offset + len buf) fh s1)
      as [[ns'| |] s2] eqn:E2; [|done..].
    intros [= <- <-].
    destruct (write_step _ _ _ _ _ _ _ E1) as (Hn & Hd & Hc & _).
    destruct (IH _ _ _ E2) as (-> & Hd' & Hc').
    subst n. simpl. split_and!; [done| |].
    + rewrite Hd', (app_assoc (sent_data (trace s1))), Hd.
      by rewrite <- !app_assoc.
    + rewrite Hc', Hc, len_app. lia.
Qed.

(** [release] of a handle without an upload session, be it fresh, a
    download stream, or an upload dictionary that only kept bytes: no
    remote call is made, so the bytes kept are never sent; under the
    invariant of the handle tables, and when the cached parent has no
    'contents', it returns 0 and the handle is gone. *)
Theorem release_without_session path fh s e :
  openfh s !! fh = Some e →
  (∀ f, fh_f_of e = F_dict f → upload_id f = "") →
  trace (snd (release path fh s)) = trace s
  ∧ dbx (snd (release path fh s)) = dbx s
  ∧ (wf_handles s →
     (∀ root, cache s !! dirname path = Some root → i_contents root = None) →
     ∃ c, release path fh s =
          (Return 0,
           Build_dbx_state (dbx s) c (delete fh (openfh s))
             (delete fh (runfh s)) (trace s))
          ∧ shrinks (cache s) c).
Proof.
  intros He Hno.
  assert (release path fh s =
          bind (match fh_mode_of e with
                | mode_w => removeFromCache (dirname path) ;;; ret tt
                | mode_r => ret tt
                end) (λ _, releaseFH fh ;;; ret 0) s) as ->.
  { unfold release, the_fh. munfold. simpl. rewrite He. simpl.
    destruct (fh_f_of e) as [|st|f] eqn:Hf; [done..|].
    rewrite (Hno f eq_refl). by destruct (decide ("" ≠ "")). }
  assert (∀ s1, trace (snd (bind (releaseFH fh) (λ _, ret 0) s1)) = trace s1
                ∧ dbx (snd (bind (releaseFH fh) (λ _, ret 0) s1)) = dbx s1)
    as Hrel.
  { intros s1. unfold releaseFH. munfold. simpl.
    destruct (decide _); [|done]. simpl. by destruct (decide _). }
  split_and!.
  - unfold bind at 1. destruct (fh_mode_of e); [apply Hrel|].
    unfold bind at 1.
    destruct (removeFromCache (dirname path) s) as [r s1] eqn:E.
    apply removeFromCache_inv in E as (-> & _).
    destruct r; [|done..]. unfold ret at 1. by rewrite (proj1 (Hrel _)).
  - unfold bind at 1. destruct (fh_mode_of e); [apply Hrel|].
    unfold bind at 1.
    destruct (removeFromCache (dirname path) s) as [r s1] eqn:E.
    apply removeFromCache_inv in E as (-> & _).
    destruct r; [|done..]. unfold ret at 1. by rewrite (proj2 (Hrel _)).
  - intros [H1 _] Hroot.
    destruct (proj1 (H1 fh) (ex_intro _ e He)) as [b Hb].
    unfold bind at 1. destruct (fh_mode_of e).
    + exists (cache s). unfold ret at 1. unfold bind.
      rewrite (releaseFH_open _ _ _ _ He Hb). split; [done|].
      apply shrinks_refl.
    + unfold bind at 1.
      destruct (removeFromCache_returns (dirname path) s Hroot)
        as (b' & c & -> & Hsh).
      exists c. unfold ret at 1. unfold bind.
      by rewrite (releaseFH_open (set_cache c s) _ _ _ He Hb).
Qed.

(** A handle id that is not open: [read] and [release] raise the
    [KeyError] of [self.openfh[fh]], [write] raises the I/O error, and
    the state is as before.  [write] on a handle that holds a download
    stream raises the I/O error as well. *)
Theorem unknown_handle path length buf offset fh s :
  (openfh s !! fh = None →
     read path length offset fh s = (Raise (KeyError (pretty fh)), s)
     ∧ write cfg path buf offset fh s = (Raise (FuseOSError EIO), s)
     ∧ release path fh s = (Raise (KeyError (pretty fh)), s))
  ∧ (∀ e st, openfh s !! fh = Some e → fh_f_of e = F_raw st →
       write cfg path buf offset fh s = (Raise (FuseOSError EIO), s)).
Proof.
  split.
  - intros He. split_and!.
    + unfold read, the_fh. munfold. simpl. by rewrite He.
    + by rewrite write_unfold, He.
    + unfold release, the_fh. munfold. simpl. by rewrite He.
  - intros e st He Hf. by rewrite write_unfold, He, Hf.
Qed.

End Session.

(** The ten bytes written to the fresh handle of [/f]. *)
Lemma write_accounting_witness :
  sent_data (trace written_10) ++ pending (f_of written_10 1) = ten
  ∧ committed (f_of written_10 1) = 10.
Proof.
  destruct (write_accounting Sim.cfg_4096 "/f" ten 0 1 created 10 written_10)
    as (Hd & Hc & _); [vm_compute; reflexivity|].
  split; [exact Hd|]. vm_compute. reflexivity.
Defined.

(** 4096 bytes, which are kept, then ten bytes, which send all of
    them. *)
Lemma write_all_accounting_witness :
  write_all Sim.cfg_default "/f" [block; ten] 0 1 created
  = (Return [4096; 10], flushed)
  ∧ sent_data (trace flushed) ++ pending (f_of flushed 1) = block ++ ten.
Proof.
  assert (write_all Sim.cfg_default "/f" [block; ten] 0 1 created
          = (Return [4096; 10], flushed)) as E by (vm_compute; reflexivity).
  split; [exact E|].
  destruct (write_all_accounting Sim.cfg_default "/f" [block; ten] 0 1
              created [4096; 10] flushed E) as (_ & Hd & _).
  rewrite Hd. vm_compute. reflexivity.
Defined.

(** 4096 bytes kept on the handle are not sent by [release]: the store
    has no [/f] afterwards. *)
Lemma release_without_session_witness :
  pending (f_of buffered 1) = block
  ∧ trace (snd (release "/f" 1 buffered)) = []
  ∧ dbx (snd (release "/f" 1 buffered)) = Sim.empty_store
  ∧ fst (release "/f" 1 buffered) = Return 0.
Proof.
  destruct (release_without_session "/f" 1 buffered
              (Build_fh_entry mode_w
                 (F_dict {| upload_id := ""; up_offset := 0;
                            up_buf := Buf_bytes block |}) false 0))
    as (Ht & Hd & Hret).
  - vm_compute. reflexivity.
  - by intros f [= <-].
  - destruct Hret as (c & E & _).
    + apply keeps_write, keeps_create, wf_init.
    + intros root. vm_compute. discriminate.
    + split_and!; [vm_compute; reflexivity|exact Ht|exact Hd|by rewrite E].
Defined.

(** Handle 5 is not open on a fresh mount. *)
Lemma unknown_handle_witness :
  read "/f" 4 0 5 (mount Sim.store)
  = (Raise (KeyError "5"), mount Sim.store)
  ∧ write Sim.cfg_default "/f" ten 0 1 (snd (read "/f" 4 0 1 opened))
    = (Raise (FuseOSError EIO), snd (read "/f" 4 0 1 opened)).
Proof.
  destruct (unknown_handle Sim.cfg_default "/f" 4 ten 0 5 (mount Sim.store))
    as [H1 _].
  destruct (H1 eq_refl) as (Hr & _).
  destruct (unknown_handle Sim.cfg_default "/f" 4 ten 0 1
              (snd (read "/f" 4 0 1 opened))) as [_ H2].
  split; [exact Hr|].
  eapply H2; vm_compute; reflexivity.
Defined.

(** ** Paths and directory listings *)

Section Paths.

Lemma list_ascii_app (a b : string) :
  list_ascii_of_string (a ++ b)%string
  = list_ascii_of_string a ++ list_ascii_of_string b.
Proof. induction a as [|c a IH]; simpl; [done|by rewrite IH]. Qed.

Lemma dropwhile_all {A} (p : A → bool) l l' :
  forallb p l = true → dropwhile p (l ++ l') = dropwhile p l'.
Proof.
  induction l as [|x l IH]; simpl; [done|].
  destruct (p x); [apply IH|done].
Qed.

Lemma takewhile_all {A} (p : A → bool) l x l' :
  forallb p l = true → p x = false → takewhile p (l ++ x :: l') = l.
Proof.
  intros Hall Hx. induction l as [|y l IH]; simpl in *; [by rewrite Hx|].
  destruct (p y); [|done]. by rewrite IH.
Qed.

Lemma takewhile_forallb {A} (p : A → bool) l :
  forallb p (takewhile p l) = true.
Proof.
  induction l as [|x l IH]; simpl; [done|].
  destruct (p x) eqn:E; simpl; [by rewrite E|done].
Qed.

Lemma forallb_rev {A} (p : A → bool) l : forallb p (rev l) = forallb p l.
Proof.
  induction l as [|x l IH]; simpl; [done|].
  rewrite forallb_app, IH. simpl. rewrite andb_true_r. apply andb_comm.
Qed.

Lemma is_sep_slash : is_sep "/" = true.
Proof. reflexivity. Qed.

Lemma basename_no_sep p : no_sep (basename p).
Proof.
  unfold no_sep, basename.
  rewrite list_ascii_of_string_of_list_ascii, forallb_rev.
  apply takewhile_forallb.
Qed.

(** Splitting a path at its last slash.  For a name without a slash:
    [basename] of [dir/name] is the name, [dirname] of [/name] is the
    root, and [dirname] of [dir/name] is [dir] when [dir] does not end
    with a slash.  The base name of any path has no slash, and a path
    without a slash has the empty directory. *)
Theorem path_split (dir name : string) (c : ascii) (p : string) :
  (no_sep name → basename (dir ++ "/" ++ name) = name)
  ∧ (no_sep name → dirname ("/" ++ name) = "/")
  ∧ (no_sep name → is_sep c = false →
       dirname ((dir ++ String c "") ++ "/" ++ name) = (dir ++ String c "")%string)
  ∧ no_sep (basename p)
  ∧ (no_sep p → dirname p = "" ∧ basename p = p).
Proof.
  unfold no_sep, basename, dirname. split_and!.
  - intros Hn. rewrite !list_ascii_app, rev_app_distr. simpl.
    rewrite <- app_assoc. simpl.
    rewrite takewhile_all; [|by rewrite forallb_rev|done].
    by rewrite rev_involutive, string_of_list_ascii_of_string.
  - intros Hn. simpl. rewrite dropwhile_all by (by rewrite forallb_rev).
    reflexivity.
  - intros Hn Hc. rewrite !list_ascii_app, !rev_app_distr. simpl.
    rewrite <- !app_assoc. simpl.
    rewrite dropwhile_all by (by rewrite forallb_rev). simpl.
    rewrite Hc. simpl. rewrite rev_involutive.
    rewrite <- (string_of_list_ascii_of_string (dir ++ String c "")).
    by rewrite list_ascii_app.
  - apply basename_no_sep.
  - intros Hn. split.
    + rewrite <- (app_nil_r (rev (list_ascii_of_string p))).
      rewrite dropwhile_all by (by rewrite forallb_rev). reflexivity.
    + assert (∀ l : list ascii, forallb (λ c, negb (is_sep c)) l = true →
                takewhile (λ c, negb (is_sep c)) l = l) as Hall.
      { induction l as [|x l IH]; simpl; [done|].
        destruct (negb (is_sep x)); [|done]. intros ?. by rewrite IH. }
      rewrite Hall by (by rewrite forallb_rev).
      by rewrite rev_involutive, string_of_list_ascii_of_string.
Qed.

End Paths.

Lemma path_split_witness :
  basename "/a/x" = "x" ∧ dirname "/f" = "/" ∧ dirname "/a/x" = "/a"
  ∧ dirname "f" = "".
Proof.
  destruct (path_split "/a" "x" "a" "f") as (H1 & _ & _ & _ & H5).
  destruct (path_split "" "f" "a" "f") as (_ & H2 & _).
  destruct (path_split "/" "x" "a" "f") as (_ & _ & H3 & _).
  split_and!.
  - by apply H1.
  - by apply H2.
  - by apply H3.
  - by apply H5.
Defined.

Section Readdir.

Context {R Stream : Type} `{Remote R Stream}.
Variable cfg : config.

Implicit Types (s : dbx_state R Stream).

Lemma folder_items_names fusefolder es s :
  Forall has_path es →
  folder_items fusefolder es s
  = (Return (fusefolder ++ (entry_name <$> es)), s).
Proof.
  intros Hall. revert fusefolder.
  induction Hall as [|tmp es [p Hp] _ IH]; intros fusefolder; simpl.
  - by rewrite app_nil_r.
  - rewrite Hp, IH, <- app_assoc. unfold entry_name at 2. by rewrite Hp.
Qed.

Lemma folder_items_state fusefolder es s :
  snd (folder_items fusefolder es s) = s.
Proof. by apply (keeps_folder_items (λ s', s' = s)). Qed.

(** [readdir] yields "." and "..", then the base name of every entry of
    the listing, in the order of the listing, and no name has a slash.  A
    lookup that answers [False] makes it raise [TypeError], a dictionary
    without 'entries' [KeyError]. *)
Theorem readdir_names now path fh s :
  (∀ s', getDropboxMetadata cfg now path true s = (Return None, s') →
     readdir cfg now path fh s = (Raise TypeError, s'))
  ∧ (∀ m es s',
       getDropboxMetadata cfg now path true s = (Return (Some m), s') →
       i_entries m = Some es → Forall has_path es →
       readdir cfg now path fh s
       = (Return ("." :: ".." :: (entry_name <$> es)), s')
       ∧ Forall no_sep (entry_name <$> es))
  ∧ (∀ m s',
       getDropboxMetadata cfg now path true s = (Return (Some m), s') →
       i_entries m = None →
       readdir cfg now path fh s = (Raise (KeyError "entries"), s')).
Proof.
  split_and!.
  - intros s' E. unfold readdir. munfold. by rewrite E.
  - intros m es s' E Hes Hall. split.
    + unfold readdir. munfold. rewrite E, Hes. by apply folder_items_names.
    + apply Forall_fmap, Forall_forall. intros tmp _.
      apply basename_no_sep.
  - intros m s' E Hes. unfold readdir. munfold. by rewrite E, Hes.
Qed.

(** A listing is never served from the cache: for a cached dictionary
    without 'contents', a deep lookup, and so [readdir], asks the remote
    store for the listing, whatever the time stamp. *)
Theorem readdir_always_lists now path fh s item :
  cache s !! path = Some item → i_contents item = None →
  i_entries item = None ∨ is_Some (i_cachets item) →
  (∃ t, trace (snd (getDropboxMetadata cfg now path true s))
        = trace s ++ Call_list_folder (query_path path) :: t)
  ∧ (∃ t, trace (snd (readdir cfg now path fh s))
          = trace s ++ Call_list_folder (query_path path) :: t).
Proof.
  intros Hc Hcont Hstamp.
  assert (getDropboxMetadata cfg now path true s = refresh cfg now path item s)
    as Hdeep.
  { unfold getDropboxMetadata. munfold. simpl. rewrite Hc, Hcont.
    destruct Hstamp as [->|[ts Hts]]; [done|].
    destruct (i_entries item); [|done]. rewrite Hts. simpl.
    by rewrite orb_true_r. }
  destruct (refresh_trace cfg now path item s) as [t Ht].
  split; exists t.
  - by rewrite Hdeep.
  - unfold readdir. unfold bind. rewrite Hdeep.
    destruct (refresh cfg now path item s) as [[[m|]| |] s1]; simpl in *;
      try done.
    destruct (i_entries m); [|done]. by rewrite folder_items_state.
Qed.

End Readdir.

(** The listing of the root on the in-memory store. *)
Lemma readdir_names_witness :
  fst (readdir Sim.cfg_default 1000 "/" 0 (mount Sim.store))
  = Return ["."; ".."; "a"; "f"]
  ∧ readdir Sim.cfg_default 1000 "/q" 0 (mount Sim.store)
    = (Raise TypeError,
       snd (getDropboxMetadata Sim.cfg_default 1000 "/q" true
              (mount Sim.store))).
Proof.
  destruct (readdir_names Sim.cfg_default 1000 "/" 0 (mount Sim.store))
    as (_ & Hnames & _).
  destruct (readdir_names Sim.cfg_default 1000 "/q" 0 (mount Sim.store))
    as (Hnone & _).
  split.
  - edestruct Hnames as [-> _];
      [vm_compute; reflexivity|reflexivity| |reflexivity].
    repeat constructor; by eexists.
  - apply Hnone. vm_compute. reflexivity.
Defined.

(** The listing of the root, cached at time 1000, is asked for again by a
    [readdir] at time 1001. *)
Lemma readdir_always_lists_witness :
  ∃ t, trace (snd (readdir Sim.cfg_default 1001 "/" 0 listed_root))
       = trace listed_root ++ Call_list_folder "" :: t.
Proof.
  destruct (readdir_always_lists Sim.cfg_default 1001 "/" 0 listed_root
              root_listing) as [_ Hr].
  - vm_compute. reflexivity.
  - reflexivity.
  - right. by eexists.
  - exact Hr.
Defined.

(** ** More on the invalidation of the cache *)

Section Invalidate.

Context {R Stream : Type} `{Remote R Stream}.

Implicit Types (s : dbx_state R Stream) (c : gmap string metadata).

(** [removeFromCache] a second time finds nothing: it returns [False]
    and changes nothing. *)
Theorem removeFromCache_twice path s b s' :
  removeFromCache path s = (Return b, s') →
  removeFromCache path s' = (Return false, s').
Proof.
  intros E. apply removeFromCache_inv in E as (_ & _ & Hgone & _).
  unfold removeFromCache. munfold. simpl. by rewrite Hgone.
Qed.

(** The branch of [removeFromCache] for a dictionary that lacks 'entries'
    or 'contents'. *)
Lemma removeFromCache_plain path s item :
  cache s !! path = Some item →
  i_entries item = None ∨ i_contents item = None →
  ∃ s', removeFromCache path s = (Return true, s')
        ∧ cache s' !! path = None
        ∧ (∀ parent, cache s !! dirname path = Some parent →
             is_Some (i_entries parent) → cache s' !! dirname path = None)
        ∧ (∀ q, q ≠ path → q ≠ dirname path → cache s' !! q = cache s !! q)
        ∧ (dirname path ≠ path →
           (∀ parent, cache s !! dirname path = Some parent →
              i_entries parent = None) →
           cache s' !! dirname path = cache s !! dirname path).
Proof.
  intros Hc Hplain. unfold removeFromCache. munfold. simpl. rewrite Hc.
  set (body := match i_entries item with
               | Some _ => _
               | None => _
               end).
  assert (body s
          = match cache s !! dirname path with
            | Some parent =>
                if decide (is_Some (i_entries parent))
                then (Return (), set_cache (delete (dirname path) (cache s)) s)
                else (Return (), s)
            | None => (Return (), s)
            end) as ->.
  { subst body.
    destruct Hplain as [-> | Hnc]; [|rewrite Hnc; destruct (i_entries item)];
      munfold; simpl;
      destruct (cache s !! dirname path) as [parent|]; try done;
      by destruct (decide _). }
  clearbody body. clear body.
  destruct (cache s !! dirname path) as [parent|] eqn:Hp.
  - destruct (decide (is_Some (i_entries parent))) as [Hl|Hnl]; simpl.
    + exists (set_cache (delete path (delete (dirname path) (cache s))) s).
      split.
      { destruct (decide _) as [|Hn]; simpl; [done|].
        rewrite (delete_id (delete (dirname path) (cache s)) path); [done|].
        by apply eq_None_not_Some. }
      simpl. split_and!.
      * apply lookup_delete_eq.
      * intros parent' _ _. destruct (decide (path = dirname path)) as [<-|Hne].
        -- apply lookup_delete_eq.
        -- rewrite lookup_delete_ne by done. apply lookup_delete_eq.
      * intros q Hq1 Hq2. by rewrite !lookup_delete_ne.
      * intros _ Hnl. specialize (Hnl parent eq_refl).
        destruct Hl as [x Hx]. congruence.
    + rewrite Hc. destruct (decide _) as [_|[]]; [|eauto]. simpl.
      exists (set_cache (delete path (cache s)) s).
      split; [reflexivity|]. simpl. split_and!.
      * apply lookup_delete_eq.
      * intros parent' [= <-] Hl. done.
      * intros q Hq1 Hq2. by rewrite lookup_delete_ne.
      * intros Hne _. by rewrite lookup_delete_ne.
  - rewrite Hc. destruct (decide _) as [_|[]]; [|eauto]. simpl.
    exists (set_cache (delete path (cache s)) s).
    split; [reflexivity|]. simpl. split_and!.
    + apply lookup_delete_eq.
    + intros parent' [=].
    + intros q Hq1 Hq2. by rewrite lookup_delete_ne.
    + intros Hne _. by rewrite lookup_delete_ne.
Qed.

(** [removeFromCache] of a dictionary that lacks 'entries' or 'contents':
    it returns [True]; the path is gone; the parent is gone as well when
    its cached dictionary is a listing; every other path is cached as
    before. *)
Theorem removeFromCache_evicts_parent path s item :
  cache s !! path = Some item →
  i_entries item = None ∨ i_contents item = None →
  ∃ s', removeFromCache path s = (Return true, s')
        ∧ cache s' !! path = None
        ∧ (∀ parent, cache s !! dirname path = Some parent →
             is_Some (i_entries parent) → cache s' !! dirname path = None)
        ∧ (∀ q, q ≠ path → q ≠ dirname path → cache s' !! q = cache s !! q)
        ∧ (dirname path ≠ path →
           (∀ parent, cache s !! dirname path = Some parent →
              i_entries parent = None) →
           cache s' !! dirname path = cache s !! dirname path).
Proof. apply removeFromCache_plain. Qed.

(** The cache after the loop over 'contents' when every entry has a
    path. *)
Lemma pop_contents_effect cs s :
  Forall has_path cs →
  ∃ c, pop_contents cs s = (Return tt, set_cache c s)
       ∧ (∀ q, Some q ∈ i_path <$> cs → c !! q = None)
       ∧ (∀ q, Some q ∉ i_path <$> cs → c !! q = cache s !! q).
Proof.
  intros Hall. revert s. induction Hall as [|tmp cs [p Hp] _ IH]; intros s.
  - exists (cache s). simpl. unfold ret. rewrite set_cache_id.
    split_and!; [done| |done]. intros q Hq. inversion Hq.
  - simpl. rewrite Hp. munfold. simpl.
    assert (∀ s1, cache s1 = delete p (cache s) →
              s1 = set_cache (cache s1) s →
              ∃ c, pop_contents cs s1 = (Return (), set_cache c s)
                   ∧ (∀ q, Some q ∈ Some p :: (i_path <$> cs) → c !! q = None)
                   ∧ (∀ q, Some q ∉ Some p :: (i_path <$> cs) →
                        c !! q = cache s !! q)) as Hstep.
    { intros s1 Hc1 Hs1. destruct (IH s1) as (c & -> & Hin & Hout).
      exists c. split; [by rewrite Hs1|]. split.
      - intros q [Hq|Hq]%elem_of_cons.
        + assert (q = p) as -> by congruence.
          destruct (decide (Some p ∈ i_path <$> cs)) as [Hq'|Hq'];
            [by apply Hin|].
          rewrite (Hout _ Hq'), Hc1. apply lookup_delete_eq.
        + by apply Hin.
      - intros q Hq. rewrite not_elem_of_cons in Hq.
        destruct Hq as [Hne Hq].
        rewrite (Hout _ Hq), Hc1. apply lookup_delete_ne. congruence. }
    destruct (decide (is_Some (cache s !! p))) as [Hs|Hn]; simpl.
    + by apply Hstep.
    + apply Hstep; [|by rewrite set_cache_id].
      rewrite delete_id; [done|]. by apply eq_None_not_Some.
Qed.

(** [removeFromCache] of a listing that has 'contents', every entry of
    which has a path: it returns [True], the path and the paths of the
    'contents' are gone, and every other path is cached as before. *)
Theorem removeFromCache_contents path s item es cs :
  cache s !! path = Some item →
  i_entries item = Some es → i_contents item = Some cs →
  Forall has_path cs →
  ∃ s', removeFromCache path s = (Return true, s')
        ∧ cache s' !! path = None
        ∧ (∀ q, Some q ∈ i_path <$> cs → cache s' !! q = None)
        ∧ (∀ q, q ≠ path → Some q ∉ i_path <$> cs →
             cache s' !! q = cache s !! q).
Proof.
  intros Hc Hes Hcs Hall. unfold removeFromCache. munfold. simpl.
  rewrite Hc, Hes, Hcs.
  destruct (pop_contents_effect cs s Hall) as (c & -> & Hin & Hout). simpl.
  exists (set_cache (delete path c) s). split.
  - destruct (decide _) as [|Hn]; simpl; [done|].
    rewrite delete_id; [done|]. by apply eq_None_not_Some.
  - simpl. split_and!.
    + apply lookup_delete_eq.
    + intros q Hq. destruct (decide (path = q)) as [->|Hne].
      * apply lookup_delete_eq.
      * rewrite lookup_delete_ne by done. by apply Hin.
    + intros q Hne Hq. rewrite lookup_delete_ne by done. by apply Hout.
Qed.

End Invalidate.

(** The listing of [/a] is removed from the cache of [listed_a]; a second
    removal returns [False]. *)
Lemma removeFromCache_twice_witness :
  removeFromCache "/a" (snd (removeFromCache "/a" listed_a))
  = (Return false, snd (removeFromCache "/a" listed_a)).
Proof.
  apply (removeFromCache_twice "/a" listed_a true). vm_compute. reflexivity.
Defined.

(** The file [/a/x] is removed from the cache of [listed_a]: the listing
    of [/a] goes with it. *)
Lemma removeFromCache_evicts_parent_witness :
  ∃ s', removeFromCache "/a/x" listed_a = (Return true, s')
        ∧ cache s' !! "/a/x" = None ∧ cache s' !! "/a" = None.
Proof.
  destruct (removeFromCache_evicts_parent "/a/x" listed_a child_x)
    as (s' & Hr & Hgone & Hparent & _).
  - vm_compute. reflexivity.
  - left. reflexivity.
  - exists s'. split_and!; [exact Hr|exact Hgone|].
    eapply Hparent; [vm_compute; reflexivity|]. by eexists.
Defined.

(** The listing of [/a] with 'contents' is removed: the child [/a/x] goes
    with it, the file [/f] stays. *)
Lemma removeFromCache_contents_witness :
  ∃ s', removeFromCache "/a" with_children = (Return true, s')
        ∧ cache s' !! "/a" = None ∧ cache s' !! "/a/x" = None
        ∧ cache s' !! "/f" = Some child_f.
Proof.
  destruct (removeFromCache_contents "/a" with_children
              (Metadata (Some "/a") None (Some "folder") None None None false
                 None (Some 1120) (Some [child_x]) (Some [child_x]))
              [child_x] [child_x])
    as (s' & Hr & Hgone & Hin & Hout).
  - vm_compute. reflexivity.
  - reflexivity.
  - reflexivity.
  - repeat constructor. by eexists.
  - exists s'. split_and!; [exact Hr|exact Hgone| |].
    + apply Hin. simpl. apply elem_of_cons. by left.
    + rewrite Hout; [vm_compute; reflexivity|done|].
      simpl. intros [Hx|Hx]%elem_of_cons; [discriminate|inversion Hx].
Defined.

(** ** A first fetch, and the lookups after it *)

Section Fetch.

Context {R Stream : Type} `{Remote R Stream}.
Variable cfg : config.

Implicit Types (s : dbx_state R Stream) (item : metadata).

(** The loop of the first fetch: a path no entry has is cached as before;
    a path some entry has is cached with an entry of the listing that has
    this path. *)
Lemma cache_listing_lookup es s s' :
  cache_listing es s = (Return tt, s') →
  s' = set_cache (cache s') s
  ∧ (∀ q, Some q ∉ i_path <$> es → cache s' !! q = cache s !! q)
  ∧ (∀ q, Some q ∈ i_path <$> es →
       ∃ tmp, tmp ∈ es ∧ i_path tmp = Some q ∧ cache s' !! q = Some tmp).
Proof.
  revert s. induction es as [|tmp es IH]; intros s; simpl.
  - intros [= <-]. rewrite set_cache_id. split_and!; [done..|].
    intros q Hq. inversion Hq.
  - destruct (i_path tmp) as [p|] eqn:Hp; [|done]. munfold.
    intros (Hs' & Hout & Hin)%IH. simpl in *. split_and!.
    + by rewrite Hs'.
    + intros q [Hne Hq]%not_elem_of_cons. rewrite (Hout _ Hq).
      apply lookup_insert_ne. congruence.
    + intros q Hq.
      destruct (decide (Some q ∈ i_path <$> es)) as [Hq'|Hq'].
      * destruct (Hin _ Hq') as (tmp' & ? & ? & ?).
        exists tmp'. split_and!; [|done..]. apply elem_of_cons. by right.
      * apply elem_of_cons in Hq as [Hq|Hq]; [|done].
        assert (q = p) as -> by congruence.
        exists tmp. split_and!; [apply elem_of_cons; by left|done|].
        rewrite (Hout _ Hq'). apply lookup_insert_eq.
Qed.

(** A lookup of a path that is not cached, when it returns a dictionary:
    the dictionary is the one [dbxMetadata] returned, stamped, and the
    state is the one the loop over its entries leaves. *)
Lemma lookup_miss_some now path s item s' :
  cache s !! path = None →
  getDropboxMetadata cfg now path false s = (Return (Some item), s') →
  ∃ fetched s1,
    dbxMetadata path None s = (Return (Some fetched), s1)
    ∧ item = set_cachets (now + cache_time cfg) fetched
    ∧ match i_entries item with
      | Some es =>
          cache_listing es (set_cache (<[path := item]> (cache s1)) s1)
          = (Return tt, s')
      | None => s' = set_cache (<[path := item]> (cache s1)) s1
      end.
Proof.
  intros Hc. unfold getDropboxMetadata. munfold. simpl. rewrite Hc. simpl.
  assert (∀ r s1, dbxMetadata path None s = (r, s1) →
    match
      match r with
      | Return a => (Return a, s1)
      | Raise e =>
          (if decide (exn_str e = "apiRequest failed. HTTPError: 404")
           then λ s0, (Return None, s0)
           else λ s0, (Raise (FuseOSError EREMOTEIO), s0)) s1
      | Spin => (Spin, s1)
      end
    with
    | (Return a, s'0) =>
        match a with
        | Some item0 =>
            if i_is_deleted item0 then λ s0, (Return None, s0)
            else λ s0,
              match i_path (set_cachets (now + cache_time cfg) item0) with
              | Some _ =>
                  match i_entries (set_cachets (now + cache_time cfg) item0)
                  with
                  | Some es =>
                      λ s2, match cache_listing es s2 with
                            | (Return _, s'1) =>
                                (Return
                                   (Some (set_cachets (now + cache_time cfg)
                                            item0)), s'1)
                            | (Raise e, s'1) => (Raise e, s'1)
                            | (Spin, s'1) => (Spin, s'1)
                            end
                  | None =>
                      λ s2, (Return
                               (Some (set_cachets (now + cache_time cfg)
                                        item0)), s2)
                  end
              | None => λ s2, (Raise (KeyError "path"), s2)
              end (set_cache
                     (<[path := set_cachets (now + cache_time cfg) item0]>
                        (cache s0)) s0)
        | None => λ s0, (Return None, s0)
        end s'0
    | (Raise e, s'0) => (Raise e, s'0)
    | (Spin, s'0) => (Spin, s'0)
    end = (Return (Some item), s') →
    ∃ fetched s1,
      dbxMetadata path None s = (Return (Some fetched), s1)
      ∧ item = set_cachets (now + cache_time cfg) fetched
      ∧ match i_entries item with
        | Some es =>
            cache_listing es (set_cache (<[path := item]> (cache s1)) s1)
            = (Return tt, s')
        | None => s' = set_cache (<[path := item]> (cache s1)) s1
        end) as Hmiss.
  { intros r s1 E. destruct r as [[fetched|]|e|]; simpl; [|done| |done].
    - destruct (i_is_deleted fetched); [done|].
      destruct (i_path fetched); [|done].
      destruct (i_entries fetched) as [es|] eqn:Ees.
      + destruct (cache_listing es _) as [[[]| |] s2] eqn:El; [|done..].
        intros [= <- <-]. exists fetched, s1. simpl. rewrite Ees.
        by split_and!.
      + intros [= <- <-]. exists fetched, s1. simpl. rewrite Ees.
        by split_and!.
    - by destruct (decide _). }
  destruct (cache s !! dirname path) as [parent|].
  - destruct (decide (is_Some (i_contents parent))); [done|].
    destruct (dbxMetadata path None s) as [r s1] eqn:E. by apply Hmiss.
  - destruct (dbxMetadata path None s) as [r s1] eqn:E. by apply Hmiss.
Qed.

(** The first lookup of a path fills the cache.  The dictionary it
    returns carries the path and the time stamp [now + cache_time]; every
    entry of its listing is cached under its own path (the last entry
    with this path, if several have it); an entry that is not itself a
    listing is answered from the cache at any later time; and, unless the
    listing has an entry for the path itself, the dictionary is cached
    under the path and answers the lookups up to the time of its stamp.
    None of these later lookups calls the remote store. *)
Theorem lookup_fills_cache now path s item s' :
  cache s !! path = None →
  getDropboxMetadata cfg now path false s = (Return (Some item), s') →
  i_path item = Some path
  ∧ i_cachets item = Some (now + cache_time cfg)
  ∧ (∀ es tmp, i_entries item = Some es → tmp ∈ es →
       ∃ q tmp', i_path tmp = Some q ∧ tmp' ∈ es ∧ i_path tmp' = Some q
                 ∧ cache s' !! q = Some tmp'
                 ∧ (i_entries tmp' = None →
                    ∀ now', getDropboxMetadata cfg now' q false s'
                            = (Return (Some tmp'), s')))
  ∧ ((∀ es, i_entries item = Some es → Some path ∉ i_path <$> es) →
     cache s' !! path = Some item
     ∧ ∀ now', now' ≤ now + cache_time cfg →
         getDropboxMetadata cfg now' path false s' = (Return (Some item), s')).
Proof.
  intros Hc E.
  destruct (lookup_miss_some _ _ _ _ _ Hc E)
    as (fetched & s1 & Ef & -> & Hs').
  apply dbxMetadata_inv in Ef as (_ & _ & _ & _ & _ & Hitem).
  destruct (Hitem _ eq_refl) as [Hpath Hentries].
  assert (∀ q it now',
            cache s' !! q = Some it → fresh now' it →
            getDropboxMetadata cfg now' q false s' = (Return (Some it), s'))
    as Hhit.
  { intros q it now' Hq Hfresh. unfold getDropboxMetadata. munfold. simpl.
    rewrite Hq. destruct Hfresh as [->|(ts & Hts & Hle)]; [done|].
    destruct (i_entries it); [|done]. rewrite Hts. simpl.
    by destruct (Z.ltb_spec ts now'); [lia|]. }
  split_and!; [done|done| |].
  - intros es tmp Hes Hin. rewrite Hes in Hs'.
    destruct (cache_listing_lookup _ _ _ Hs') as (_ & _ & Hcached).
    destruct (proj1 (Forall_forall _ _) (Hentries es Hes) tmp Hin) as [q Hq].
    destruct (Hcached q) as (tmp' & Hin' & Hq' & Hl).
    { rewrite <- Hq. by apply list_elem_of_fmap_2. }
    exists q, tmp'. split_and!; [done..|].
    intros Hfile now'. apply Hhit; [done|by left].
  - intros Hself.
    assert (cache s' !! path
            = Some (set_cachets (now + cache_time cfg) fetched)) as Hl.
    { destruct (i_entries (set_cachets (now + cache_time cfg) fetched))
        as [es|] eqn:Ees.
      - destruct (cache_listing_lookup _ _ _ Hs') as (_ & Hout & _).
        rewrite (Hout path) by by apply Hself. simpl.
        apply lookup_insert_eq.
      - subst s'. simpl. apply lookup_insert_eq. }
    split; [done|]. intros now' Hle. apply Hhit; [done|].
    right. by exists (now + cache_time cfg).
Qed.

(** A listing whose time stamp has passed, when the remote store cannot
    be reached: the lookup answers [False], as for a path that does not
    exist, after the one call; the cache keeps the listing. *)
Theorem expired_listing_unreachable now path deep s item es ts x d :
  cache s !! path = Some item →
  i_entries item = Some es → i_cachets item = Some ts → ts < now →
  files_list_folder (query_path path) (dbx s) = (Failed x, d) →
  getDropboxMetadata cfg now path deep s
  = (Return None,
     Build_dbx_state d (cache s) (openfh s) (runfh s)
       (trace s ++ [Call_list_folder (query_path path)])).
Proof.
  intros Hc Hes Hts Hlt Hrpc. unfold getDropboxMetadata. munfold. simpl.
  rewrite Hc, Hes, Hts. simpl. destruct (Z.ltb_spec ts now); [|lia]. simpl.
  unfold refresh, dbxMetadata, call. fold (query_path path). munfold.
  by rewrite Hrpc.
Qed.

End Fetch.

(** The root looked up on a fresh mount at time 1000: [/f] is answered
    from the cache at time 5000, the root itself up to time 1120. *)
Lemma lookup_fills_cache_witness :
  getDropboxMetadata Sim.cfg_default 5000 "/f" false listed_root
  = (Return (Some root_entry_f), listed_root)
  ∧ getDropboxMetadata Sim.cfg_default 1120 "/" false listed_root
    = (Return (Some root_listing), listed_root).
Proof.
  destruct (lookup_fills_cache Sim.cfg_default 1000 "/" (mount Sim.store)
              root_listing listed_root) as (_ & _ & Hchild & Hself).
  - reflexivity.
  - vm_compute. reflexivity.
  - split.
    + destruct (Hchild _ root_entry_f eq_refl)
        as (q & tmp' & Hq & _ & _ & Hl & Hf).
      { apply elem_of_cons. right. apply elem_of_cons. by left. }
      injection Hq as <-.
      assert (tmp' = root_entry_f) as ->.
      { assert (cache listed_root !! "/f" = Some root_entry_f) as Hl'
          by (vm_compute; reflexivity).
        congruence. }
      by apply Hf.
    + destruct Hself as [_ Hhit].
      * intros es [= <-]. simpl.
        intros Hin. repeat (apply elem_of_cons in Hin as [Hin|Hin];
                            [discriminate|]).
        inversion Hin.
      * apply Hhit. vm_compute. discriminate.
Defined.

(** The listing of the root, stamped 2120, looked up at time 3000 with
    the network gone. *)
Lemma expired_listing_unreachable_witness :
  fst (getDropboxMetadata Sim.cfg_default 3000 "/" false unplugged)
  = Return None
  ∧ cache (snd (getDropboxMetadata Sim.cfg_default 3000 "/" false unplugged))
    = cache unplugged.
Proof.
  assert (is_Some (cache unplugged !! "/")) as [item Hitem]
    by (vm_compute; by eexists).
  assert (∃ es, i_entries item = Some es) as [es Hes].
  { assert (is_Some (cache unplugged !! "/" ≫= i_entries)) as [es Hes']
      by (vm_compute; by eexists).
    rewrite Hitem in Hes'. by exists es. }
  assert (i_cachets item = Some 2120) as Hts.
  { assert (cache unplugged !! "/" ≫= i_cachets = Some 2120) as Hts'
      by (vm_compute; reflexivity).
    by rewrite Hitem in Hts'. }
  rewrite (expired_listing_unreachable Sim.cfg_default 3000 "/" false
             unplugged item es 2120 (PyException "ConnectionError")
             (dbx unplugged) Hitem Hes Hts).
  - by split.
  - lia.
  - vm_compute. reflexivity.
Defined.

(** ** The operations on paths and on handles, once more *)

Section Operations.

Context {R Stream : Type} `{Remote R Stream}.
Variable cfg : config.

Implicit Types (s : dbx_state R Stream).

Lemma shrinks_trans (c1 c2 c3 : gmap string metadata) :
  shrinks c1 c2 → shrinks c2 c3 → shrinks c1 c3.
Proof. intros H12 H23 q it Hq. by apply H12, H23. Qed.

(** [removeFromCache] after a remote call [c] that returned. *)
Lemma removeFromCache_after path d c s r s' :
  removeFromCache path
    (Build_dbx_state d (cache s) (openfh s) (runfh s) (trace s ++ [c]))
  = (r, s') →
  trace s' = trace s ++ [c] ∧ dbx s' = d ∧ shrinks (cache s) (cache s')
  ∧ r ≠ Spin ∧ ∀ b, r = Return b → cache s' !! path = None.
Proof.
  intros E. apply removeFromCache_inv in E as (-> & Hsh & Hr). simpl in *.
  split_and!; [done..| |]; destruct r as [b| |]; try done.
  intros b' _. by destruct Hr.
Qed.

(** [mkdir], [rmdir] and [unlink] add or change no entry of the cache
    and do not end in the busy wait.  [mkdir] and [rmdir] make exactly
    one remote call; [unlink] makes exactly one unless the invalidation
    raised, and then raises the same exception with no call.  When one
    of them returns, it returns 0 and the paths it invalidates are not
    cached: the parent for [mkdir], the path and the parent for [rmdir],
    the path for [unlink].  [rename] never returns: it raises
    [TypeError], with no remote call and no change of state. *)
Theorem mutations_invalidate path new mode s :
  (∀ r s', mkdir path mode s = (r, s') →
     trace s' = trace s ++ [Call_create_folder path]
     ∧ shrinks (cache s) (cache s') ∧ r ≠ Spin
     ∧ ∀ n, r = Return n → n = 0 ∧ cache s' !! dirname path = None)
  ∧ (∀ r s', rmdir path s = (r, s') →
       trace s' = trace s ++ [Call_delete path]
       ∧ shrinks (cache s) (cache s') ∧ r ≠ Spin
       ∧ ∀ n, r = Return n →
           n = 0 ∧ cache s' !! path = None
           ∧ cache s' !! dirname path = None)
  ∧ (∀ r s', unlink path s = (r, s') →
       shrinks (cache s) (cache s') ∧ r ≠ Spin
       ∧ (trace s' = trace s ++ [Call_delete path]
          ∨ trace s' = trace s
            ∧ ∃ x, r = Raise x ∧ fst (removeFromCache path s) = Raise x)
       ∧ ∀ n, r = Return n →
           n = 0 ∧ cache s' !! path = None
           ∧ trace s' = trace s ++ [Call_delete path])
  ∧ rename path new s = (Raise TypeError, s).
Proof.
  split_and!; [intros r s'..|reflexivity].
  - unfold mkdir, dbxFileCreateFolder, call. munfold.
    destruct (files_create_folder path (dbx s)) as [[[]|x] d]; simpl.
    + destruct (removeFromCache _ _) as [r1 s1] eqn:E1.
      apply removeFromCache_after in E1 as (Ht & _ & Hsh & Hns & Hgone).
      destruct r1 as [b| |]; [|by intros [= <- <-]..].
      intros [= <- <-]. split_and!; [done..|].
      intros n [= <-]. split; [done|]. by eapply Hgone.
    + intros [= <- <-]. split_and!; [done|apply shrinks_refl|done|done].
  - unfold rmdir, dbxFileDelete, call. munfold.
    destruct (files_delete path (dbx s)) as [[[]|x] d]; simpl.
    + destruct (removeFromCache path _) as [r1 s1] eqn:E1.
      apply removeFromCache_after in E1 as (Ht & _ & Hsh & Hns & Hgone).
      destruct r1 as [b| |]; [|by intros [= <- <-]..].
      destruct (removeFromCache (dirname path) s1) as [r2 s2] eqn:E2.
      apply removeFromCache_inv in E2 as (Hs2 & Hsh2 & Hr2).
      assert (trace s2 = trace s1) as Ht2 by by rewrite Hs2.
      destruct r2 as [b2| |]; [| |done].
      * intros [= <- <-]. split_and!; [congruence|by eapply shrinks_trans|done|].
        intros n [= <-]. destruct Hr2 as (Hgone2 & _). split_and!; [done| |done].
        destruct (cache s2 !! path) as [it|] eqn:Hit; [|done].
        apply Hsh2 in Hit. by rewrite (Hgone b) in Hit.
      * intros [= <- <-].
        split_and!; [congruence|by eapply shrinks_trans|done|done].
    + intros [= <- <-]. split_and!; [done|apply shrinks_refl|done|done].
  - unfold unlink, dbxFileDelete, call. munfold.
    destruct (removeFromCache path s) as [r1 s1] eqn:E1.
    destruct (removeFromCache_inv _ _ _ _ E1) as (Hs1 & Hsh & Hr1).
    assert (trace s1 = trace s) as Ht1 by by rewrite Hs1.
    destruct r1 as [b|x|]; [| |done].
    + destruct Hr1 as (Hgone & _).
      destruct (files_delete path (dbx s1)) as [[[]|x] d]; simpl;
        intros [= <- <-]; simpl; rewrite Ht1;
        (split_and!; [done|done|by left|]); [|done].
      by intros n [= <-].
    + intros [= <- <-]. split_and!; [done..| |done].
      right. split; [done|]. by exists x.
Qed.

(** The flag [O_APPEND] is the bit 10. *)
Lemma land_O_APPEND flags :
  Z.land flags O_APPEND = if Z.testbit flags 10 then 1024 else 0.
Proof.
  change O_APPEND with (2 ^ 10). apply Z.bits_inj'. intros n Hn.
  rewrite Z.land_spec, Z.pow2_bits_eqb by lia.
  destruct (Z.testbit flags 10) eqn:E.
  - change 1024 with (2 ^ 10). rewrite Z.pow2_bits_eqb by lia.
    destruct (Z.eqb_spec 10 n) as [<-|Hne].
    + by rewrite E.
    + apply andb_false_r.
  - rewrite Z.bits_0. destruct (Z.eqb_spec 10 n) as [<-|Hne].
    + by rewrite E.
    + apply andb_false_r.
Qed.

(** [open] looks at bit 10 of the flags only: with the bit set it raises
    [EOPNOTSUPP] and changes nothing; without it, it takes a handle for
    reading whatever the path and the other flags, without a remote call
    and without a look at the cache. *)
Theorem open_flags path flags s :
  (Z.testbit flags 10 = true →
     open path flags s = (Raise (FuseOSError EOPNOTSUPP), s))
  ∧ (Z.testbit flags 10 = false →
       open path flags s = getFH mode_r s
       ∧ trace (snd (open path flags s)) = trace s
       ∧ cache (snd (open path flags s)) = cache s
       ∧ dbx (snd (open path flags s)) = dbx s).
Proof.
  unfold open. rewrite land_O_APPEND. split; intros ->.
  - destruct (decide _) as [_|[]]; [done|lia].
  - destruct (decide _) as [|_]; [done|]. rewrite getFH_unfold.
    by destruct (list_find _ _) as [[k i]|].
Qed.

(** [create] caches a dictionary of size 0 for the path, in place of
    whatever was cached, also when no handle is free and it returns
    [False]; it makes no remote call.  The dictionary is not a listing,
    so from then on every lookup of the path is answered with it from the
    cache, at any time, and [chmod] and [chattr] return 0. *)
Theorem create_placeholder now_str path mode s :
  ∃ h s',
    create now_str path mode s = (Return h, s')
    ∧ cache s'
      = <[path := Metadata (Some path) None (Some "file") (Some 0)
                    (Some now_str) None false None None None None]> (cache s)
    ∧ trace s' = trace s ∧ dbx s' = dbx s
    ∧ (h = None → openfh s' = openfh s)
    ∧ ∀ now mode' uid gid,
        getDropboxMetadata cfg now path false s'
        = (Return (Some (Metadata (Some path) None (Some "file") (Some 0)
                           (Some now_str) None false None None None None)),
           s')
        ∧ chmod cfg now path mode' s' = (Return 0, s')
        ∧ chattr cfg now path uid gid s' = (Return 0, s').
Proof.
  unfold create. munfold. rewrite getFH_unfold.
  destruct (list_find _ _) as [[k i]|]; simpl; eexists _, _;
    (split; [reflexivity|]); simpl; (split_and!; [done..|]);
    intros now mode' uid gid;
    unfold chmod, chattr, getDropboxMetadata; munfold; simpl;
    rewrite lookup_insert_eq; simpl; by split_and!.
Qed.

(** What a read on an open, unlocked handle does. *)
Lemma read_inv path length offset fh s e r s' :
  openfh s !! fh = Some e → fh_lock e = false →
  read path length offset fh s = (r, s') →
  cache s' = cache s
  ∧ (∀ fh', fh' ≠ fh → openfh s' !! fh' = openfh s !! fh')
  ∧ (trace s' = trace s ∧ dbx s' = dbx s
     ∧ fh_f_of e ≠ F_False ∧ fh_eoffset e = offset
     ∨ trace s' = trace s ++ [Call_download path]
       ∧ (fh_f_of e = F_False ∨ fh_eoffset e ≠ offset))
  ∧ match r with
    | Return rbytes =>
        ∃ st, openfh s' !! fh
              = Some (Build_fh_entry (fh_mode_of e) (F_raw st) false
                        (offset + len rbytes))
    | Raise x =>
        x = FuseOSError EIO
        ∨ (fh_f_of e ≠ F_False ∧ fh_eoffset e ≠ offset
           ∧ ∃ d, files_download path (dbx s) = (Failed x, d))
    | Spin => False
    end.
Proof.
  intros He Hl.
  unfold read, the_fh, f_read, the_fh, dbxFilehandle, call. munfold. simpl.
  rewrite He. simpl. rewrite Hl.
  destruct (fh_f_of e) as [|st0|u] eqn:Hf; simpl.
  - destruct (files_download path (dbx s)) as [[st|x] d] eqn:Ed; simpl.
    + rewrite lookup_alter_eq, He. simpl.
      destruct (raw_read st length) as [[rbytes|x] st'] eqn:Er; simpl;
        intros [= <- <-]; simpl.
      * split_and!; [done| |right; by split; [|left]|].
        -- intros fh' Hfh'. by rewrite !lookup_alter_ne.
        -- exists st'. rewrite !lookup_alter_eq, He. simpl.
           by destruct e; simpl in *; subst.
      * split_and!; [done| |right; by split; [|left]|by left].
        intros fh' Hfh'. by rewrite !lookup_alter_ne.
    + intros [= <- <-]. simpl.
      split_and!; [done|done|right; by split; [|left]|by left].
  - destruct (decide (fh_eoffset e ≠ offset)) as [Hoff|Hoff]; simpl.
    + destruct (files_download path (dbx s)) as [[st|x] d] eqn:Ed; simpl.
      * rewrite lookup_alter_eq, He. simpl.
        destruct (raw_read st length) as [[rbytes|x] st'] eqn:Er; simpl;
          intros [= <- <-]; simpl.
        -- split_and!; [done| |right; by split; [|right]|].
           ++ intros fh' Hfh'. by rewrite !lookup_alter_ne.
           ++ exists st'. rewrite !lookup_alter_eq, He. simpl.
              by destruct e; simpl in *; subst.
        -- split_and!; [done| |right; by split; [|right]|by left].
           intros fh' Hfh'. by rewrite !lookup_alter_ne.
      * intros [= <- <-]. simpl.
        split_and!; [done|done|right; by split; [|right]|].
        right. split_and!; [done..|]. by exists d.
    + apply dec_stable in Hoff. rewrite He. simpl. rewrite Hf.
      destruct (raw_read st0 length) as [[rbytes|x] st'] eqn:Er; simpl;
        intros [= <- <-]; simpl.
      * split_and!; [done| |by left|].
        -- intros fh' Hfh'. by rewrite !lookup_alter_ne.
        -- exists st'. rewrite !lookup_alter_eq, He. simpl.
           by destruct e; simpl in *; subst.
      * split_and!; [done| |by left|by left].
        intros fh' Hfh'. by rewrite !lookup_alter_ne.
  - destruct (decide (fh_eoffset e ≠ offset)) as [Hoff|Hoff]; simpl.
    + destruct (files_download path (dbx s)) as [[st|x] d] eqn:Ed; simpl.
      * rewrite lookup_alter_eq, He. simpl.
        destruct (raw_read st length) as [[rbytes|x] st'] eqn:Er; simpl;
          intros [= <- <-]; simpl.
        -- split_and!; [done| |right; by split; [|right]|].
           ++ intros fh' Hfh'. by rewrite !lookup_alter_ne.
           ++ exists st'. rewrite !lookup_alter_eq, He. simpl.
              by destruct e; simpl in *; subst.
        -- split_and!; [done| |right; by split; [|right]|by left].
           intros fh' Hfh'. by rewrite !lookup_alter_ne.
      * intros [= <- <-]. simpl.
        split_and!; [done|done|right; by split; [|right]|].
        right. split_and!; [done..|]. by exists d.
    + apply dec_stable in Hoff. rewrite He. simpl. rewrite Hf.
      intros [= <- <-]. simpl. split_and!; [done|done|by left|by left].
Qed.

(** A read that returns leaves the handle unlocked, with a stream and
    the expected offset [offset + len rbytes]; it makes at most one
    remote call, a download, and none when the handle has a stream and
    the offset is the expected one.  The next read at the offset the
    bytes end at makes no remote call. *)
Theorem read_sequential path length length' offset fh s e rbytes s' :
  openfh s !! fh = Some e → fh_lock e = false →
  read path length offset fh s = (Return rbytes, s') →
  (∃ st, openfh s' !! fh
         = Some (Build_fh_entry (fh_mode_of e) (F_raw st) false
                   (offset + len rbytes)))
  ∧ (trace s' = trace s ∨ trace s' = trace s ++ [Call_download path])
  ∧ ((∃ st, fh_f_of e = F_raw st) → fh_eoffset e = offset →
     trace s' = trace s)
  ∧ trace (snd (read path length' (offset + len rbytes) fh s')) = trace s'
  ∧ dbx (snd (read path length' (offset + len rbytes) fh s')) = dbx s'.
Proof.
  intros He Hl E.
  destruct (read_inv _ _ _ _ _ _ _ _ He Hl E) as (_ & _ & Htr & [st Hst]).
  split_and!.
  - by exists st.
  - destruct Htr as [(? & _)|(? & _)]; [by left|by right].
  - intros [st0 Hf] Hoff. destruct Htr as [(? & _)|(_ & [Hx|Hx])];
      [done|congruence..].
  - destruct (read path length' (offset + len rbytes) fh s') as [r2 s2] eqn:E2.
    destruct (read_inv _ _ _ _ _ _ _ _ Hst eq_refl E2)
      as (_ & _ & [(? & _)|(_ & [Hx|Hx])] & _); done.
  - destruct (read path length' (offset + len rbytes) fh s') as [r2 s2] eqn:E2.
    destruct (read_inv _ _ _ _ _ _ _ _ Hst eq_refl E2)
      as (_ & _ & [(_ & ? & _)|(_ & [Hx|Hx])] & _); done.
Qed.

(** A read on an open, unlocked handle does not end in the busy wait and
    leaves the cache and the other handles alone.  When it raises, it
    raises the I/O error, with one exception: the handle has a stream (or
    the bytes of a write), the offset is not the expected one, and the
    download that opens the file again fails; then the exception of the
    remote store leaves [read] as it is.  A read through a handle that
    holds the bytes of a write, at the expected offset, raises the I/O
    error with no remote call. *)
Theorem read_errors path length offset fh s e r s' :
  openfh s !! fh = Some e → fh_lock e = false →
  read path length offset fh s = (r, s') →
  r ≠ Spin
  ∧ cache s' = cache s
  ∧ (∀ fh', fh' ≠ fh → openfh s' !! fh' = openfh s !! fh')
  ∧ (∀ x, r = Raise x →
       x = FuseOSError EIO
       ∨ (fh_f_of e ≠ F_False ∧ fh_eoffset e ≠ offset
          ∧ ∃ d, files_download path (dbx s) = (Failed x, d)))
  ∧ (∀ u, fh_f_of e = F_dict u → fh_eoffset e = offset →
       r = Raise (FuseOSError EIO) ∧ trace s' = trace s).
Proof.
  intros He Hl E.
  destruct (read_inv _ _ _ _ _ _ _ _ He Hl E) as (Hc & Ho & Htr & Hr).
  split_and!; [by destruct r|done|done|by intros x ->|].
  intros u Hf Hoff. clear Hr Htr. revert E.
  unfold read, the_fh, f_read, the_fh. munfold. simpl.
  rewrite He. simpl. rewrite Hl, Hf. simpl.
  destruct (decide (fh_eoffset e ≠ offset)) as [|_]; [done|]. simpl.
  rewrite He. simpl. rewrite Hf. by intros [= <- <-].
Qed.

End Operations.

(** A folder [/b] is made with the listing of the root in the cache: the
    listing leaves the cache after the one call.  A rename of [/b]
    raises. *)
Lemma mutations_invalidate_witness :
  cache (snd (mkdir "/b" 493 listed_root)) !! "/" = None
  ∧ trace (snd (mkdir "/b" 493 listed_root))
    = trace listed_root ++ [Call_create_folder "/b"]
  ∧ rename "/b" "/c" listed_root = (Raise TypeError, listed_root).
Proof.
  destruct (mutations_invalidate "/b" "/c" 493 listed_root)
    as (Hmk & _ & _ & Hren).
  destruct (Hmk (Return 0) (snd (mkdir "/b" 493 listed_root)))
    as (Ht & _ & _ & Hgone).
  - vm_compute. reflexivity.
  - split_and!; [|exact Ht|exact Hren]. by apply (Hgone 0).
Defined.

(** [O_WRONLY | O_APPEND] is refused; a path the store does not have is
    opened. *)
Lemma open_flags_witness :
  open "/f" 1025 (mount Sim.store)
  = (Raise (FuseOSError EOPNOTSUPP), mount Sim.store)
  ∧ fst (open "/nowhere" 0 (mount Sim.store)) = Return (Some 1).
Proof.
  destruct (open_flags "/f" 1025 (mount Sim.store)) as [Happend _].
  destruct (open_flags "/nowhere" 0 (mount Sim.store)) as [_ Hplain].
  split.
  - by apply Happend.
  - destruct Hplain as [-> _]; [reflexivity|]. vm_compute. reflexivity.
Defined.

(** Four bytes of [/f] are read at offset 0, then three at offset 4: the
    second read makes no call. *)
Lemma read_sequential_witness :
  trace (snd (read "/f" 3 4 1 (snd (read "/f" 4 0 1 opened))))
  = trace (snd (read "/f" 4 0 1 opened)).
Proof.
  destruct (read_sequential "/f" 4 3 0 1 opened (new_fh mode_r)
              (take 4 Sim.digits) (snd (read "/f" 4 0 1 opened)))
    as (_ & _ & _ & Ht & _).
  - vm_compute. reflexivity.
  - reflexivity.
  - vm_compute. reflexivity.
  - exact Ht.
Defined.

(** A read through the handle that has written ten bytes of [/f]. *)
Lemma read_errors_witness :
  fst (read "/f" 4 0 1 written_10) = Raise (FuseOSError EIO)
  ∧ trace (snd (read "/f" 4 0 1 written_10)) = trace written_10.
Proof.
  destruct (read_errors "/f" 4 0 1 written_10
              (Build_fh_entry mode_w
                 (F_dict {| upload_id := "session-1"; up_offset := 10;
                            up_buf := Buf_str |}) false 0)
              (fst (read "/f" 4 0 1 written_10))
              (snd (read "/f" 4 0 1 written_10)))
    as (_ & _ & _ & _ & Hw).
  - vm_compute. reflexivity.
  - reflexivity.
  - by destruct (read "/f" 4 0 1 written_10).
  - by apply (Hw {| upload_id := "session-1"; up_offset := 10;
                    up_buf := Buf_str |}).
Defined.

(** ** The answers of [dbxMetadata] *)

Section Answers.

Context {R Stream : Type} `{Remote R Stream}.

Implicit Types (s : dbx_state R Stream).

Lemma set_entry_paths_displayed es s :
  Forall (λ tmp, is_Some (i_path_display tmp)) es →
  set_entry_paths es s
  = (Return ((λ tmp, set_path (default "" (i_path_display tmp)) tmp) <$> es),
     s).
Proof.
  induction 1 as [|tmp es [d Hd] _ IH]; simpl; [done|].
  rewrite Hd. munfold. by rewrite IH.
Qed.

Lemma set_entry_paths_raises es s x s' :
  set_entry_paths es s = (Raise x, s') → x = KeyError "path_display".
Proof.
  revert x s'. induction es as [|tmp es IH]; intros x s'; simpl; [done|].
  destruct (i_path_display tmp) as [d|]; [|by intros [= <- _]].
  munfold. destruct (set_entry_paths es s) as [[l|y|] s2] eqn:E; [done| |done].
  intros [= <- _]. by eapply IH.
Qed.

(** [dbxMetadata] does not use its argument [mhash].  It asks for the
    listing of the path, of the empty path for the root.  When that call
    fails it returns [False] after the one call, whatever the failure.
    When the call returns a listing without 'error', every entry of which
    has 'path_display', it returns the listing with 'path' set to the
    path asked for and, in every entry, to the entry's 'path_display'.
    The only exception that leaves it is the [KeyError] of an entry
    without 'path_display'. *)
Theorem dbxMetadata_answers path mhash s :
  dbxMetadata path mhash s = dbxMetadata path None s
  ∧ (∃ t, trace (snd (dbxMetadata path mhash s))
          = trace s
            ++ Call_list_folder (if decide (path = "/") then "" else path)
               :: t)
  ∧ (∀ x d,
       files_list_folder (query_path path) (dbx s) = (Failed x, d) →
       dbxMetadata path mhash s
       = (Return None,
          Build_dbx_state d (cache s) (openfh s) (runfh s)
            (trace s ++ [Call_list_folder (query_path path)])))
  ∧ (∀ result d es,
       files_list_folder (query_path path) (dbx s) = (Ok result, d) →
       i_error result = None → i_entries result = Some es →
       Forall (λ tmp, is_Some (i_path_display tmp)) es →
       dbxMetadata path mhash s
       = (Return
            (Some (set_entries
                     ((λ tmp, set_path (default "" (i_path_display tmp)) tmp)
                        <$> es)
                     (set_path path result))),
          Build_dbx_state d (cache s) (openfh s) (runfh s)
            (trace s ++ [Call_list_folder (query_path path)])))
  ∧ (∀ x s', dbxMetadata path mhash s = (Raise x, s') →
       x = KeyError "path_display").
Proof.
  split_and!.
  - reflexivity.
  - destruct (dbxMetadata path mhash s) as [r s1] eqn:E.
    by apply dbxMetadata_inv in E as (_ & _ & _ & Ht & _).
  - intros x d E. unfold dbxMetadata, call. fold (query_path path). munfold.
    by rewrite E.
  - intros result d es E Herr Hes Hall.
    unfold dbxMetadata, call. fold (query_path path). munfold.
    rewrite E. simpl. rewrite Herr. simpl. rewrite Hes.
    by rewrite (set_entry_paths_displayed _ _ Hall).
  - intros x s'. unfold dbxMetadata, call. fold (query_path path). munfold.
    destruct (files_list_folder (query_path path) (dbx s)) as [[result|y] d];
      simpl; [|done].
    assert (∀ result' s2,
      match i_entries (set_path path result') with
      | Some es =>
          λ s0, match set_entry_paths es s0 with
                | (Return a, s'0) =>
                    (Return (Some (set_entries a (set_path path result'))),
                     s'0)
                | (Raise e, s'0) => (Raise e, s'0)
                | (Spin, s'0) => (Spin, s'0)
                end
      | None => λ s0, (Return (Some (set_path path result')), s0)
      end s2 = (Raise x, s') → x = KeyError "path_display") as Htail.
    { intros result' s2. destruct (i_entries _) as [es|]; [|done].
      destruct (set_entry_paths es s2) as [[a|y|] s3] eqn:Ee; [done| |done].
      intros [= <- _]. by eapply set_entry_paths_raises. }
    destruct (i_error result) as [err|]; simpl; [|apply Htail].
    destruct (decide (err = "not_found")); simpl; [done|].
    destruct (decide (err = "not_folder")); simpl; [|done].
    destruct (files_get_metadata (query_path path) d) as [[result'|y] d'];
      simpl; [apply Htail|done].
Qed.

End Answers.

(** The root of the store is listed; the file [/f] is not a folder, the
    call fails and the answer is [False]. *)
Lemma dbxMetadata_answers_witness :
  fst (dbxMetadata "/f" None (mount Sim.store)) = Return None
  ∧ ∃ item, fst (dbxMetadata "/" None (mount Sim.store))
            = Return (Some item)
            ∧ i_path item = Some "/"
            ∧ i_path <$> default [] (i_entries item)
              = [Some "/a"; Some "/f"].
Proof.
  destruct (dbxMetadata_answers "/f" None (mount Sim.store))
    as (_ & _ & Hfail & _).
  destruct (dbxMetadata_answers "/" None (mount Sim.store))
    as (_ & _ & _ & Hok & _).
  split.
  - erewrite Hfail; [reflexivity|]. vm_compute. reflexivity.
  - eexists.
    rewrite (Hok (Sim.listing "/" Sim.store) Sim.store
               (default [] (i_entries (Sim.listing "/" Sim.store)))
               eq_refl eq_refl eq_refl).
    + split_and!; [reflexivity|reflexivity|]. vm_compute. reflexivity.
    + vm_compute. repeat constructor; by eexists.
Defined.

(** ** The refresh of a listing *)

Section Refresh.

Context {R Stream : Type} `{Remote R Stream}.
Variable cfg : config.

Implicit Types (s : dbx_state R Stream) (c : gmap string metadata).

(** The loop of the refresh leaves alone the paths no entry has. *)
Lemma cache_entries_other cachets es c q :
  Some q ∉ i_path <$> es → cache_entries cachets es c !! q = c !! q.
Proof.
  revert c. induction es as [|tmp es IH]; intros c; simpl; [done|].
  intros [Hne Hq]%not_elem_of_cons.
  destruct (decide (is_Some (i_entries tmp))); [by apply IH|].
  destruct (i_is_deleted tmp); [by apply IH|].
  destruct (i_path tmp) as [p|]; [|done].
  rewrite IH by done. apply lookup_insert_ne. congruence.
Qed.

(** The loop of the refresh caches, for the path of every entry that is
    neither a listing nor deleted, such an entry with the time stamp. *)
Lemma cache_entries_files cachets es c q :
  Forall has_path es →
  (∃ tmp, tmp ∈ es ∧ i_path tmp = Some q ∧ i_entries tmp = None
          ∧ i_is_deleted tmp = false)
  ∨ (∃ t, c !! q = Some t ∧ i_path t = Some q ∧ i_entries t = None
          ∧ i_cachets t = Some cachets) →
  ∃ t, cache_entries cachets es c !! q = Some t ∧ i_path t = Some q
       ∧ i_entries t = None ∧ i_cachets t = Some cachets.
Proof.
  intros Hall. revert c.
  induction Hall as [|tmp es [p Hp] _ IH]; intros c; simpl.
  - intros [(tmp & Hin & _)|Hc]; [inversion Hin|done].
  - intros Hq.
    destruct (decide (is_Some (i_entries tmp))) as [[l Hl]|Hfile].
    { apply IH. destruct Hq as [(t & Hin & Ht & Hf & Hd)|Hc]; [|by right].
      left. exists t. split_and!; [|done..].
      apply elem_of_cons in Hin as [->|Hin]; [congruence|done]. }
    destruct (i_is_deleted tmp) eqn:Hdel.
    { apply IH. destruct Hq as [(t & Hin & Ht & Hf & Hd)|Hc]; [|by right].
      left. exists t. split_and!; [|done..].
      apply elem_of_cons in Hin as [->|Hin]; [congruence|done]. }
    rewrite Hp. apply IH.
    assert (i_entries tmp = None) as Hnone.
    { destruct (i_entries tmp); [|done]. destruct Hfile. by eexists. }
    destruct (decide (p = q)) as [->|Hne].
    + right. exists (set_cachets cachets tmp).
      by rewrite lookup_insert_eq.
    + rewrite lookup_insert_ne by done.
      destruct Hq as [(t & Hin & Ht & Hf & Hd)|Hc]; [|by right].
      left. exists t. split_and!; [|done..].
      apply elem_of_cons in Hin as [->|Hin]; [congruence|done].
Qed.

(** A listing whose time stamp has passed is looked up and the remote
    store answers a new listing.  The lookup returns the new listing with
    the time stamp [now + cache_time].  Every path of an entry that is
    neither a listing nor deleted is cached with such an entry, stamped,
    and is answered from the cache at any later time.  Unless an entry
    has the path of the listing itself, the new listing is cached under
    the path and answers the lookups up to the time of its stamp without
    a remote call. *)
Theorem refresh_restamps now path deep s item es ts new s1 es' :
  cache s !! path = Some item →
  i_entries item = Some es → i_cachets item = Some ts → ts < now →
  i_contents item = None →
  dbxMetadata path (i_id item) s = (Return (Some new), s1) →
  i_is_deleted new = false → i_entries new = Some es' →
  ∃ s',
    getDropboxMetadata cfg now path deep s
    = (Return
         (Some (set_entries (stamp_entries (now + cache_time cfg) es')
                  (set_cachets (now + cache_time cfg) new))), s')
    ∧ (∀ tmp, tmp ∈ es' → i_entries tmp = None → i_is_deleted tmp = false →
         ∃ q t, i_path tmp = Some q ∧ cache s' !! q = Some t
                ∧ i_path t = Some q ∧ i_entries t = None
                ∧ i_cachets t = Some (now + cache_time cfg)
                ∧ ∀ now', getDropboxMetadata cfg now' q false s'
                          = (Return (Some t), s'))
    ∧ (Some path ∉ i_path <$> es' →
       ∀ now', now' ≤ now + cache_time cfg →
         getDropboxMetadata cfg now' path false s'
         = (Return
              (Some (set_entries (stamp_entries (now + cache_time cfg) es')
                       (set_cachets (now + cache_time cfg) new))), s')).
Proof.
  intros Hc Hes Hts Hlt Hcont Ef Hdel Hes'.
  destruct (dbxMetadata_inv _ _ _ _ _ Ef) as (Hc1 & _ & _ & _ & _ & Hnew).
  destruct (Hnew _ eq_refl) as [Hpath Hall]. specialize (Hall _ Hes').
  destruct (removeFromCache_plain path s1 item) as (s2 & Er & Hgone & _);
    [by rewrite Hc1|by right|].
  set (cachets := now + cache_time cfg).
  set (item' := set_entries (stamp_entries cachets es')
                  (set_cachets cachets new)).
  exists (set_cache (cache_entries cachets es' (<[path := item']> (cache s2)))
            s2).
  assert (∀ q it now' s0,
            cache s0 !! q = Some it → fresh now' it →
            getDropboxMetadata cfg now' q false s0 = (Return (Some it), s0))
    as Hhit.
  { intros q it now' s0 Hq Hfresh. unfold getDropboxMetadata. munfold. simpl.
    rewrite Hq. destruct Hfresh as [->|(ts' & Hts' & Hle)]; [done|].
    destruct (i_entries it); [|done]. rewrite Hts'. simpl.
    by destruct (Z.ltb_spec ts' now'); [lia|]. }
  split_and!.
  - unfold getDropboxMetadata. munfold. simpl. rewrite Hc, Hes, Hts. simpl.
    destruct (Z.ltb_spec ts now); [|lia]. simpl.
    unfold refresh. munfold. rewrite Ef. simpl. rewrite Hdel, Er. simpl.
    by rewrite Hes'.
  - intros tmp Hin Hfile Hlive.
    destruct (proj1 (Forall_forall _ _) Hall tmp Hin) as [q Hq].
    destruct (cache_entries_files cachets es' (<[path := item']> (cache s2)) q
                Hall) as (t & Ht & Htp & Hte & Htc).
    { left. by exists tmp. }
    exists q, t. split_and!; [done..|].
    intros now'. apply Hhit; [done|by left].
  - intros Hself now' Hle. apply Hhit.
    + simpl. rewrite cache_entries_other by done. apply lookup_insert_eq.
    + right. by exists cachets.
Qed.

End Refresh.

(** The listing of the root, stamped 1120, is looked up at time 2000: the
    new listing has the stamp 2120, as has the dictionary cached for
    [/f]. *)
Lemma refresh_restamps_witness :
  cache refreshed_root !! "/f" = Some child_f
  ∧ ∃ item, fst (getDropboxMetadata Sim.cfg_default 2000 "/" false
                   listed_root) = Return (Some item)
            ∧ getDropboxMetadata Sim.cfg_default 2120 "/" false
                refreshed_root = (Return (Some item), refreshed_root).
Proof.
  destruct (refresh_restamps Sim.cfg_default 2000 "/" false listed_root
              root_listing
              (default [] (i_entries root_listing)) 1120
              (default root_listing
                 (match fst (dbxMetadata "/" None listed_root) with
                  | Return r => r
                  | _ => None
                  end))
              (snd (dbxMetadata "/" None listed_root))
              (default []
                 (i_entries
                    (default root_listing
                       (match fst (dbxMetadata "/" None listed_root) with
                        | Return r => r
                        | _ => None
                        end)))))
    as (s' & Hr & Hfiles & Hself).
  - vm_compute. reflexivity.
  - reflexivity.
  - reflexivity.
  - lia.
  - reflexivity.
  - vm_compute. reflexivity.
  - vm_compute. reflexivity.
  - vm_compute. reflexivity.
  - assert (s' = refreshed_root) as ->.
    { unfold refreshed_root. by rewrite Hr. }
    split; [vm_compute; reflexivity|].
    eexists. split; [by rewrite Hr|].
    apply Hself; [|vm_compute; discriminate]. vm_compute.
    intros Hin. repeat (apply elem_of_cons in Hin as [Hin|Hin];
                        [discriminate|]).
    inversion Hin.
Defined.

(** ** No append is ever sent *)

Section Appends.

Context {R Stream : Type} `{Remote R Stream}.
Variable cfg : config.

Implicit Types (s : dbx_state R Stream) (fh : Z).

Abbreviation KEPT := (@kept_without_session R Stream).

Lemma kept_only : handles_only KEPT.
Proof. intros s s' Ho _ HK fh e f b. rewrite Ho. apply HK. Qed.

Lemma kept_init (d : R) : KEPT (init d).
Proof. intros fh e f b. simpl. by rewrite lookup_empty. Qed.

(** An update of the dictionary of a handle that leaves 'f' as it is or
    makes it a stream. *)
Lemma kept_alter (g : fh_entry Stream → fh_entry Stream) fh :
  (∀ e, fh_f_of (g e) = fh_f_of e ∨ ∃ st, fh_f_of (g e) = F_raw st) →
  keeps KEPT (modify_openfh (alter g fh)).
Proof.
  intros Hg. apply keeps_modify. intros s HK fh' e' f b. simpl.
  destruct (decide (fh = fh')) as [<-|Hne].
  - rewrite lookup_alter_eq. destruct (openfh s !! fh) as [e|] eqn:He; [|done].
    intros [= <-]. destruct (Hg e) as [->|[st ->]]; [|done].
    intros Hf Hb. by apply (HK fh e f b).
  - rewrite lookup_alter_ne by done. apply HK.
Qed.

Lemma kept_insert_fresh fh mode :
  keeps KEPT (modify_openfh (insert fh (new_fh mode))).
Proof.
  apply keeps_modify. intros s HK fh' e' f b. simpl.
  destruct (decide (fh = fh')) as [<-|Hne].
  - rewrite lookup_insert_eq. by intros [= <-].
  - rewrite lookup_insert_ne by done. apply HK.
Qed.

Lemma kept_delete fh : keeps KEPT (modify_openfh (delete fh)).
Proof.
  apply keeps_modify. intros s HK fh' e' f b. simpl.
  destruct (decide (fh = fh')) as [<-|Hne].
  - by rewrite lookup_delete_eq.
  - rewrite lookup_delete_ne by done. apply HK.
Qed.

Lemma kept_runfh u : keeps KEPT (modify_runfh u).
Proof. apply keeps_modify. intros s HK fh e f b. apply HK. Qed.

#[local] Hint Resolve keeps_call keeps_modify_cache keeps_removeFromCache
  keeps_the_fh kept_only kept_insert_fresh kept_delete kept_runfh : keeps.
#[local] Hint Extern 1 (keeps _ (modify_openfh (alter _ _))) =>
  apply kept_alter; intros []; simpl; eauto : keeps.
#[local] Hint Extern 1 (keeps _ (dbxFilehandle _ _)) =>
  unfold dbxFilehandle : keeps.
#[local] Hint Extern 1 (keeps _ (dbxChunkedUpload _ _ _)) =>
  unfold dbxChunkedUpload : keeps.
#[local] Hint Extern 1 (keeps _ (dbxCommitChunkedUpload _ _ _)) =>
  unfold dbxCommitChunkedUpload : keeps.
#[local] Hint Extern 1 (keeps _ (f_read _ _)) => unfold f_read : keeps.

Lemma kept_read path length offset fh :
  keeps KEPT (read path length offset fh).
Proof. unfold read. auto 30 with keeps. Qed.

Lemma kept_getFH mode : keeps KEPT (getFH mode).
Proof. unfold getFH. auto 30 with keeps. Qed.

Lemma kept_releaseFH fh : keeps KEPT (releaseFH fh).
Proof. unfold releaseFH. auto 30 with keeps. Qed.

#[local] Hint Resolve kept_getFH kept_releaseFH : keeps.

Lemma kept_open path flags : keeps KEPT (open path flags).
Proof. unfold open. auto 30 with keeps. Qed.

Lemma kept_create now_str path mode : keeps KEPT (create now_str path mode).
Proof. unfold create. auto 30 with keeps. Qed.

Lemma kept_release path fh : keeps KEPT (release path fh).
Proof. unfold release. auto 30 with keeps. Qed.

(** [write] keeps bytes only on a handle without a session. *)
Lemma kept_write path buf offset fh :
  keeps KEPT (write cfg path buf offset fh).
Proof.
  intros s HK. rewrite write_unfold.
  assert (∀ (u : upload) s1,
            openfh s1 = openfh s →
            (∀ b, up_buf u = Buf_bytes b → upload_id u = "" ∧ up_offset u = 0) →
            KEPT (set_openfh (alter (set_f (F_dict u)) fh (openfh s1)) s1))
    as Hset.
  { intros u s1 Ho Hu fh' e' f b. simpl. rewrite Ho.
    destruct (decide (fh = fh')) as [<-|Hne].
    - rewrite lookup_alter_eq.
      destruct (openfh s !! fh) as [e|]; [|done].
      intros [= <-] [= <-]. apply Hu.
    - rewrite lookup_alter_ne by done. apply HK. }
  destruct (openfh s !! fh) as [e|] eqn:He; [|done].
  destruct (fh_f_of e) as [|st|f] eqn:Hf; [|done|].
  - destruct (decide _).
    + destruct (dbxChunkedUpload buf "" 0 s) as [r s1] eqn:E.
      assert (openfh s1 = openfh s ∧ KEPT s1) as [Ho HK1].
      { revert E. rewrite dbxChunkedUpload_start.
        destruct (files_upload_session_start buf (dbx s)) as [[res|x] d];
          [destruct (session_id res)|]; intros [= _ <-];
          by split; [|apply (kept_only s)]. }
      destruct r as [res| |]; [|done..]. by apply Hset.
    + apply Hset; [done|]. by intros b [= <-].
  - destruct (up_buf f) as [|b] eqn:Hb; [done|].
    destruct (HK _ _ _ _ He Hf Hb) as [Hid Hoff].
    destruct (decide _).
    + destruct (dbxChunkedUpload (b ++ buf) (upload_id f) (up_offset f) s)
        as [r s1] eqn:E.
      assert (openfh s1 = openfh s ∧ KEPT s1) as [Ho HK1].
      { revert E. rewrite Hid, dbxChunkedUpload_start.
        destruct (files_upload_session_start _ (dbx s)) as [[res|x] d];
          [destruct (session_id res)|]; intros [= _ <-];
          by split; [|apply (kept_only s)]. }
      destruct r as [res| |]; [|done..]. by apply Hset.
    + apply Hset; [done|]. by intros b' _.
Qed.

(** In every state of a mount, a handle that keeps bytes has no upload
    session.  So no append is ever sent: a [write] makes no remote call
    or one session start, and a [release] makes no remote call or one
    commit; the bytes reach the remote store through session starts
    only. *)
Theorem mount_never_appends d s :
  reachable cfg d s →
  kept_without_session s
  ∧ (∀ path buf offset fh,
       trace (snd (write cfg path buf offset fh s)) = trace s
       ∨ ∃ data, trace (snd (write cfg path buf offset fh s))
                 = trace s ++ [Call_session_start data])
  ∧ (∀ path fh,
       trace (snd (release path fh s)) = trace s
       ∨ ∃ uid off, trace (snd (release path fh s))
                    = trace s ++ [Call_session_finish path uid off]).
Proof.
  intros Hreach.
  assert (KEPT s) as HK.
  { induction Hreach as [|q s _ IH]; [apply kept_init|].
    destruct (keeps_metadata_ops cfg _ kept_only)
      as (H1 & H2 & H3 & H4 & H5 & H6 & H7 & H8).
    destruct q; simpl.
    - by apply H1.
    - by apply H2.
    - by apply H3.
    - exact IH.
    - by apply kept_read.
    - by apply kept_write.
    - by apply kept_open.
    - by apply kept_create.
    - by apply kept_release.
    - done.
    - by apply H6.
    - by apply H5.
    - done.
    - by apply H7.
    - by apply H8. }
  split_and!; [done| |].
  - intros path buf offset fh. rewrite write_unfold.
    assert (∀ data,
      trace (snd (match dbxChunkedUpload data "" 0 s with
                  | (Return result, s') =>
                      (Return (len buf),
                       set_openfh
                         (alter (set_f (F_dict
                            {| upload_id := fst result;
                               up_offset := snd result;
                               up_buf := Buf_str |})) fh (openfh s')) s')
                  | (_, s') => (Raise (FuseOSError EIO), s')
                  end))
      = trace s ++ [Call_session_start data]) as Hstart.
    { intros data. rewrite dbxChunkedUpload_start.
      destruct (files_upload_session_start data (dbx s)) as [[res|x] d0];
        [destruct (session_id res)|]; done. }
    destruct (openfh s !! fh) as [e|] eqn:He; [|by left].
    destruct (fh_f_of e) as [|st|f] eqn:Hf; [|by left|].
    + destruct (decide _); [|by left]. right. exists buf. apply Hstart.
    + destruct (up_buf f) as [|b] eqn:Hb; [by left|].
      destruct (HK _ _ _ _ He Hf Hb) as [Hid Hoff].
      destruct (decide _); [|by left]. right. exists (b ++ buf).
      rewrite Hid, Hoff. apply Hstart.
  - intros path fh.
    assert (∀ s1, trace (snd (releaseFH fh s1)) = trace s1) as Hrel.
    { intros s1.
      unfold releaseFH, bind, gets, modify_openfh, modify_runfh, modify.
      simpl. destruct (decide _); [|done]. simpl. by destruct (decide _). }
    assert (∀ s1, trace (snd (removeFromCache (dirname path) s1)) = trace s1)
      as Hrm.
    { intros s1. destruct (removeFromCache _ s1) as [r s2] eqn:E.
      by apply removeFromCache_inv in E as (-> & _). }
    assert (∀ (m : fh_mode) s1,
      trace (snd (bind (match m with
                        | mode_w =>
                            removeFromCache (dirname path) ;;; ret tt
                        | mode_r => ret tt
                        end) (λ _, releaseFH fh ;;; ret 0) s1))
      = trace s1) as Hend.
    { intros m s1. unfold bind, ret. destruct m.
      - specialize (Hrel s1). by destruct (releaseFH fh s1) as [[]].
      - specialize (Hrm s1).
        destruct (removeFromCache (dirname path) s1) as [[] s2];
          simpl in *; [|done..].
        specialize (Hrel s2). destruct (releaseFH fh s2) as [[]];
          simpl in *; congruence. }
    destruct (openfh s !! fh) as [e|] eqn:He.
    2:{ left. unfold release, the_fh, bind, gets. simpl. by rewrite He. }
    destruct (fh_f_of e) as [|st|f] eqn:Hf.
    + left. specialize (Hend (fh_mode_of e) s). revert Hend.
      unfold release, the_fh, bind, gets, ret. simpl. rewrite He, Hf.
      by destruct (fh_mode_of e).
    + left. specialize (Hend (fh_mode_of e) s). revert Hend.
      unfold release, the_fh, bind, gets, ret. simpl. rewrite He, Hf.
      by destruct (fh_mode_of e).
    + destruct (decide (upload_id f ≠ "")) as [Hid|Hid].
      2:{ left. specialize (Hend (fh_mode_of e) s). revert Hend.
          unfold release, the_fh, bind, gets, ret. simpl. rewrite He, Hf.
          destruct (decide (upload_id f ≠ "")); [done|].
          by destruct (fh_mode_of e). }
      destruct (up_buf f) as [|b] eqn:Hb.
      2:{ by destruct (HK _ _ _ _ He Hf Hb) as [? _]. }
      right. exists (upload_id f), (up_offset f).
      destruct (files_upload_session_finish [] (upload_id f) (up_offset f)
                  path (dbx s)) as [[it|x] d0] eqn:Efin.
      * specialize (Hend (fh_mode_of e)
                      (Build_dbx_state d0 (cache s) (openfh s) (runfh s)
                         (trace s ++ [Call_session_finish path (upload_id f)
                                        (up_offset f)]))).
        revert Hend.
        unfold release, the_fh, dbxCommitChunkedUpload, call, bind, gets,
          ret. simpl. rewrite He, Hf, Hb.
        destruct (decide (upload_id f ≠ "")); [|done]. rewrite Efin.
        by destruct (fh_mode_of e).
      * unfold release, the_fh, dbxCommitChunkedUpload, call, bind, gets,
          ret. simpl. rewrite He, Hf, Hb.
        destruct (decide (upload_id f ≠ "")); [|done]. by rewrite Efin.
Qed.

End Appends.

(** The state after [create] and a write of ten bytes is a state of the
    mount: a second write makes no call, and the release commits. *)
Lemma mount_never_appends_witness :
  trace (snd (write Sim.cfg_4096 "/f" five 10 1
                (serve Sim.cfg_4096 (Write "/f" ten 0 1)
                   (serve Sim.cfg_4096
                      (Create "2024-05-01T10:00:00Z" "/f" 33188)
                      (init Sim.empty_store)))))
  = [Call_session_start ten]
  ∧ trace (snd (release "/f" 1
                  (serve Sim.cfg_4096 (Write "/f" ten 0 1)
                     (serve Sim.cfg_4096
                        (Create "2024-05-01T10:00:00Z" "/f" 33188)
                        (init Sim.empty_store)))))
    = [Call_session_start ten; Call_session_finish "/f" "session-1" 10].
Proof.
  destruct (mount_never_appends Sim.cfg_4096 Sim.empty_store
              (serve Sim.cfg_4096 (Write "/f" ten 0 1)
                 (serve Sim.cfg_4096
                    (Create "2024-05-01T10:00:00Z" "/f" 33188)
                    (init Sim.empty_store))))
    as (_ & Hw & Hr).
  - apply reach_serve, reach_serve, reach_init.
  - split.
    + destruct (Hw "/f" five 10 1) as [->|[data Hd]].
      * vm_compute. reflexivity.
      * vm_compute in Hd. discriminate.
    + destruct (Hr "/f" 1) as [Hn|(uid & off & Hc)].
      * vm_compute in Hn. discriminate.
      * vm_compute. reflexivity.
Defined.

(** ** The handle table on concrete tables *)

(** Every id of the range is a key of the table built over the range. *)
Lemma lookup_full {A} (x : A) (i : Z) :
  1 ≤ i ≤ 8192 →
  (list_to_map ((λ i, (i, x)) <$> seqZ 1 8192) : gmap Z A) !! i = Some x.
Proof.
  intros Hi. apply elem_of_list_to_map_1.
  - rewrite <- list_fmap_compose.
    replace (fst ∘ (λ i : Z, (i, x)) <$> seqZ 1 8192) with (seqZ 1 8192);
      [apply NoDup_seqZ|].
    by rewrite <- (list_fmap_id (seqZ 1 8192)) at 1.
  - apply list_elem_of_fmap. exists i. split; [done|].
    apply elem_of_seqZ. lia.
Qed.

Lemma full_table_openfh i :
  1 ≤ i ≤ 8192 → openfh full_table !! i = Some (new_fh mode_r).
Proof.
  intros Hi. unfold full_table. cbn [openfh]. apply lookup_full. exact Hi.
Qed.

Lemma full_table_runfh i :
  1 ≤ i ≤ 8192 → runfh full_table !! i = Some false.
Proof.
  intros Hi. unfold full_table. cbn [runfh]. apply lookup_full. exact Hi.
Qed.

Lemma full_table_full i :
  1 ≤ i ≤ 8192 → is_Some (openfh full_table !! i).
Proof. intros Hi. exists (new_fh mode_r). apply full_table_openfh, Hi. Qed.

(** On the empty table the first id is 1 and three calls hand out 1, 2, 3;
    on the full table the call returns [False]; after giving back 7 the
    full table hands out 7. *)
Lemma getFH_allocation_witness :
  fst (getFH mode_w (mount Sim.empty_store)) = Return (Some 1)
  ∧ fst (allocate 3 mode_w (mount Sim.empty_store))
    = Return [Some 1; Some 2; Some 3]
  ∧ getFH mode_w full_table = (Return None, full_table)
  ∧ ∃ s1 s2, releaseFH 7 full_table = (Return None, s1)
             ∧ getFH mode_w s1 = (Return (Some 7), s2).
Proof.
  split; [|split; [|split]].
  - destruct (getFH_allocation mode_w (mount Sim.empty_store)) as (H1 & _).
    rewrite (H1 1); [reflexivity|lia|reflexivity|intros; lia].
  - destruct (getFH_allocation mode_w (mount Sim.empty_store))
      as (_ & _ & H3 & _).
    destruct (H3 3%nat) as [-> _]; [lia|reflexivity|reflexivity].
  - destruct (getFH_allocation mode_w full_table) as (_ & _ & _ & _ & H5).
    apply H5, full_table_full.
  - destruct (getFH_allocation mode_w full_table) as (_ & _ & _ & H4 & _).
    destruct (H4 7 (new_fh mode_r) false) as (s1 & j & s2 & E1 & E2 & _ & Hj);
      [lia|apply full_table_openfh; lia|apply full_table_runfh; lia|].
    assert (j = 7) as -> by (apply Hj; intros k Hk; apply full_table_full; lia).
    exists s1, s2. split; [exact E1|exact E2].
Defined.


